(** * CloudFormation waiters and the MSK connector read handler

    A shallow embedding of
    - [aws/internal/service/cloudformation/waiter/waiter.go]: the wait
      operations built on the plugin SDK's state-change helper, and the
      failure classifiers that read the stack event log;
    - [aws/resource_aws_msk_connector.go]: [resourceAwsMskConnectorRead].

    Go values are modelled as the code has them: a [*string] is an
    [option string] ([None] is the nil pointer), an [interface{}] holding
    one of the SDK's response objects is an [option Raw], an [error] is an
    [option error] ([None] is nil), and a closure that appends to a captured
    slice is a state transformer on that slice. *)

From Stdlib Require Import String Ascii List ZArith Bool Lia Permutation.
Import ListNotations.

Set Implicit Arguments.

Local Open Scope string_scope.
Local Open Scope list_scope.

(** ** Strings *)

(** [aws.StringValue]: the pointed-to string, or the empty string for nil. *)
Definition StringValue (p : option string) : string :=
  match p with
  | Some s => s
  | None => ""
  end.

(** [strings.HasPrefix]: [len(s) >= len(prefix) && s[0:len(prefix)] == prefix]. *)
Definition HasPrefix (s prefix : string) : bool :=
  (String.length prefix <=? String.length s)%nat
  && (substring 0 (String.length prefix) s =? prefix).

(** [strings.HasSuffix]:
    [len(s) >= len(suffix) && s[len(s)-len(suffix):] == suffix]. *)
Definition HasSuffix (s suffix : string) : bool :=
  (String.length suffix <=? String.length s)%nat
  && (substring (String.length s - String.length suffix)
                (String.length suffix) s =? suffix).

(** ** Errors *)

(** The operands of a format string other than the [%w] one. *)
Inductive fmtArg : Type :=
| ArgString (s : string)           (* formatted with %s *)
| ArgStrings (l : list string).    (* a []string formatted with %q *)

(** Modelled from the spec: the error kinds [TimeoutError] and
    [UnrecognizedStatusError] of the state-change helper (package
    [helper/resource] of the plugin SDK, not among the sources).

    The other two constructors are Go's own error values.  [fmt.Errorf] is
    kept structured (format, operands, and the operand of [%w], which is
    what [errors.Unwrap] returns) rather than rendered to text; without a
    [%w] operand it is an [errors.New] of the formatted text. *)
#[warnings="-register-all"]
Inductive error : Type :=
| errors_New (text : string)
| fmt_Errorf (format : string) (args : list fmtArg) (wrapped : option error)
| TimeoutError (timeout : Z)
| UnrecognizedStatusError (status : string).

(** [errors.Unwrap]. *)
Definition Unwrap (e : error) : option error :=
  match e with
  | fmt_Errorf _ _ w => w
  | _ => None
  end.

(** ** The SDK's response objects *)

(** [cloudformation.Stack]; the fields carry the record's name as a prefix,
    as [StackStatus] is also the name of the waiter package's refresher. *)
Record Stack : Type := {
  Stack_StackId : option string;
  Stack_StackStatus : option string;
  Stack_StackStatusReason : option string
}.

(** [cloudformation.DescribeChangeSetOutput]; its fields [Status] and
    [StatusReason] carry the record's name as a prefix here, since
    [StackSetOperation] has a [Status] as well. *)
Record DescribeChangeSetOutput : Type := {
  ChangeSet_ChangeSetId : option string;
  ChangeSet_Status : option string;
  ChangeSet_StatusReason : option string
}.

Record StackSetOperation : Type := {
  Operation_OperationId : option string;
  Operation_Status : option string
}.

Record DescribeTypeRegistrationOutput : Type := {
  Registration_ProgressStatus : option string;
  Registration_TypeArn : option string
}.

Record StackSetOperationResultSummary : Type := {
  Summary_Account : option string;
  Summary_Region : option string;
  Summary_Status : option string;
  Summary_StatusReason : option string
}.

Record StackEvent : Type := {
  LogicalResourceId : option string;
  ResourceStatus : option string;
  ResourceStatusReason : option string;
  ResourceType : option string
}.

(** What the [interface{}] result of a refresh can hold. *)
Inductive Raw : Type :=
| RawStack (s : Stack)
| RawChangeSet (o : DescribeChangeSetOutput)
| RawOperation (o : StackSetOperation)
| RawRegistration (o : DescribeTypeRegistrationOutput).

(** The type assertions of [outputRaw] to a pointer to [cloudformation.Stack],
    [cloudformation.DescribeChangeSetOutput], ..., with their [ok]. *)
Definition asStack (outputRaw : option Raw) : option Stack :=
  match outputRaw with
  | Some (RawStack s) => Some s
  | _ => None
  end.

Definition asChangeSet (outputRaw : option Raw) : option DescribeChangeSetOutput :=
  match outputRaw with
  | Some (RawChangeSet o) => Some o
  | _ => None
  end.

Definition asOperation (outputRaw : option Raw) : option StackSetOperation :=
  match outputRaw with
  | Some (RawOperation o) => Some o
  | _ => None
  end.

Definition asRegistration (outputRaw : option Raw)
  : option DescribeTypeRegistrationOutput :=
  match outputRaw with
  | Some (RawRegistration o) => Some o
  | _ => None
  end.

(** ** Status constants *)

(** Modelled from the spec: the status enumerations of the AWS SDK's
    [cloudformation] package, which is not among the sources.  The values
    are the service's own status strings, of which the spec writes
    ["CREATE_FAILED"], ["UPDATE_FAILED"], ["ROLLBACK_IN_PROGRESS"] and
    ["ROLLBACK_COMPLETE"]. *)
Definition StackStatusCreateInProgress := "CREATE_IN_PROGRESS".
Definition StackStatusCreateComplete := "CREATE_COMPLETE".
Definition StackStatusCreateFailed := "CREATE_FAILED".
Definition StackStatusDeleteInProgress := "DELETE_IN_PROGRESS".
Definition StackStatusDeleteComplete := "DELETE_COMPLETE".
Definition StackStatusDeleteFailed := "DELETE_FAILED".
Definition StackStatusRollbackInProgress := "ROLLBACK_IN_PROGRESS".
Definition StackStatusRollbackComplete := "ROLLBACK_COMPLETE".
Definition StackStatusRollbackFailed := "ROLLBACK_FAILED".
Definition StackStatusUpdateInProgress := "UPDATE_IN_PROGRESS".
Definition StackStatusUpdateComplete := "UPDATE_COMPLETE".
Definition StackStatusUpdateCompleteCleanupInProgress :=
  "UPDATE_COMPLETE_CLEANUP_IN_PROGRESS".
Definition StackStatusUpdateRollbackInProgress := "UPDATE_ROLLBACK_IN_PROGRESS".
Definition StackStatusUpdateRollbackComplete := "UPDATE_ROLLBACK_COMPLETE".
Definition StackStatusUpdateRollbackFailed := "UPDATE_ROLLBACK_FAILED".
Definition StackStatusUpdateRollbackCompleteCleanupInProgress :=
  "UPDATE_ROLLBACK_COMPLETE_CLEANUP_IN_PROGRESS".

Definition ChangeSetStatusCreatePending := "CREATE_PENDING".
Definition ChangeSetStatusCreateInProgress := "CREATE_IN_PROGRESS".
Definition ChangeSetStatusCreateComplete := "CREATE_COMPLETE".
Definition ChangeSetStatusFailed := "FAILED".

Definition StackSetOperationStatusRunning := "RUNNING".
Definition StackSetOperationStatusSucceeded := "SUCCEEDED".
Definition StackSetOperationStatusFailed := "FAILED".

Definition RegistrationStatusInProgress := "IN_PROGRESS".
Definition RegistrationStatusComplete := "COMPLETE".

Definition ResourceStatusDeleteInProgress := "DELETE_IN_PROGRESS".

(** [time.Duration]: a count of nanoseconds. *)
Definition Second : Z := 1000000000.
Definition Minute : Z := 60 * Second.

Definition ChangeSetCreatedTimeout : Z := 5 * Minute.
Definition stackSetOperationDelay : Z := 5 * Second.
Definition stackCreatedMinTimeout : Z := 1 * Second.
Definition stackUpdatedMinTimeout : Z := 5 * Second.
Definition stackDeletedMinTimeout : Z := 5 * Second.
Definition TypeRegistrationTimeout : Z := 5 * Minute.

(** ** Event classification *)

Definition isFailedEvent (event : StackEvent) : bool :=
  HasSuffix (StringValue (ResourceStatus event)) "_FAILED"
  && match ResourceStatusReason event with Some _ => true | None => false end.

Definition isRollbackEvent (event : StackEvent) : bool :=
  HasPrefix (StringValue (ResourceStatus event)) "ROLLBACK_"
  && match ResourceStatusReason event with Some _ => true | None => false end.

Definition isStackDeletionEvent (event : StackEvent) : bool :=
  (StringValue (ResourceStatus event) =? ResourceStatusDeleteInProgress)
  && (StringValue (ResourceType event) =? "AWS::CloudFormation::Stack")
  && match ResourceStatusReason event with Some _ => true | None => false end.

(** ** Paginated listings *)

(** Modelled from the spec: one answer of the remote paginated API (not
    among the sources): a page (possibly nil) with the flag the service
    gives for the last page, or an error. *)
Inductive PageFetch (P : Type) : Type :=
| PageOk (page : option P) (lastPage : bool)
| PageErr (e : error).

Arguments PageOk {P} page lastPage.
Arguments PageErr {P} e.

(** Modelled from the spec: the page iteration of the AWS SDK
    ([ListStackSetOperationResultsPages], [DescribeStackEventsPages]), which
    is not among the sources.  Pages are fetched one by one; the callback
    gets each page with the last-page flag and says whether to go on; the
    iteration continues until the service signals the last page; a paging
    error aborts the whole call and is returned.  [st] is the state the
    callback's closure captures. *)
Fixpoint Pages {P St : Type} (answers : list (PageFetch P))
    (fn : option P -> bool -> St -> St * bool) (st : St)
  : St * option error :=
  match answers with
  | [] => (st, None)
  | PageErr e :: _ => (st, Some e)
  | PageOk page lastPage :: rest =>
      let '(st', continue) := fn page lastPage st in
      if continue && negb lastPage then Pages rest fn st' else (st', None)
  end.

(** Modelled from the spec: [lister.ListStackEventsForOperation] (package
    [lister] of this repository, not among the sources), the spec's
    [forEachEvent(handle, predicate) -> error]: the records of each page are
    handed to [fn] one by one, in the order the service lists them, page
    after page. *)
Definition ListStackEventsForOperation {St : Type}
    (answers : list (PageFetch (list StackEvent)))
    (fn : StackEvent -> St -> St) (st : St) : St * option error :=
  Pages answers
    (fun page lastPage st =>
       (fold_left (fun st e => fn e st)
                  (match page with Some es => es | None => [] end) st,
        negb lastPage))
    st.

(** What a refresher ([resource.StateRefreshFunc]) returns:
    [(result interface{}, state string, err error)]. *)
Record RefreshResult : Type := {
  result : option Raw;
  state : string;
  err : option error
}.

(** Modelled from the spec: the remote service behind the client
    [cloudformation.CloudFormation] (AWS SDK, not among the sources), as one
    caller sees it: what the successive status queries answer, and what the
    paginated listings answer, each for the handle given in the request. *)
Record CloudFormation : Type := {
  (* stackID *)
  DescribeStacks : string -> list RefreshResult;
  (* stackID, changeSetName *)
  DescribeChangeSet : string -> string -> list RefreshResult;
  (* stackSetName, operationID *)
  DescribeStackSetOperation : string -> string -> list RefreshResult;
  (* registrationToken *)
  DescribeTypeRegistration : string -> list RefreshResult;
  (* stackID, requestToken *)
  DescribeStackEventsPages :
    string -> string -> list (PageFetch (list StackEvent));
  (* stackSetName, operationID *)
  ListStackSetOperationResultsPages :
    string -> string -> list (PageFetch (list StackSetOperationResultSummary))
}.

Definition getCloudFormationDeletionReasons (conn : CloudFormation)
    (stackID requestToken : string) : list string * option error :=
  let failures : list string := [] in
  ListStackEventsForOperation (DescribeStackEventsPages conn stackID requestToken)
    (fun e failures =>
       if isFailedEvent e || isStackDeletionEvent e
       then failures ++ [StringValue (ResourceStatusReason e)]
       else failures)
    failures.

Definition getCloudFormationRollbackReasons (conn : CloudFormation)
    (stackID requestToken : string) : list string * option error :=
  let failures : list string := [] in
  ListStackEventsForOperation (DescribeStackEventsPages conn stackID requestToken)
    (fun e failures =>
       if isFailedEvent e || isRollbackEvent e
       then failures ++ [StringValue (ResourceStatusReason e)]
       else failures)
    failures.

Definition getCloudFormationFailures (conn : CloudFormation)
    (stackID requestToken : string) : list string * option error :=
  let failures : list string := [] in
  ListStackEventsForOperation (DescribeStackEventsPages conn stackID requestToken)
    (fun e failures =>
       if isFailedEvent e
       then failures ++ [StringValue (ResourceStatusReason e)]
       else failures)
    failures.

(** ** The state-change helper *)

(** [resource.StateChangeConf], with the fields the waiters set; a field a
    waiter leaves out has Go's zero value.  [Refresh] is the refresher: here
    the answers its successive calls will give. *)
Record StateChangeConf : Type := {
  Pending : list string;
  Target : list string;
  Timeout : Z;
  MinTimeout : Z;
  Delay : Z;
  Refresh : list RefreshResult
}.

(** Modelled from the spec: the status refreshers [StackStatus],
    [ChangeSetStatus], [StackSetOperationStatus] and
    [TypeRegistrationProgressStatus] (file [status.go] of the waiter package,
    not among the sources): a pure query of the remote status for the
    handle. *)
Definition StackStatus (conn : CloudFormation) (stackID : string)
  : list RefreshResult :=
  DescribeStacks conn stackID.

Definition ChangeSetStatus (conn : CloudFormation) (stackID changeSetName : string)
  : list RefreshResult :=
  DescribeChangeSet conn stackID changeSetName.

Definition StackSetOperationStatus (conn : CloudFormation)
    (stackSetName operationID : string) : list RefreshResult :=
  DescribeStackSetOperation conn stackSetName operationID.

Definition TypeRegistrationProgressStatus (conn : CloudFormation)
    (registrationToken : string) : list RefreshResult :=
  DescribeTypeRegistration conn registrationToken.

Definition inStatuses (s : string) (l : list string) : bool :=
  existsb (String.eqb s) l.

Section Waiter.

(** The spec leaves the backoff curve to the implementation; it is a
    parameter: the computed backoff after the given number of polls. *)
Variable computedBackoff : nat -> Z.

(** [tfresource.SetLastError] (package [tfresource] of this repository, not
    among the sources, and the spec does not describe it) is a parameter:
    [withLastError e lastErr] is the error object [e] points to after the
    call. *)
Variable withLastError : error -> error -> error.

(** [tfcloudformation.StackSetOperationError] (not among the sources) is a
    parameter as well. *)
Variable StackSetOperationError :
  list StackSetOperationResultSummary -> option error.

(** A call [tfresource.SetLastError(err, lastErr)] as its caller sees it:
    the interface value [err] is passed by value, so a nil [err] stays nil
    and any other keeps pointing to the same, possibly updated, object. *)
Definition SetLastError (err : option error) (lastErr : error) : option error :=
  match err with
  | None => None
  | Some e => Some (withLastError e lastErr)
  end.

(** Modelled from the spec: the injectable clock of the wait state machine;
    [sleep elapsed d] is the simulated time after sleeping [d], and sleeping
    a negative duration returns at once. *)
Definition sleep (elapsed d : Z) : Z := (elapsed + Z.max 0 d)%Z.

(** Modelled from the spec: the pause after the poll number [attempt] found
    a pending status, [max(minPollInterval, computedBackoff)]. *)
Definition pollInterval (conf : StateChangeConf) (attempt : nat) : Z :=
  Z.max (MinTimeout conf) (computedBackoff attempt).

(** Modelled from the spec: the poll loop of [WaitForState] (plugin SDK,
    not among the sources), the spec's wait state machine.  [elapsed] is
    the simulated time since the wait began, [last] the snapshot of the
    last poll that succeeded, [answers] what the refresher will answer.
    - elapsed time beyond the timeout: the last snapshot, with a timeout
      error;
    - a refresher error is fatal at once: the last snapshot, with it;
    - a target status: this snapshot, no error;
    - a pending status: pause and poll again;
    - any other status: this snapshot, with an error, at once.
    [None] says that the answers given ran out before the loop ended. *)
Fixpoint poll (conf : StateChangeConf) (attempt : nat) (elapsed : Z)
    (last : option Raw) (answers : list RefreshResult)
  : option (option Raw * option error) :=
  if (Timeout conf <? elapsed)%Z
  then Some (last, Some (TimeoutError (Timeout conf)))
  else
    match answers with
    | [] => None
    | r :: rest =>
        match err r with
        | Some e => Some (last, Some e)
        | None =>
            if inStatuses (state r) (Target conf)
            then Some (result r, None)
            else if inStatuses (state r) (Pending conf)
            then poll conf (S attempt)
                      (sleep elapsed (pollInterval conf attempt))
                      (result r) rest
            else Some (result r, Some (UnrecognizedStatusError (state r)))
        end
    end.

(** Modelled from the spec: [WaitForState] of [StateChangeConf]: sleep the
    initial delay, then poll. *)
Definition WaitForState (conf : StateChangeConf)
  : option (option Raw * option error) :=
  poll conf 0 (sleep 0 (Delay conf)) None (Refresh conf).

(** ** The wait operations *)

(** The [stateConf] of [ChangeSetCreated]. *)
Definition ChangeSetCreated_stateConf (conn : CloudFormation)
    (stackID changeSetName : string) : StateChangeConf :=
  {| Pending := [ChangeSetStatusCreateInProgress; ChangeSetStatusCreatePending];
     Target := [ChangeSetStatusCreateComplete];
     Timeout := ChangeSetCreatedTimeout;
     MinTimeout := 0;
     Delay := 0;
     Refresh := ChangeSetStatus conn stackID changeSetName |}.

Definition ChangeSetCreated (conn : CloudFormation)
    (stackID changeSetName : string)
  : option (option DescribeChangeSetOutput * option error) :=
  let stateConf := ChangeSetCreated_stateConf conn stackID changeSetName in
  match WaitForState stateConf with
  | None => None
  | Some (outputRaw, err) =>
      match asChangeSet outputRaw with
      | Some output =>
          let err :=
            if StringValue (ChangeSet_Status output) =? ChangeSetStatusFailed
            then SetLastError err
                   (errors_New (StringValue (ChangeSet_StatusReason output)))
            else err in
          Some (Some output, err)
      | None => Some (None, err)
      end
  end.

(** The closure [StackSetOperationSucceeded] passes to
    [ListStackSetOperationResultsPages]; [summaries] is the slice it
    captures. *)
Definition appendSummaries (page : option (list StackSetOperationResultSummary))
    (lastPage : bool) (summaries : list StackSetOperationResultSummary)
  : list StackSetOperationResultSummary * bool :=
  match page with
  | None => (summaries, negb lastPage)
  | Some page => (summaries ++ page, negb lastPage)
  end.

(** The [stateConf] of [StackSetOperationSucceeded]. *)
Definition StackSetOperationSucceeded_stateConf (conn : CloudFormation)
    (stackSetName operationID : string) (timeout : Z) : StateChangeConf :=
  {| Pending := [StackSetOperationStatusRunning];
     Target := [StackSetOperationStatusSucceeded];
     Refresh := StackSetOperationStatus conn stackSetName operationID;
     Timeout := timeout;
     MinTimeout := 0;
     Delay := stackSetOperationDelay |}.

Definition StackSetOperationSucceeded (conn : CloudFormation)
    (stackSetName operationID : string) (timeout : Z)
  : option (option StackSetOperation * option error) :=
  let stateConf :=
    StackSetOperationSucceeded_stateConf conn stackSetName operationID timeout in
  match WaitForState stateConf with
  | None => None
  | Some (outputRaw, waitErr) =>
      match asOperation outputRaw with
      | Some output =>
          let waitErr :=
            if StringValue (Operation_Status output)
               =? StackSetOperationStatusFailed
            then
              let summaries : list StackSetOperationResultSummary := [] in
              let '(summaries, listErr) :=
                Pages (ListStackSetOperationResultsPages conn stackSetName
                         operationID)
                  appendSummaries summaries in
              match listErr with
              | None =>
                  SetLastError waitErr
                    (fmt_Errorf "Operation (%s) Results: %w"
                       [ArgString operationID]
                       (StackSetOperationError summaries))
              | Some listErr =>
                  SetLastError waitErr
                    (fmt_Errorf
                       "error listing CloudFormation Stack Set (%s) Operation (%s) results: %w"
                       [ArgString stackSetName; ArgString operationID]
                       (Some listErr))
              end
            else waitErr in
          Some (Some output, waitErr)
      | None => Some (None, waitErr)
      end
  end.

(** The [stateConf] of [StackCreated]. *)
Definition StackCreated_stateConf (conn : CloudFormation)
    (stackID : string) (timeout : Z) : StateChangeConf :=
  {| Pending := [StackStatusCreateInProgress;
       StackStatusDeleteInProgress;
       StackStatusRollbackInProgress];
     Target := [StackStatusCreateComplete;
       StackStatusCreateFailed;
       StackStatusDeleteComplete;
       StackStatusDeleteFailed;
       StackStatusRollbackComplete;
       StackStatusRollbackFailed];
     Timeout := timeout;
     MinTimeout := stackCreatedMinTimeout;
     Delay := 10 * Second;
     Refresh := StackStatus conn stackID |}.

Definition StackCreated (conn : CloudFormation)
    (stackID requestToken : string) (timeout : Z)
  : option (option Stack * option error) :=
  let stateConf := StackCreated_stateConf conn stackID timeout in
  match WaitForState stateConf with
  | None => None
  | Some (outputRaw, Some err) => Some (None, Some err)
  | Some (outputRaw, None) =>
      match asStack outputRaw with
      | None => Some (None, None)
      | Some stack =>
          let lastStatus := StringValue (Stack_StackStatus stack) in
          if (lastStatus =? StackStatusRollbackComplete)
             || (lastStatus =? StackStatusRollbackFailed)
          then
            match getCloudFormationRollbackReasons conn stackID requestToken with
            | (reasons, Some err) =>
                Some (Some stack,
                      Some (fmt_Errorf
                              "failed to create CloudFormation stack, rollback requested (%s). Got an error reading failure information: %w"
                              [ArgString lastStatus] (Some err)))
            | (reasons, None) =>
                Some (Some stack,
                      Some (fmt_Errorf
                              "failed to create CloudFormation stack, rollback requested (%s): %q"
                              [ArgString lastStatus; ArgStrings reasons] None))
            end
          else if (lastStatus =? StackStatusDeleteComplete)
                  || (lastStatus =? StackStatusDeleteFailed)
          then
            match getCloudFormationDeletionReasons conn stackID requestToken with
            | (reasons, Some err) =>
                Some (Some stack,
                      Some (fmt_Errorf
                              "failed to create CloudFormation stack, delete requested (%s). Got an error reading failure information: %w"
                              [ArgString lastStatus] (Some err)))
            | (reasons, None) =>
                Some (Some stack,
                      Some (fmt_Errorf
                              "failed to create CloudFormation stack, delete requested (%s): %q"
                              [ArgString lastStatus; ArgStrings reasons] None))
            end
          else if lastStatus =? StackStatusCreateFailed
          then
            match getCloudFormationFailures conn stackID requestToken with
            | (reasons, Some err) =>
                Some (Some stack,
                      Some (fmt_Errorf
                              "failed to create CloudFormation stack (%s). Got an error reading failure information: %w"
                              [ArgString lastStatus] (Some err)))
            | (reasons, None) =>
                Some (Some stack,
                      Some (fmt_Errorf
                              "failed to create CloudFormation stack (%s): %q"
                              [ArgString lastStatus; ArgStrings reasons] None))
            end
          else Some (Some stack, None)
      end
  end.

(** The [stateConf] of [StackUpdated]. *)
Definition StackUpdated_stateConf (conn : CloudFormation)
    (stackID : string) (timeout : Z) : StateChangeConf :=
  {| Pending := [StackStatusUpdateCompleteCleanupInProgress;
       StackStatusUpdateInProgress;
       StackStatusUpdateRollbackInProgress;
       StackStatusUpdateRollbackCompleteCleanupInProgress];
     Target := [StackStatusCreateComplete;
       StackStatusUpdateComplete;
       StackStatusUpdateRollbackComplete;
       StackStatusUpdateRollbackFailed];
     Timeout := timeout;
     MinTimeout := stackUpdatedMinTimeout;
     Delay := 10 * Second;
     Refresh := StackStatus conn stackID |}.

Definition StackUpdated (conn : CloudFormation)
    (stackID requestToken : string) (timeout : Z)
  : option (option Stack * option error) :=
  let stateConf := StackUpdated_stateConf conn stackID timeout in
  match WaitForState stateConf with
  | None => None
  | Some (outputRaw, Some err) => Some (None, Some err)
  | Some (outputRaw, None) =>
      match asStack outputRaw with
      | None => Some (None, None)
      | Some stack =>
          let lastStatus := StringValue (Stack_StackStatus stack) in
          if (lastStatus =? StackStatusUpdateRollbackComplete)
             || (lastStatus =? StackStatusUpdateRollbackFailed)
          then
            match getCloudFormationRollbackReasons conn stackID requestToken with
            | (reasons, Some err) =>
                Some (Some stack,
                      Some (fmt_Errorf
                              "failed to update CloudFormation stack (%s). Got an error reading failure information: %w"
                              [ArgString lastStatus] (Some err)))
            | (reasons, None) =>
                Some (Some stack,
                      Some (fmt_Errorf
                              "failed to update CloudFormation stack (%s): %q"
                              [ArgString lastStatus; ArgStrings reasons] None))
            end
          else Some (Some stack, None)
      end
  end.

(** The [stateConf] of [StackDeleted]. *)
Definition StackDeleted_stateConf (conn : CloudFormation)
    (stackID : string) (timeout : Z) : StateChangeConf :=
  {| Pending := [StackStatusDeleteInProgress;
       StackStatusRollbackInProgress];
     Target := [StackStatusDeleteComplete;
       StackStatusDeleteFailed];
     Timeout := timeout;
     MinTimeout := stackDeletedMinTimeout;
     Delay := 10 * Second;
     Refresh := StackStatus conn stackID |}.

Definition StackDeleted (conn : CloudFormation)
    (stackID requestToken : string) (timeout : Z)
  : option (option Stack * option error) :=
  let stateConf := StackDeleted_stateConf conn stackID timeout in
  match WaitForState stateConf with
  | None => None
  | Some (outputRaw, Some err) => Some (None, Some err)
  | Some (outputRaw, None) =>
      match asStack outputRaw with
      | None => Some (None, None)
      | Some stack =>
          let lastStatus := StringValue (Stack_StackStatus stack) in
          if lastStatus =? StackStatusDeleteFailed
          then
            match getCloudFormationFailures conn stackID requestToken with
            | (reasons, Some err) =>
                Some (Some stack,
                      Some (fmt_Errorf
                              "failed to delete CloudFormation stack (%s). Got an error reading failure information: %w"
                              [ArgString lastStatus] (Some err)))
            | (reasons, None) =>
                Some (Some stack,
                      Some (fmt_Errorf
                              "failed to delete CloudFormation stack (%s): %q"
                              [ArgString lastStatus; ArgStrings reasons] None))
            end
          else Some (Some stack, None)
      end
  end.

(** The [stateConf] of [TypeRegistrationProgressStatusComplete]. *)
Definition TypeRegistrationProgressStatusComplete_stateConf
    (conn : CloudFormation)
    (registrationToken : string) : StateChangeConf :=
  {| Pending := [RegistrationStatusInProgress];
     Target := [RegistrationStatusComplete];
     Refresh := TypeRegistrationProgressStatus conn registrationToken;
     Timeout := TypeRegistrationTimeout;
     MinTimeout := 0;
     Delay := 0 |}.

Definition TypeRegistrationProgressStatusComplete (conn : CloudFormation)
    (registrationToken : string)
  : option (option DescribeTypeRegistrationOutput * option error) :=
  let stateConf :=
    TypeRegistrationProgressStatusComplete_stateConf conn registrationToken in
  match WaitForState stateConf with
  | None => None
  | Some (outputRaw, err) =>
      match asRegistration outputRaw with
      | Some output => Some (Some output, err)
      | None => Some (None, err)
      end
  end.

End Waiter.

(** ** The MSK connector resource *)

(** The [kafkaconnect] response of [DescribeConnector], with the members the
    read handler follows.  Every nested object is behind a pointer. *)
Record ProvisionedCapacityDescription : Type := {
  McuCount : option Z;
  WorkerCount : option Z
}.

Record CapacityDescription : Type := {
  ProvisionedCapacity : option ProvisionedCapacityDescription
}.

Record KafkaClusterClientAuthenticationDescription : Type := {
  AuthenticationType : option string
}.

Record KafkaClusterEncryptionInTransitDescription : Type := {
  EncryptionType : option string
}.

Record VpcDescription : Type := {
  SecurityGroups : list (option string);
  Subnets : list (option string)
}.

Record ApacheKafkaClusterDescription : Type := {
  BootstrapServers : option string;
  Vpc : option VpcDescription
}.

Record KafkaClusterDescription : Type := {
  ApacheKafkaCluster : option ApacheKafkaClusterDescription
}.

Record CloudWatchLogsLogDeliveryDescription : Type := {
  LogGroup : option string
}.

Record FirehoseLogDeliveryDescription : Type := {
  DeliveryStream : option string
}.

Record S3LogDeliveryDescription : Type := {
  Bucket : option string;
  Prefix : option string
}.

Record WorkerLogDeliveryDescription : Type := {
  CloudWatchLogs : option CloudWatchLogsLogDeliveryDescription;
  Firehose : option FirehoseLogDeliveryDescription;
  S3 : option S3LogDeliveryDescription
}.

Record LogDeliveryDescription : Type := {
  WorkerLogDelivery : option WorkerLogDeliveryDescription
}.

Record DescribeConnectorOutput : Type := {
  Capacity : option CapacityDescription;
  ConnectorArn : option string;
  ConnectorDescription : option string;
  ConnectorName : option string;
  CurrentVersion : option string;
  KafkaCluster : option KafkaClusterDescription;
  KafkaClusterClientAuthentication :
    option KafkaClusterClientAuthenticationDescription;
  KafkaClusterEncryptionInTransit :
    option KafkaClusterEncryptionInTransitDescription;
  KafkaConnectVersion : option string;
  LogDelivery : option LogDeliveryDescription;
  ServiceExecutionRoleArn : option string
}.

(** The [interface{}] values the handler stores under the schema's keys. *)
Inductive Value : Type :=
| StringPtr (p : option string)
| Int64Ptr (p : option Z)
| StringPtrSlice (l : list (option string)).

(** The client: what [DescribeConnector] answers for a connector ARN. *)
Record KafkaConnect : Type := {
  DescribeConnector : string -> option DescribeConnectorOutput * option error
}.

Record AWSClient : Type := {
  kafkaconnectconn : KafkaConnect
}.

(** [diag.Diagnostic].  [Summary] holds the error whose message the SDK
    puts there. *)
Inductive Severity : Type := SeverityError | SeverityWarning.

Record Diagnostic : Type := {
  DiagSeverity : Severity;
  Summary : error
}.

Definition Diagnostics : Type := list Diagnostic.

(** [diag.FromErr]: nil for a nil error, else one diagnostic of error
    severity. *)
Definition FromErr (e : option error) : Diagnostics :=
  match e with
  | None => []
  | Some e => [{| DiagSeverity := SeverityError; Summary := e |}]
  end.

(** How a Go function ends: it returns, or a nil pointer dereference
    panics. *)
Inductive Outcome (A : Type) : Type :=
| Returned (a : A)
| Panicked.

Arguments Returned {A} a.
Arguments Panicked {A}.

Section MskConnector.

(** [schema.ResourceData]: the ID, and the attribute store, which only the
    SDK's [d.Set] writes.  The store and [d.Set] are parameters. *)
Variable Attributes : Type.
Variable d_Set : Attributes -> string -> Value -> Attributes * option error.

(** Go ranges over a map in an unspecified order: the order is a
    parameter. *)
Variable rangeOrder : list (string * Value) -> list (string * Value).

Record ResourceData : Type := {
  Id : string;
  attributes : Attributes
}.

Definition SetId (d : ResourceData) (v : string) : ResourceData :=
  {| Id := v; attributes := attributes d |}.

(** The map literal [fields] of the read handler: [None] when one of the
    pointers on the way to a member is nil (the dereference panics). *)
Definition fields (c : DescribeConnectorOutput)
  : option (list (string * Value)) :=
  match Capacity c, KafkaClusterClientAuthentication c,
        KafkaClusterEncryptionInTransit c, KafkaCluster c, LogDelivery c with
  | Some capacity, Some authentication, Some encryption, Some cluster,
    Some delivery =>
      match ProvisionedCapacity capacity, ApacheKafkaCluster cluster,
            WorkerLogDelivery delivery with
      | Some provisioned, Some apache, Some worker =>
          match Vpc apache, CloudWatchLogs worker, Firehose worker,
                S3 worker with
          | Some vpc, Some cloudWatch, Some firehose, Some s3 =>
              Some [("connector_name", StringPtr (ConnectorName c));
                    ("connector_description",
                     StringPtr (ConnectorDescription c));
                    ("mcu_count", Int64Ptr (McuCount provisioned));
                    ("workers_count", Int64Ptr (WorkerCount provisioned));
                    ("auth_type",
                     StringPtr (AuthenticationType authentication));
                    ("encryption_type",
                     StringPtr (EncryptionType encryption));
                    ("bootstrap_servers",
                     StringPtr (BootstrapServers apache));
                    ("security_groups",
                     StringPtrSlice (SecurityGroups vpc));
                    ("subnets", StringPtrSlice (Subnets vpc));
                    ("kafka_connect_version",
                     StringPtr (KafkaConnectVersion c));
                    ("cw_log_group", StringPtr (LogGroup cloudWatch));
                    ("firehose_log_delivery_stream",
                     StringPtr (DeliveryStream firehose));
                    ("s3_log_bucket", StringPtr (Bucket s3));
                    ("s3_log_prefix", StringPtr (Prefix s3));
                    ("execution_role_arn",
                     StringPtr (ServiceExecutionRoleArn c));
                    ("plugins_arns",
                     StringPtr (ServiceExecutionRoleArn c))]
          | _, _, _, _ => None
          end
      | _, _, _ => None
      end
  | _, _, _, _, _ => None
  end.

(** The loop over [fields]: each [d.Set], the diagnostics of its error
    appended. *)
Fixpoint setFields (kvs : list (string * Value)) (d : ResourceData)
    (diagnostics : Diagnostics) : ResourceData * Diagnostics :=
  match kvs with
  | [] => (d, diagnostics)
  | (k, v) :: rest =>
      let '(attrs, err) := d_Set (attributes d) k v in
      setFields rest {| Id := Id d; attributes := attrs |}
        (diagnostics ++ FromErr err)
  end.

(** The handler changes [d] in place: the result is [d] as it is when the
    handler ends, with what it returns. *)
Definition resourceAwsMskConnectorRead (d : ResourceData) (meta : AWSClient)
  : ResourceData * Outcome Diagnostics :=
  let conn := kafkaconnectconn meta in
  let '(c, err) := DescribeConnector conn (Id d) in
  match err with
  | Some err =>
      let d := SetId d "" in
      (d, Returned (FromErr (Some err)))
  | None =>
      match c with
      | None => (d, Panicked)
      | Some c =>
          match ConnectorArn c with
          | None => (d, Panicked)
          | Some arn =>
              let d := SetId d arn in
              match fields c with
              | None => (d, Panicked)
              | Some fields =>
                  let '(d, diagnostics) :=
                    setFields (rangeOrder fields) d [] in
                  (d, Returned diagnostics)
              end
          end
      end
  end.

End MskConnector.

(** ** The MSK connector resource: schema, create, update and delete *)

(** [schema.ValueType], with the types the resource uses. *)
Inductive ValueType : Type := TypeString | TypeInt | TypeSet.

(** [schema.Schema], with the members the resource sets; [Default] is the
    default value, when the entry gives one. *)
Record Schema : Type := {
  Type_ : ValueType;
  Required : bool;
  Default : option string;
  ForceNew : bool;
  Computed : bool
}.

(** What [d.Get] can hand back in its [interface{}]: nil, or a value of one
    of the Go types the handlers assert. *)
Inductive Dyn : Type :=
| DynNil
| DynString (s : string)
| DynInt (n : Z)
| DynInt64 (n : Z)
| DynStringPtr (p : option string)
| DynStringSlice (l : list string)
| DynStringPtrSlice (l : list (option string))
| DynStringPtrMap (m : list (string * option string))
| DynOther.

(** The type assertions [v.(T)]: [None] when the dynamic type of [v] is not
    [T], where the one-result form of the assertion panics. *)
Definition asString (v : Dyn) : option string :=
  match v with DynString s => Some s | _ => None end.

Definition asInt64 (v : Dyn) : option Z :=
  match v with DynInt64 n => Some n | _ => None end.

Definition asStringPtr (v : Dyn) : option (option string) :=
  match v with DynStringPtr p => Some p | _ => None end.

Definition asStringSlice (v : Dyn) : option (list string) :=
  match v with DynStringSlice l => Some l | _ => None end.

Definition asStringPtrSlice (v : Dyn) : option (list (option string)) :=
  match v with DynStringPtrSlice l => Some l | _ => None end.

Definition asStringPtrMap (v : Dyn) : option (list (string * option string)) :=
  match v with DynStringPtrMap m => Some m | _ => None end.

(** The request and response objects of the [kafkaconnect] client.  The
    members carry a prefix, as the response of [DescribeConnector] above has
    members of the same names. *)
Record ProvisionedCapacity_ : Type := {
  Request_McuCount : option Z;
  Request_WorkerCount : option Z
}.

Record Capacity_ : Type := {
  Request_ProvisionedCapacity : option ProvisionedCapacity_
}.

Record Vpc_ : Type := {
  Request_SecurityGroups : list (option string);
  Request_Subnets : list (option string)
}.

Record ApacheKafkaCluster_ : Type := {
  Request_BootstrapServers : option string;
  Request_Vpc : option Vpc_
}.

Record KafkaCluster_ : Type := {
  Request_ApacheKafkaCluster : option ApacheKafkaCluster_
}.

Record KafkaClusterClientAuthentication_ : Type := {
  Request_AuthenticationType : option string
}.

Record KafkaClusterEncryptionInTransit_ : Type := {
  Request_EncryptionType : option string
}.

Record CloudWatchLogsLogDelivery : Type := {
  CloudWatchLogs_Enabled : option bool;
  CloudWatchLogs_LogGroup : option string
}.

Record FirehoseLogDelivery : Type := {
  Firehose_DeliveryStream : option string;
  Firehose_Enabled : option bool
}.

Record S3LogDelivery : Type := {
  S3_Bucket : option string;
  S3_Enabled : option bool;
  S3_Prefix : option string
}.

Record WorkerLogDelivery_ : Type := {
  Request_CloudWatchLogs : option CloudWatchLogsLogDelivery;
  Request_Firehose : option FirehoseLogDelivery;
  Request_S3 : option S3LogDelivery
}.

Record LogDelivery_ : Type := {
  Request_WorkerLogDelivery : option WorkerLogDelivery_
}.

Record CustomPlugin : Type := {
  CustomPlugin_CustomPluginArn : option string;
  CustomPlugin_Revision : option Z
}.

Record Plugin : Type := {
  Plugin_CustomPlugin : option CustomPlugin
}.

Record WorkerConfiguration : Type := {
  WorkerConfiguration_Revision : option Z;
  WorkerConfiguration_WorkerConfigurationArn : option string
}.

Record CreateConnectorInput : Type := {
  Create_Capacity : option Capacity_;
  Create_ConnectorConfiguration : list (string * option string);
  Create_ConnectorDescription : option string;
  Create_ConnectorName : option string;
  Create_KafkaCluster : option KafkaCluster_;
  Create_KafkaClusterClientAuthentication :
    option KafkaClusterClientAuthentication_;
  Create_KafkaClusterEncryptionInTransit :
    option KafkaClusterEncryptionInTransit_;
  Create_KafkaConnectVersion : option string;
  Create_LogDelivery : option LogDelivery_;
  Create_Plugins : list Plugin;
  Create_ServiceExecutionRoleArn : option string;
  Create_WorkerConfiguration : option WorkerConfiguration
}.

Record CreateConnectorOutput : Type := {
  Created_ConnectorArn : option string;
  Created_ConnectorName : option string
}.

Record UpdateConnectorInput : Type := {
  Update_Capacity : option Capacity_;
  Update_ConnectorArn : option string;
  Update_CurrentVersion : option string
}.

Record DeleteConnectorInput : Type := {
  Delete_ConnectorArn : option string;
  Delete_CurrentVersion : option string
}.

Record ListCustomPluginsInput : Type := {
  List_MaxResults : option Z
}.

Record CustomPluginRevisionSummary : Type := {
  Summary_Revision : option Z
}.

Record CustomPluginSummary : Type := {
  Summary_CustomPluginArn : option string;
  Summary_LatestRevision : option CustomPluginRevisionSummary
}.

Record ListCustomPluginsOutput : Type := {
  CustomPlugins : list (option CustomPluginSummary)
}.

(** The client with the service behind it: each call is answered from the
    state [W] of the service, and may change it.  The handlers drop the
    output of [UpdateConnector] and of [DeleteConnector]. *)
Record KafkaConnectService (W : Type) : Type := {
  describeConnector :
    W -> string -> W * (option DescribeConnectorOutput * option error);
  createConnector :
    W -> option CreateConnectorInput
    -> W * (option CreateConnectorOutput * option error);
  updateConnector : W -> UpdateConnectorInput -> W * option error;
  deleteConnector : W -> DeleteConnectorInput -> W * option error;
  listCustomPlugins :
    W -> ListCustomPluginsInput
    -> W * (option ListCustomPluginsOutput * option error)
}.

(** A handler runs on a state (the service and the [schema.ResourceData] it
    changes in place) and returns or panics. *)
Definition Handler (St A : Type) : Type := St -> St * Outcome A.

Definition ret {St A : Type} (a : A) : Handler St A :=
  fun st => (st, Returned a).

Definition bind {St A B : Type} (m : Handler St A) (k : A -> Handler St B)
  : Handler St B :=
  fun st =>
    match m st with
    | (st', Returned a) => k a st'
    | (st', Panicked) => (st', Panicked)
    end.

Notation "x <- m ;; k" := (bind m (fun x => k))
  (at level 100, m at next level, right associativity).

Notation "m ;;; k" := (bind m (fun _ => k))
  (at level 100, right associativity).

(** A type assertion, or the dereference of a pointer: panics on [None]. *)
Definition must {St A : Type} (v : option A) : Handler St A :=
  fun st => (st, match v with Some a => Returned a | None => Panicked end).

(** The [Schema] map of [resourceAwsMskConnector], a Go map, as the list of
    its entries.  The two defaults that are enumeration values of the AWS
    SDK, which is not among the sources, are parameters. *)
Definition resourceAwsMskConnector_Schema
    (KafkaClusterClientAuthenticationTypeIam
       KafkaClusterEncryptionInTransitTypeTls : string)
  : list (string * Schema) :=
  [("connector_name",
    {| Type_ := TypeString; Required := true; Default := None;
       ForceNew := true; Computed := false |});
   ("connector_description",
    {| Type_ := TypeString; Required := true; Default := None;
       ForceNew := false; Computed := false |});
   ("mcu_count",
    {| Type_ := TypeInt; Required := true; Default := None;
       ForceNew := false; Computed := false |});
   ("workers_count",
    {| Type_ := TypeInt; Required := true; Default := None;
       ForceNew := false; Computed := false |});
   ("auth_type",
    {| Type_ := TypeString; Required := false;
       Default := Some KafkaClusterClientAuthenticationTypeIam;
       ForceNew := false; Computed := false |});
   ("encryption_type",
    {| Type_ := TypeString; Required := false;
       Default := Some KafkaClusterEncryptionInTransitTypeTls;
       ForceNew := false; Computed := false |});
   ("bootstrap_servers",
    {| Type_ := TypeSet; Required := true; Default := None;
       ForceNew := false; Computed := false |});
   ("security_groups",
    {| Type_ := TypeSet; Required := true; Default := None;
       ForceNew := false; Computed := false |});
   ("subnets",
    {| Type_ := TypeSet; Required := true; Default := None;
       ForceNew := false; Computed := false |});
   ("kafka_connect_version",
    {| Type_ := TypeString; Required := false;
       Default := Some "TODO set current version";
       ForceNew := true; Computed := false |});
   ("cw_log_group",
    {| Type_ := TypeString; Required := false; Default := None;
       ForceNew := false; Computed := false |});
   ("firehose_log_delivery_stream",
    {| Type_ := TypeString; Required := false; Default := None;
       ForceNew := false; Computed := false |});
   ("s3_log_bucket",
    {| Type_ := TypeString; Required := false; Default := None;
       ForceNew := false; Computed := false |});
   ("s3_log_prefix",
    {| Type_ := TypeString; Required := false; Default := None;
       ForceNew := false; Computed := false |});
   ("execution_role_arn",
    {| Type_ := TypeString; Required := true; Default := None;
       ForceNew := false; Computed := false |});
   ("plugins_arns",
    {| Type_ := TypeSet; Required := false; Default := None;
       ForceNew := false; Computed := false |})].

Section MskConnectorHandlers.

Variable W : Type.
Variable Attributes : Type.

(** The SDK's [d.Set] and [d.Get] are parameters, and so is the order in
    which Go ranges over a map. *)
Variable d_Set : Attributes -> string -> Value -> Attributes * option error.
Variable d_Get : Attributes -> string -> Dyn.
Variable rangeOrder : list (string * Value) -> list (string * Value).

(** The text of an error ([err.Error()]), which a [%s] verb prints, is a
    parameter: errors are not rendered here. *)
Variable ErrorText : error -> string.

Definition State : Type := (W * ResourceData Attributes)%type.

(** A call of the client. *)
Definition call {A : Type} (f : W -> W * A) : Handler State A :=
  fun '(w, d) => let '(w', a) := f w in ((w', d), Returned a).

(** [d.Id()], [d.SetId(v)] and [d.Get(key)]. *)
Definition getId : Handler State string :=
  fun '(w, d) => ((w, d), Returned (Id d)).

Definition setId (v : string) : Handler State unit :=
  fun '(w, d) => ((w, SetId d v), Returned tt).

Definition get (key : string) : Handler State Dyn :=
  fun '(w, d) => ((w, d), Returned (d_Get (attributes d) key)).

(** [resourceAwsMskConnectorRead] as a handler: its one call of
    [DescribeConnector] is answered from the state of the service. *)
Definition readConnector (conn : KafkaConnectService W)
  : Handler State Diagnostics :=
  fun '(w, d) =>
    let '(w', answer) := describeConnector conn w (Id d) in
    let '(d', outcome) :=
      resourceAwsMskConnectorRead d_Set rangeOrder d
        {| kafkaconnectconn := {| DescribeConnector := fun _ => answer |} |} in
    ((w', d'), outcome).

(** The inner loop of [loadCustomPlugins] over [pluginArns], for one custom
    plugin of the listing; [None] is a nil pointer dereference. *)
Fixpoint matchPluginArns (customPlugin : option CustomPluginSummary)
    (pluginArns : list string) (plugins : list Plugin) : option (list Plugin) :=
  match pluginArns with
  | [] => Some plugins
  | pluginArn :: rest =>
      match customPlugin with
      | None => None
      | Some summary =>
          match Summary_CustomPluginArn summary with
          | None => None
          | Some arn =>
              if pluginArn =? arn
              then
                match Summary_LatestRevision summary with
                | None => None
                | Some latest =>
                    matchPluginArns customPlugin rest
                      (plugins
                       ++ [{| Plugin_CustomPlugin :=
                                Some {| CustomPlugin_CustomPluginArn :=
                                          Summary_CustomPluginArn summary;
                                        CustomPlugin_Revision :=
                                          Summary_Revision latest |} |}])
                end
              else matchPluginArns customPlugin rest plugins
          end
      end
  end.

(** The outer loop, over the custom plugins of the listing. *)
Fixpoint matchCustomPlugins (customPlugins : list (option CustomPluginSummary))
    (pluginArns : list string) (plugins : list Plugin) : option (list Plugin) :=
  match customPlugins with
  | [] => Some plugins
  | customPlugin :: rest =>
      match matchPluginArns customPlugin pluginArns plugins with
      | None => None
      | Some plugins => matchCustomPlugins rest pluginArns plugins
      end
  end.

Definition loadCustomPlugins (conn : KafkaConnectService W)
    (pluginArns : list string) : Handler State (list Plugin * option error) :=
  let maxResults := 20%Z in
  r <- call (fun w =>
               listCustomPlugins conn w {| List_MaxResults := Some maxResults |}) ;;
  let '(customPlugins, err) := r in
  match err with
  | Some err => ret ([], Some err)
  | None =>
      customPlugins <- must customPlugins ;;
      plugins <- must (matchCustomPlugins (CustomPlugins customPlugins)
                         pluginArns []) ;;
      ret (plugins, None)
  end.

Definition newCreateConnectorRequest (conn : KafkaConnectService W)
  : Handler State (option CreateConnectorInput * option error) :=
  v <- get "connector_name" ;; connectorName <- must (asString v) ;;
  v <- get "connector_description" ;;
  connectorDescription <- must (asString v) ;;
  v <- get "connector_configuration" ;;
  connectorConfiguration <- must (asStringPtrMap v) ;;
  v <- get "mcu_count" ;; mcuCount <- must (asInt64 v) ;;
  v <- get "worker_count" ;; workerCount <- must (asInt64 v) ;;
  v <- get "auth_type" ;; authType <- must (asString v) ;;
  v <- get "encryption_type" ;; encryptionType <- must (asString v) ;;
  v <- get "bootstrap_servers" ;; bootstrapServers <- must (asString v) ;;
  v <- get "security_groups" ;; securityGroups <- must (asStringPtrSlice v) ;;
  v <- get "subnets" ;; subnets <- must (asStringPtrSlice v) ;;
  v <- get "kafka_connect_version" ;;
  kafkaConnectVersion <- must (asString v) ;;
  v <- get "execution_role_arn" ;; roleArn <- must (asStringPtr v) ;;
  let workerConfiguration : option WorkerConfiguration := None in
  v <- get "plugins_arns" ;; pluginArns <- must (asStringSlice v) ;;
  r <- loadCustomPlugins conn pluginArns ;;
  let '(plugins, err) := r in
  match err with
  | Some err => ret (None, Some err)
  | None =>
      let enabled := true in
      v <- get "cw_log_group" ;; cwLogGroup <- must (asStringPtr v) ;;
      (* [&cwLogGroup != nil]: the address of a local variable is never nil *)
      let cloudWatchLogs :=
        Some {| CloudWatchLogs_Enabled := Some enabled;
                CloudWatchLogs_LogGroup := cwLogGroup |} in
      v <- get "firehose_log_delivery_stream" ;;
      firehoseLogDeliveryStream <- must (asStringPtr v) ;;
      let firehose :=
        match firehoseLogDeliveryStream with
        | Some _ =>
            Some {| Firehose_DeliveryStream := firehoseLogDeliveryStream;
                    Firehose_Enabled := Some enabled |}
        | None => None
        end in
      v <- get "s3_log_bucket" ;; s3LogBucket <- must (asStringPtr v) ;;
      v <- get "s3_log_prefix" ;; s3LogPrefix <- must (asStringPtr v) ;;
      let s3 :=
        match s3LogBucket, s3LogPrefix with
        | Some _, Some _ =>
            Some {| S3_Bucket := s3LogBucket;
                    S3_Prefix := s3LogPrefix;
                    S3_Enabled := Some enabled |}
        | _, _ => None
        end in
      let input :=
        {| Create_Capacity :=
             Some {| Request_ProvisionedCapacity :=
                       Some {| Request_McuCount := Some mcuCount;
                               Request_WorkerCount := Some workerCount |} |};
           Create_ConnectorConfiguration := connectorConfiguration;
           Create_ConnectorDescription := Some connectorDescription;
           Create_ConnectorName := Some connectorName;
           Create_KafkaCluster :=
             Some {| Request_ApacheKafkaCluster :=
                       Some {| Request_BootstrapServers := Some bootstrapServers;
                               Request_Vpc :=
                                 Some {| Request_SecurityGroups := securityGroups;
                                         Request_Subnets := subnets |} |} |};
           Create_KafkaClusterClientAuthentication :=
             Some {| Request_AuthenticationType := Some authType |};
           Create_KafkaClusterEncryptionInTransit :=
             Some {| Request_EncryptionType := Some encryptionType |};
           Create_KafkaConnectVersion := Some kafkaConnectVersion;
           Create_LogDelivery :=
             Some {| Request_WorkerLogDelivery :=
                       Some {| Request_CloudWatchLogs := cloudWatchLogs;
                               Request_Firehose := firehose;
                               Request_S3 := s3 |} |};
           Create_Plugins := plugins;
           Create_ServiceExecutionRoleArn := roleArn;
           Create_WorkerConfiguration := workerConfiguration |} in
      ret (Some input, None)
  end.

Definition resourceAwsMskConnectCreate (conn : KafkaConnectService W)
  : Handler State Diagnostics :=
  r <- newCreateConnectorRequest conn ;;
  let '(input, err) := r in
  match err with
  | Some err => ret (FromErr (Some err))
  | None =>
      r <- call (fun w => createConnector conn w input) ;;
      let '(output, err) := r in
      match err with
      | Some err =>
          ret (FromErr
                 (Some (fmt_Errorf "error creating MSK Connector: %s"
                          [ArgString (ErrorText err)] None)))
      | None =>
          output <- must output ;;
          setId (StringValue (Created_ConnectorArn output)) ;;;
          readConnector conn
      end
  end.

Definition resourceAwsMskConnectorUpdate (conn : KafkaConnectService W)
  : Handler State Diagnostics :=
  id <- getId ;;
  let connectorArn := Some id in
  r <- call (fun w => describeConnector conn w id) ;;
  let '(currentPlugin, err) := r in
  match err with
  | Some err => ret (FromErr (Some err))
  | None =>
      v <- get "mcu_count" ;; mcuCount <- must (asInt64 v) ;;
      v <- get "worker_count" ;; workerCount <- must (asInt64 v) ;;
      id <- getId ;;
      currentPlugin <- must currentPlugin ;;
      let input :=
        {| Update_ConnectorArn := Some id;
           Update_CurrentVersion := CurrentVersion currentPlugin;
           Update_Capacity :=
             Some {| Request_ProvisionedCapacity :=
                       Some {| Request_McuCount := Some mcuCount;
                               Request_WorkerCount := Some workerCount |} |} |} in
      err <- call (fun w => updateConnector conn w input) ;;
      match err with
      | Some err => ret (FromErr (Some err))
      | None => readConnector conn
      end
  end.

Definition resourceAwsMskConnectorDelete (conn : KafkaConnectService W)
  : Handler State Diagnostics :=
  id <- getId ;;
  let connectorArn := Some id in
  r <- call (fun w => describeConnector conn w id) ;;
  let '(connector, err) := r in
  match err with
  | Some err => ret (FromErr (Some err))
  | None =>
      connector <- must connector ;;
      err <- call (fun w =>
                     deleteConnector conn w
                       {| Delete_ConnectorArn := connectorArn;
                          Delete_CurrentVersion := CurrentVersion connector |}) ;;
      match err with
      | Some err => ret (FromErr (Some err))
      | None => ret []
      end
  end.

End MskConnectorHandlers.

(** ** The other revision of the MSK connector resource *)

(** The handlers of [src/unnamed/part_000], a revision of the same file with
    a schema of two keys.  [isAWSErr] and the error code of the AWS SDK are
    not among the sources: they are parameters.  The [log.Printf] of the
    read handler is left out.  A nil [diag.Diagnostics] and an empty one are
    both the empty list. *)
Module Part000.

Definition resourceAwsMskConnector_Schema : list (string * Schema) :=
  [("connector_name",
    {| Type_ := TypeString; Required := true; Default := None;
       ForceNew := true; Computed := false |});
   ("connector_description",
    {| Type_ := TypeString; Required := true; Default := None;
       ForceNew := false; Computed := false |})].

Section Handlers.

Variable W : Type.
Variable Attributes : Type.
Variable d_Set : Attributes -> string -> Value -> Attributes * option error.
Variable ErrorText : error -> string.
Variable isAWSErr : option error -> string -> string -> bool.
Variable ErrCodeBadRequestException : string.

(** [d.Set(key, v)] with its error result dropped. *)
Definition set (key : string) (v : Value)
  : Handler (State W Attributes) unit :=
  fun '(w, d) =>
    let '(attrs, _) := d_Set (attributes d) key v in
    ((w, {| Id := Id d; attributes := attrs |}), Returned tt).

Definition resourceAwsMskConnectorRead (conn : KafkaConnectService W)
  : Handler (State W Attributes) Diagnostics :=
  id <- @getId W Attributes ;;
  r <- call (fun w => describeConnector conn w id) ;;
  let '(configurationOutput, err) := r in
  if isAWSErr err ErrCodeBadRequestException "Configuration ARN does not exist"
  then
    setId "" ;;;
    ret []
  else
    match err with
    | Some err =>
        id <- @getId W Attributes ;;
        ret (FromErr
               (Some (fmt_Errorf "error describing MSK Connector (%s): %s"
                        [ArgString id; ArgString (ErrorText err)] None)))
    | None =>
        match configurationOutput with
        | None =>
            id <- @getId W Attributes ;;
            ret (FromErr
                   (Some (fmt_Errorf
                            "error describing MSK Connector (%s): missing result"
                            [ArgString id] None)))
        | Some configurationOutput =>
            set "arn" (StringPtr (ConnectorArn configurationOutput)) ;;;
            ret []
        end
    end.

Definition resourceAwsMskConnectCreate (conn : KafkaConnectService W)
  : Handler (State W Attributes) Diagnostics :=
  let input :=
    Some {| Create_Capacity := None;
            Create_ConnectorConfiguration := [];
            Create_ConnectorDescription := None;
            Create_ConnectorName := None;
            Create_KafkaCluster := None;
            Create_KafkaClusterClientAuthentication := None;
            Create_KafkaClusterEncryptionInTransit := None;
            Create_KafkaConnectVersion := None;
            Create_LogDelivery := None;
            Create_Plugins := [];
            Create_ServiceExecutionRoleArn := None;
            Create_WorkerConfiguration := None |} in
  r <- call (fun w => createConnector conn w input) ;;
  let '(output, err) := r in
  match err with
  | Some err =>
      ret (FromErr
             (Some (fmt_Errorf "error creating MSK Connector: %s"
                      [ArgString (ErrorText err)] None)))
  | None =>
      output <- must output ;;
      setId (StringValue (Created_ConnectorArn output)) ;;;
      resourceAwsMskConnectorRead conn
  end.

Definition resourceAwsMskConnectorUpdate (conn : KafkaConnectService W)
  : Handler (State W Attributes) Diagnostics :=
  id <- @getId W Attributes ;;
  let input :=
    {| Update_Capacity := None;
       Update_ConnectorArn := Some id;
       Update_CurrentVersion := None |} in
  err <- call (fun w => updateConnector conn w input) ;;
  match err with
  | Some err => ret (FromErr (Some err))
  | None => resourceAwsMskConnectorRead conn
  end.

Definition resourceAwsMskConnectorDelete (conn : KafkaConnectService W)
  : Handler (State W Attributes) Diagnostics :=
  id <- @getId W Attributes ;;
  let input :=
    {| Delete_ConnectorArn := Some id;
       Delete_CurrentVersion := None |} in
  err <- call (fun w => deleteConnector conn w input) ;;
  match err with
  | Some err => ret (FromErr (Some err))
  | None => ret []
  end.

End Handlers.

End Part000.

(** ** Vocabulary of the properties *)

(** The answers of a paginated listing that has exactly the given pages:
    the service flags the last one. *)
Fixpoint served {P : Type} (pages : list P) : list (PageFetch P) :=
  match pages with
  | [] => []
  | [p] => [PageOk (Some p) true]
  | p :: rest => PageOk (Some p) false :: served rest
  end.

(** The reason an event contributes to a failure report. *)
Definition reasonOf (e : StackEvent) : string :=
  StringValue (ResourceStatusReason e).

(** The classifiers as the specification words them, for comparison with
    the code: a reason counts when it is a non-empty string. *)
Definition hasNonEmptyReason (e : StackEvent) : bool :=
  negb (StringValue (ResourceStatusReason e) =? "").

Definition spec_createFailureReasons (events : list StackEvent) : list string :=
  map reasonOf
    (filter (fun e => HasSuffix (StringValue (ResourceStatus e)) "_FAILED"
                      && hasNonEmptyReason e) events).

Definition spec_rollbackReasons (events : list StackEvent) : list string :=
  map reasonOf
    (filter (fun e => hasNonEmptyReason e
                      && (HasSuffix (StringValue (ResourceStatus e)) "_FAILED"
                          || HasPrefix (StringValue (ResourceStatus e)) "ROLLBACK_"))
            events).

(** Deletion reasons, as worded: a status ending with [_FAILED], or the
    delete-in-progress event of the stack itself with a non-empty reason. *)
Definition spec_deletionReasons (events : list StackEvent) : list string :=
  map reasonOf
    (filter (fun e => HasSuffix (StringValue (ResourceStatus e)) "_FAILED"
                      || ((StringValue (ResourceType e) =? "AWS::CloudFormation::Stack")
                          && (StringValue (ResourceStatus e) =? ResourceStatusDeleteInProgress)
                          && hasNonEmptyReason e))
            events).

(** The strings a waiter put into an error as operands of its format. *)
Definition argStrings (a : fmtArg) : list string :=
  match a with
  | ArgString s => [s]
  | ArgStrings l => l
  end.

Definition operands (e : error) : list string :=
  match e with
  | fmt_Errorf _ args _ => flat_map argStrings args
  | _ => []
  end.

(** The error a stack waiter returns when it could not read the failure
    reasons: it names the status, says so, and wraps the lookup's error. *)
Definition readingFailureInformation (e : error) (lastStatus : string)
    (lookupErr : error) : Prop :=
  exists operation : string,
    e = fmt_Errorf
          (operation
           ++ " (%s). Got an error reading failure information: %w")
          [ArgString lastStatus] (Some lookupErr).

(** What a poll contributes to the last observed snapshot: its own, when it
    succeeded. *)
Definition observe (last : option Raw) (r : RefreshResult) : option Raw :=
  match err r with
  | None => result r
  | Some _ => last
  end.

(** The snapshot of the last poll that succeeded, among the polls made. *)
Definition lastObserved (polled : list RefreshResult) : option Raw :=
  fold_left observe polled None.


(** A poll that answers a status that is pending and not a target. *)
Definition pendingPoll (conf : StateChangeConf) (r : RefreshResult) : Prop :=
  err r = None
  /\ inStatuses (state r) (Target conf) = false
  /\ inStatuses (state r) (Pending conf) = true.

(** The simulated time at which the poll after [n] pending ones is made. *)
Fixpoint elapsedFrom (computedBackoff : nat -> Z) (conf : StateChangeConf)
    (attempt : nat) (elapsed : Z) (n : nat) : Z :=
  match n with
  | O => elapsed
  | S n' =>
      elapsedFrom computedBackoff conf (S attempt)
        (sleep elapsed (pollInterval computedBackoff conf attempt)) n'
  end.

Definition elapsedAtPoll (computedBackoff : nat -> Z) (conf : StateChangeConf)
    (n : nat) : Z :=
  elapsedFrom computedBackoff conf 0 (sleep 0 (Delay conf)) n.

(** The statuses each stack waiter reports as a failure. *)
Definition StackCreated_failureStatuses : list string :=
  [StackStatusRollbackComplete; StackStatusRollbackFailed;
   StackStatusDeleteComplete; StackStatusDeleteFailed;
   StackStatusCreateFailed].

Definition StackUpdated_failureStatuses : list string :=
  [StackStatusUpdateRollbackComplete; StackStatusUpdateRollbackFailed].

Definition StackDeleted_failureStatuses : list string :=
  [StackStatusDeleteFailed].

(** A client for examples: the same answers whatever the handle. *)
Definition fakeConn (polls : list RefreshResult)
    (events : list (PageFetch (list StackEvent)))
    (results : list (PageFetch (list StackSetOperationResultSummary)))
  : CloudFormation :=
  {| DescribeStacks := fun _ => polls;
     DescribeChangeSet := fun _ _ => polls;
     DescribeStackSetOperation := fun _ _ => polls;
     DescribeTypeRegistration := fun _ => polls;
     DescribeStackEventsPages := fun _ _ => events;
     ListStackSetOperationResultsPages := fun _ _ => results |}.

Definition event (id status : string) (reason : option string)
    (type : string) : StackEvent :=
  {| LogicalResourceId := Some id;
     ResourceStatus := Some status;
     ResourceStatusReason := reason;
     ResourceType := Some type |}.

(** The ways a poll loop ends, told from the polls it made and the error it
    returns: it reached a target status, it ran out of time, the refresher
    failed, or the status was neither pending nor a target.  [time n] is the
    simulated time after [n] pending polls. *)
Inductive ending (conf : StateChangeConf) (time : nat -> Z)
  : list RefreshResult -> option error -> Prop :=
| ReachedTarget (init : list RefreshResult) (r : RefreshResult) :
    Forall (pendingPoll conf) init ->
    err r = None ->
    inStatuses (state r) (Target conf) = true ->
    ending conf time (init ++ [r]) None
| TimedOut (polled : list RefreshResult) :
    Forall (pendingPoll conf) polled ->
    (Timeout conf < time (List.length polled))%Z ->
    ending conf time polled (Some (TimeoutError (Timeout conf)))
| RefreshFailed (init : list RefreshResult) (r : RefreshResult) (e : error) :
    Forall (pendingPoll conf) init ->
    err r = Some e ->
    ending conf time (init ++ [r]) (Some e)
| UnrecognizedStatus (init : list RefreshResult) (r : RefreshResult) :
    Forall (pendingPoll conf) init ->
    err r = None ->
    inStatuses (state r) (Target conf) = false ->
    inStatuses (state r) (Pending conf) = false ->
    ending conf time (init ++ [r]) (Some (UnrecognizedStatusError (state r))).

(** The error, if any, with which the event listing of an operation ends;
    it does not depend on what the callback collects. *)
Definition lookupError (conn : CloudFormation) (stackID requestToken : string)
  : option error :=
  snd (ListStackEventsForOperation
         (DescribeStackEventsPages conn stackID requestToken)
         (fun _ (st : unit) => st) tt).

(** Sample parameters for the examples: a backoff that is always zero, so
    that the pause is the minimum interval, and a [SetLastError] under which
    the wait error becomes one that wraps the last error. *)
Definition noBackoff : nat -> Z := fun _ => 0%Z.

Definition sampleWithLastError (e lastErr : error) : error :=
  fmt_Errorf "wait failed, last error: %w" [] (Some lastErr).

(** A successful status query. *)
Definition polled (raw : Raw) (status : string) : RefreshResult :=
  {| result := Some raw; state := status; err := None |}.

Definition stackIn (status : string) : Stack :=
  {| Stack_StackId := Some "stack";
     Stack_StackStatus := Some status;
     Stack_StackStatusReason := None |}.

Definition changeSetIn (status : string) (reason : option string)
  : DescribeChangeSetOutput :=
  {| ChangeSet_ChangeSetId := Some "change-set";
     ChangeSet_Status := Some status;
     ChangeSet_StatusReason := reason |}.

(** No pending status of the policy is also one of its targets. *)
Definition disjointStatuses (conf : StateChangeConf) : bool :=
  forallb (fun s => negb (inStatuses s (Target conf))) (Pending conf).

(** A poll that succeeds with a pending status. *)
Definition answersPending (conf : StateChangeConf) (r : RefreshResult) : Prop :=
  err r = None /\ inStatuses (state r) (Pending conf) = true.

(** The status a response object carries. *)
Definition rawStatus (raw : option Raw) : string :=
  match raw with
  | Some (RawStack s) => StringValue (Stack_StackStatus s)
  | Some (RawChangeSet o) => StringValue (ChangeSet_Status o)
  | Some (RawOperation o) => StringValue (Operation_Status o)
  | Some (RawRegistration o) => StringValue (Registration_ProgressStatus o)
  | None => ""
  end.

(** A refresher answers with the status of the object it fetched. *)
Definition coherent (r : RefreshResult) : Prop :=
  err r = None -> state r = rawStatus (result r).

(** The plugin [loadCustomPlugins] makes of an entry of the listing. *)
Definition pluginOf (summary : CustomPluginSummary)
    (latest : CustomPluginRevisionSummary) : Plugin :=
  {| Plugin_CustomPlugin :=
       Some {| CustomPlugin_CustomPluginArn := Summary_CustomPluginArn summary;
               CustomPlugin_Revision := Summary_Revision latest |} |}.

(** The plugins an entry of the listing gives: one for each requested ARN
    equal to its own. *)
Definition selectedBy (pluginArns : list string)
    (customPlugin : option CustomPluginSummary) : list Plugin :=
  match customPlugin with
  | Some summary =>
      match Summary_CustomPluginArn summary, Summary_LatestRevision summary with
      | Some arn, Some latest =>
          map (fun _ => pluginOf summary latest)
              (filter (fun pluginArn => pluginArn =? arn) pluginArns)
      | _, _ => []
      end
  | None => []
  end.

(** An entry of the listing with its ARN and its latest revision. *)
Definition listedWith (arn : string) (customPlugin : option CustomPluginSummary)
  : Prop :=
  exists summary latest,
    customPlugin = Some summary
    /\ Summary_CustomPluginArn summary = Some arn
    /\ Summary_LatestRevision summary = Some latest.

Definition wellFormedEntry (customPlugin : option CustomPluginSummary) : Prop :=
  exists arn, listedWith arn customPlugin.

(** The ARN of a plugin of the request. *)
Definition pluginArn (p : Plugin) : option string :=
  match Plugin_CustomPlugin p with
  | Some custom => CustomPlugin_CustomPluginArn custom
  | None => None
  end.

(** The keys a schema declares. *)
Definition declaredKeys (schema : list (string * Schema)) : list string :=
  map fst schema.

(** A sample service for the examples: it keeps a log of the calls made. *)
Inductive Call : Type :=
| CallDescribe (arn : string)
| CallCreate
| CallUpdate (input : UpdateConnectorInput)
| CallDelete (input : DeleteConnectorInput)
| CallList.

Definition loggingService
    (described : option DescribeConnectorOutput * option error)
    (created : option CreateConnectorOutput * option error)
    (updated deleted : option error)
    (listed : option ListCustomPluginsOutput * option error)
  : KafkaConnectService (list Call) :=
  {| describeConnector := fun log arn => (log ++ [CallDescribe arn], described);
     createConnector := fun log _ => (log ++ [CallCreate], created);
     updateConnector := fun log input => (log ++ [CallUpdate input], updated);
     deleteConnector := fun log input => (log ++ [CallDelete input], deleted);
     listCustomPlugins := fun log _ => (log ++ [CallList], listed) |}.

(** A sample [d.Get] for the examples: the attributes are the values
    themselves, and a key that is not among them gives nil. *)
Fixpoint sampleGet (attrs : list (string * Dyn)) (key : string) : Dyn :=
  match attrs with
  | [] => DynNil
  | (k, v) :: rest => if k =? key then v else sampleGet rest key
  end.

(** The same, for declared keys only: any other key gives nil. *)
Definition sampleGetDeclared (keys : list string)
    (attrs : list (string * Dyn)) (key : string) : Dyn :=
  if existsb (String.eqb key) keys then sampleGet attrs key else DynNil.

Definition sampleSet (attrs : list (string * Dyn)) (key : string) (v : Value)
  : list (string * Dyn) * option error :=
  (attrs, None).

Definition sampleErrorText (e : error) : string :=
  match e with
  | errors_New text => text
  | _ => "error"
  end.

(** A response of [DescribeConnector] with every nested object present. *)
Definition describedConnector : DescribeConnectorOutput :=
  {| Capacity :=
       Some {| ProvisionedCapacity :=
                 Some {| McuCount := Some 2%Z; WorkerCount := Some 4%Z |} |};
     ConnectorArn := Some "arn:aws:kafkaconnect:connector/c";
     ConnectorDescription := Some "a connector";
     ConnectorName := Some "c";
     CurrentVersion := Some "K1";
     KafkaCluster :=
       Some {| ApacheKafkaCluster :=
                 Some {| BootstrapServers := Some "b-1:9098";
                         Vpc := Some {| SecurityGroups := [Some "sg-1"];
                                        Subnets := [Some "subnet-1"] |} |} |};
     KafkaClusterClientAuthentication :=
       Some {| AuthenticationType := Some "IAM" |};
     KafkaClusterEncryptionInTransit := Some {| EncryptionType := Some "TLS" |};
     KafkaConnectVersion := Some "2.7.1";
     LogDelivery :=
       Some {| WorkerLogDelivery :=
                 Some {| CloudWatchLogs := Some {| LogGroup := Some "logs" |};
                         Firehose := Some {| DeliveryStream := None |};
                         S3 := Some {| Bucket := None; Prefix := None |} |} |};
     ServiceExecutionRoleArn := Some "arn:aws:iam::role/r" |}.

(** Attributes for the examples, of the dynamic types the handlers assert. *)
Definition requestAttributes : list (string * Dyn) :=
  [("connector_name", DynString "c");
   ("connector_description", DynString "a connector");
   ("connector_configuration", DynStringPtrMap [("tasks.max", Some "1")]);
   ("mcu_count", DynInt64 2%Z);
   ("worker_count", DynInt64 4%Z);
   ("auth_type", DynString "IAM");
   ("encryption_type", DynString "TLS");
   ("bootstrap_servers", DynString "b-1:9098");
   ("security_groups", DynStringPtrSlice [Some "sg-1"]);
   ("subnets", DynStringPtrSlice [Some "subnet-1"]);
   ("kafka_connect_version", DynString "2.7.1");
   ("execution_role_arn", DynStringPtr (Some "arn:aws:iam::role/r"));
   ("plugins_arns", DynStringSlice []);
   ("cw_log_group", DynStringPtr None);
   ("firehose_log_delivery_stream", DynStringPtr None);
   ("s3_log_bucket", DynStringPtr (Some "bucket"));
   ("s3_log_prefix", DynStringPtr None)].

(** Every nested object that [resourceAwsMskConnectorRead] goes through is
    present in the response. *)
Definition allObjectsPresent (c : DescribeConnectorOutput) : Prop :=
  exists capacity provisioned authentication encryption cluster apache vpc
         delivery worker cloudWatch firehose s3,
    Capacity c = Some capacity
    /\ ProvisionedCapacity capacity = Some provisioned
    /\ KafkaClusterClientAuthentication c = Some authentication
    /\ KafkaClusterEncryptionInTransit c = Some encryption
    /\ KafkaCluster c = Some cluster
    /\ ApacheKafkaCluster cluster = Some apache
    /\ Vpc apache = Some vpc
    /\ LogDelivery c = Some delivery
    /\ WorkerLogDelivery delivery = Some worker
    /\ CloudWatchLogs worker = Some cloudWatch
    /\ Firehose worker = Some firehose
    /\ S3 worker = Some s3.

(** A handler that leaves the resource data as they were, however it ends. *)
Definition keepsData {W Attributes A : Type}
    (m : Handler (W * ResourceData Attributes) A) : Prop :=
  forall w d, exists w', fst (m (w, d)) = (w', d).

(** A sample [isAWSErr] for the examples: the error was made by
    [errors.New] from the code, a colon and the message. *)
Definition sampleIsAWSErr (err : option error) (code message : string) : bool :=
  match err with
  | Some (errors_New text) => text =? (code ++ ": " ++ message)%string
  | _ => false
  end.

(** The calls [d.Set(k, v)] for the given entries, one after the other from
    the given attributes: the attributes after the last call, and what each
    call returned, in the order of the calls. *)
Definition setAll {Attributes : Type}
    (d_Set : Attributes -> string -> Value -> Attributes * option error)
    (kvs : list (string * Value)) (attrs : Attributes)
  : Attributes * list (option error) :=
  fold_left (fun acc kv =>
               let '(attrs', e) := d_Set (fst acc) (fst kv) (snd kv) in
               (attrs', snd acc ++ [e]))
            kvs (attrs, []).

(** A sample [d.Set] for the examples: it keeps the entries it was given, in
    the order of the calls, and fails on the key [plugins_arns]. *)
Definition recordingSet (attrs : list (string * Value)) (key : string)
    (v : Value) : list (string * Value) * option error :=
  (attrs ++ [(key, v)],
   if key =? "plugins_arns"
   then Some (errors_New "plugins_arns: expected a set")
   else None).

(** * Properties *)

(** ** Strings *)

Lemma substring_whole (s : string) : substring 0 (String.length s) s = s.
Proof.
  induction s as [|c s IH]; simpl; [reflexivity|]. now rewrite IH.
Qed.

Lemma substring_after_prefix (p s : string) :
  substring (String.length p) (String.length s) (p ++ s)%string = s.
Proof.
  induction p as [|c p IH]; simpl.
  - apply substring_whole.
  - exact IH.
Qed.

Lemma substring_of_prefix (p s : string) :
  substring 0 (String.length p) (p ++ s)%string = p.
Proof.
  induction p as [|c p IH]; simpl.
  - now destruct s.
  - now rewrite IH.
Qed.

Lemma substring_split (s : string) :
  forall n, (n <= String.length s)%nat ->
    s = (substring 0 n s ++ substring n (String.length s - n) s)%string.
Proof.
  induction s as [|c s IH]; intros [|n] Hn; simpl in *.
  - reflexivity.
  - lia.
  - now rewrite substring_whole.
  - f_equal. apply IH. lia.
Qed.

Lemma length_app_string (p s : string) :
  String.length (p ++ s)%string = (String.length p + String.length s)%nat.
Proof.
  induction p as [|c p IH]; simpl; [reflexivity|]. now rewrite IH.
Qed.

(** [strings.HasSuffix] holds exactly of the strings that end with the
    suffix. *)
Lemma HasSuffix_iff (s suffix : string) :
  HasSuffix s suffix = true <-> exists p, s = (p ++ suffix)%string.
Proof.
  unfold HasSuffix. rewrite andb_true_iff, Nat.leb_le, String.eqb_eq. split.
  - intros [Hlen Hsub].
    exists (substring 0 (String.length s - String.length suffix) s).
    rewrite (substring_split s (n := String.length s - String.length suffix))
      at 1 by lia.
    f_equal.
    replace (String.length s - (String.length s - String.length suffix))%nat
      with (String.length suffix) by lia.
    exact Hsub.
  - intros [p ->]. rewrite length_app_string. split; [lia|].
    replace (String.length p + String.length suffix - String.length suffix)%nat
      with (String.length p) by lia.
    apply substring_after_prefix.
Qed.

(** [strings.HasPrefix] holds exactly of the strings that start with the
    prefix. *)
Lemma HasPrefix_iff (s prefix : string) :
  HasPrefix s prefix = true <-> exists q, s = (prefix ++ q)%string.
Proof.
  unfold HasPrefix. rewrite andb_true_iff, Nat.leb_le, String.eqb_eq. split.
  - intros [Hlen Hsub].
    exists (substring (String.length prefix)
              (String.length s - String.length prefix) s).
    rewrite (substring_split s (n := String.length prefix)) at 1 by lia.
    now rewrite Hsub.
  - intros [q ->]. rewrite length_app_string. split; [lia|].
    apply substring_of_prefix.
Qed.

(** ** Pagination *)

Lemma served_snoc {P : Type} (init : list P) (last : P) :
  served (init ++ [last])
  = map (fun p => PageOk (Some p) false) init ++ [PageOk (Some last) true].
Proof.
  induction init as [|p init IH]; [reflexivity|].
  cbn [app map]. rewrite <- IH. cbn [served].
  destruct (init ++ [last]) eqn:E; [|reflexivity].
  now destruct init.
Qed.

Section PagesOfCallback.

Context {P St : Type}.
Variable fn : option P -> bool -> St -> St * bool.
Variable update : option P -> St -> St.

(** The callback updates its state with the page, whatever the flag, and
    asks for more until the last page: the shape of both closures of the
    waiter package. *)
Hypothesis fn_shape :
  forall page lastPage st, fn page lastPage st = (update page st, negb lastPage).

Lemma Pages_more (init : list P) (rest : list (PageFetch P)) (st : St) :
  Pages (map (fun p => PageOk (Some p) false) init ++ rest) fn st
  = Pages rest fn (fold_left (fun st p => update (Some p) st) init st).
Proof.
  revert st. induction init as [|p init IH]; intros st; [reflexivity|].
  cbn [map app Pages fold_left]. rewrite fn_shape. cbn. apply IH.
Qed.

Lemma Pages_stop_after_last (init : list P) (last : P)
    (extra : list (PageFetch P)) (st : St) :
  Pages (served (init ++ [last]) ++ extra) fn st
  = (fold_left (fun st p => update (Some p) st) (init ++ [last]) st, None).
Proof.
  rewrite served_snoc, <- app_assoc, Pages_more.
  cbn [app Pages]. rewrite fn_shape. cbn.
  now rewrite fold_left_app.
Qed.

Lemma Pages_served (pages : list P) (st : St) :
  Pages (served pages) fn st
  = (fold_left (fun st p => update (Some p) st) pages st, None).
Proof.
  destruct pages as [|p pages]; [reflexivity|].
  destruct (@exists_last _ (p :: pages)) as [init [last E]]; [discriminate|].
  rewrite E, <- (app_nil_r (served (init ++ [last]))).
  apply Pages_stop_after_last.
Qed.

Lemma Pages_error (before : list P) (e : error) (rest : list (PageFetch P))
    (st : St) :
  Pages (map (fun p => PageOk (Some p) false) before ++ PageErr e :: rest) fn st
  = (fold_left (fun st p => update (Some p) st) before st, Some e).
Proof.
  now rewrite Pages_more.
Qed.

End PagesOfCallback.

Lemma fold_left_concat {A St : Type} (f : St -> A -> St) (ls : list (list A)) :
  forall st, fold_left (fun st l => fold_left f l st) ls st
             = fold_left f (concat ls) st.
Proof.
  induction ls as [|l ls IH]; intros st; [reflexivity|].
  cbn [concat fold_left]. now rewrite fold_left_app, IH.
Qed.

Section Lister.

Context {St : Type}.
Variable fn : StackEvent -> St -> St.

Lemma ListStackEventsForOperation_stop (init : list (list StackEvent))
    (last : list StackEvent) (extra : list (PageFetch (list StackEvent)))
    (st : St) :
  ListStackEventsForOperation (served (init ++ [last]) ++ extra) fn st
  = (fold_left (fun st e => fn e st) (concat (init ++ [last])) st, None).
Proof.
  unfold ListStackEventsForOperation.
  erewrite Pages_stop_after_last
    with (update := fun page st =>
                      fold_left (fun st e => fn e st)
                        (match page with Some es => es | None => [] end) st)
    by reflexivity.
  now rewrite <- fold_left_concat.
Qed.

Lemma ListStackEventsForOperation_served (pages : list (list StackEvent))
    (st : St) :
  ListStackEventsForOperation (served pages) fn st
  = (fold_left (fun st e => fn e st) (concat pages) st, None).
Proof.
  unfold ListStackEventsForOperation.
  erewrite Pages_served
    with (update := fun page st =>
                      fold_left (fun st e => fn e st)
                        (match page with Some es => es | None => [] end) st)
    by reflexivity.
  now rewrite <- fold_left_concat.
Qed.

Lemma ListStackEventsForOperation_error (before : list (list StackEvent))
    (e : error) (rest : list (PageFetch (list StackEvent))) (st : St) :
  ListStackEventsForOperation
    (map (fun p => PageOk (Some p) false) before ++ PageErr e :: rest) fn st
  = (fold_left (fun st e => fn e st) (concat before) st, Some e).
Proof.
  unfold ListStackEventsForOperation.
  erewrite Pages_error
    with (update := fun page st =>
                      fold_left (fun st e => fn e st)
                        (match page with Some es => es | None => [] end) st)
    by reflexivity.
  now rewrite <- fold_left_concat.
Qed.

End Lister.

(** What a classifier's closure has collected after a run of events. *)
Lemma collected_reasons (p : StackEvent -> bool) (events : list StackEvent) :
  forall failures,
    fold_left (fun failures e =>
                 if p e
                 then failures ++ [StringValue (ResourceStatusReason e)]
                 else failures) events failures
    = failures ++ map reasonOf (filter p events).
Proof.
  induction events as [|e events IH]; intros failures; cbn [fold_left filter].
  - now rewrite app_nil_r.
  - rewrite IH. destruct (p e); [|reflexivity].
    cbn [map]. now rewrite <- app_assoc.
Qed.

Lemma hasReason_iff (e : StackEvent) :
  match ResourceStatusReason e with Some _ => true | None => false end = true
  <-> ResourceStatusReason e <> None.
Proof.
  destruct (ResourceStatusReason e); split; congruence.
Qed.

Lemma isFailedEvent_iff (e : StackEvent) :
  isFailedEvent e = true
  <-> (exists p, StringValue (ResourceStatus e) = (p ++ "_FAILED")%string)
      /\ ResourceStatusReason e <> None.
Proof.
  unfold isFailedEvent. now rewrite andb_true_iff, HasSuffix_iff, hasReason_iff.
Qed.

Lemma isRollbackEvent_iff (e : StackEvent) :
  isRollbackEvent e = true
  <-> (exists q, StringValue (ResourceStatus e) = ("ROLLBACK_" ++ q)%string)
      /\ ResourceStatusReason e <> None.
Proof.
  unfold isRollbackEvent.
  now rewrite andb_true_iff, HasPrefix_iff, hasReason_iff.
Qed.

Lemma isStackDeletionEvent_iff (e : StackEvent) :
  isStackDeletionEvent e = true
  <-> StringValue (ResourceStatus e) = ResourceStatusDeleteInProgress
      /\ StringValue (ResourceType e) = "AWS::CloudFormation::Stack"
      /\ ResourceStatusReason e <> None.
Proof.
  unfold isStackDeletionEvent.
  rewrite !andb_true_iff, !String.eqb_eq, hasReason_iff. tauto.
Qed.

(** The classifiers on a listing that succeeds, and on one that fails. *)
Ltac classifier_served H :=
  rewrite H, ListStackEventsForOperation_served, collected_reasons;
  reflexivity.

Ltac classifier_error H :=
  rewrite H, ListStackEventsForOperation_error, collected_reasons;
  reflexivity.

Lemma getCloudFormationFailures_served conn stackID requestToken pages :
  DescribeStackEventsPages conn stackID requestToken = served pages ->
  getCloudFormationFailures conn stackID requestToken
  = (map reasonOf (filter isFailedEvent (concat pages)), None).
Proof. intros H. unfold getCloudFormationFailures. classifier_served H. Qed.

Lemma getCloudFormationRollbackReasons_served conn stackID requestToken pages :
  DescribeStackEventsPages conn stackID requestToken = served pages ->
  getCloudFormationRollbackReasons conn stackID requestToken
  = (map reasonOf
       (filter (fun e => isFailedEvent e || isRollbackEvent e) (concat pages)),
     None).
Proof.
  intros H. unfold getCloudFormationRollbackReasons. classifier_served H.
Qed.

Lemma getCloudFormationDeletionReasons_served conn stackID requestToken pages :
  DescribeStackEventsPages conn stackID requestToken = served pages ->
  getCloudFormationDeletionReasons conn stackID requestToken
  = (map reasonOf
       (filter (fun e => isFailedEvent e || isStackDeletionEvent e)
               (concat pages)),
     None).
Proof.
  intros H. unfold getCloudFormationDeletionReasons. classifier_served H.
Qed.

Lemma getCloudFormationFailures_error conn stackID requestToken before e rest :
  DescribeStackEventsPages conn stackID requestToken
  = map (fun p => PageOk (Some p) false) before ++ PageErr e :: rest ->
  getCloudFormationFailures conn stackID requestToken
  = (map reasonOf (filter isFailedEvent (concat before)), Some e).
Proof. intros H. unfold getCloudFormationFailures. classifier_error H. Qed.

Lemma getCloudFormationRollbackReasons_error conn stackID requestToken before
    e rest :
  DescribeStackEventsPages conn stackID requestToken
  = map (fun p => PageOk (Some p) false) before ++ PageErr e :: rest ->
  getCloudFormationRollbackReasons conn stackID requestToken
  = (map reasonOf
       (filter (fun e => isFailedEvent e || isRollbackEvent e) (concat before)),
     Some e).
Proof.
  intros H. unfold getCloudFormationRollbackReasons. classifier_error H.
Qed.

Lemma getCloudFormationDeletionReasons_error conn stackID requestToken before
    e rest :
  DescribeStackEventsPages conn stackID requestToken
  = map (fun p => PageOk (Some p) false) before ++ PageErr e :: rest ->
  getCloudFormationDeletionReasons conn stackID requestToken
  = (map reasonOf
       (filter (fun e => isFailedEvent e || isStackDeletionEvent e)
               (concat before)),
     Some e).
Proof.
  intros H. unfold getCloudFormationDeletionReasons. classifier_error H.
Qed.

(** ** The failure classifiers *)

(** C3, as amended.  On a listing that succeeds, [getCloudFormationFailures]
    returns, in the order of the event stream, exactly the reasons of the
    events whose resource status ends with [_FAILED] and whose reason is
    present (a non-nil pointer; the string it points to may be empty).  For
    the stream [A:_FAILED:"reason1", B:_OK, C:_FAILED:"reason3"] it returns
    ["reason1"; "reason3"], whatever B's reason. *)
Theorem create_failure_reasons_in_event_order :
  forall conn stackID requestToken (pages : list (list StackEvent)),
    DescribeStackEventsPages conn stackID requestToken = served pages ->
    getCloudFormationFailures conn stackID requestToken
    = (map reasonOf (filter isFailedEvent (concat pages)), None)
    /\ (forall e,
           isFailedEvent e = true
           <-> (exists p,
                   StringValue (ResourceStatus e) = (p ++ "_FAILED")%string)
               /\ ResourceStatusReason e <> None)
    /\ (forall reasonB type,
           getCloudFormationFailures
             (fakeConn []
                (served [[event "A" "_FAILED" (Some "reason1") type;
                          event "B" "_OK" reasonB type;
                          event "C" "_FAILED" (Some "reason3") type]]) [])
             stackID requestToken
           = (["reason1"; "reason3"], None)).
Proof.
  intros conn stackID requestToken pages H. split; [|split].
  - now apply getCloudFormationFailures_served.
  - apply isFailedEvent_iff.
  - intros reasonB type.
    now erewrite getCloudFormationFailures_served by reflexivity.
Qed.

Lemma create_failure_reasons_in_event_order_witness :
  getCloudFormationFailures
    (fakeConn []
       (served [[event "A" "CREATE_FAILED" (Some "reason1") "AWS::S3::Bucket"];
                [event "B" "CREATE_COMPLETE" None "AWS::SNS::Topic";
                 event "C" "DELETE_FAILED" (Some "reason3") "AWS::SQS::Queue"]])
       [])
    "stack" "token"
  = (["reason1"; "reason3"], None).
Proof.
  exact (proj1 (create_failure_reasons_in_event_order
                  (fakeConn [] _ []) "stack" "token" [[_]; [_; _]] eq_refl)).
Defined.

(** C3 as stated fails: a failed event whose reason is present but empty is
    reported (as the empty string), while the statement admits non-empty
    reasons only. *)
Lemma create_failure_present_empty_reason :
  getCloudFormationFailures
    (fakeConn []
       (served [[event "R" "CREATE_FAILED" (Some "") "AWS::S3::Bucket"]]) [])
    "stack" "token"
  = ([""], None)
  /\ spec_createFailureReasons
       [event "R" "CREATE_FAILED" (Some "") "AWS::S3::Bucket"] = []
  /\ fst (getCloudFormationFailures
            (fakeConn []
               (served [[event "R" "CREATE_FAILED" (Some "") "AWS::S3::Bucket"]])
               [])
            "stack" "token")
     <> spec_createFailureReasons
          [event "R" "CREATE_FAILED" (Some "") "AWS::S3::Bucket"].
Proof.
  repeat split; try reflexivity. discriminate.
Qed.

(** C4, as amended.  On a listing that succeeds,
    [getCloudFormationRollbackReasons] returns, in the order of the event
    stream, exactly the reasons of the events whose reason is present (a
    non-nil pointer, possibly to the empty string) and whose resource status
    ends with [_FAILED] or starts with [ROLLBACK_].  For the stream
    [A:ROLLBACK_IN_PROGRESS:"r1", B:UPDATE_FAILED:"r2", C:ROLLBACK_COMPLETE]
    with no reason on C it returns ["r1"; "r2"]. *)
Theorem rollback_reasons_in_event_order :
  forall conn stackID requestToken (pages : list (list StackEvent)),
    DescribeStackEventsPages conn stackID requestToken = served pages ->
    getCloudFormationRollbackReasons conn stackID requestToken
    = (map reasonOf
         (filter (fun e => isFailedEvent e || isRollbackEvent e) (concat pages)),
       None)
    /\ (forall e,
           isFailedEvent e || isRollbackEvent e = true
           <-> ResourceStatusReason e <> None
               /\ ((exists p,
                       StringValue (ResourceStatus e) = (p ++ "_FAILED")%string)
                   \/ (exists q,
                          StringValue (ResourceStatus e)
                          = ("ROLLBACK_" ++ q)%string)))
    /\ (forall type,
           getCloudFormationRollbackReasons
             (fakeConn []
                (served [[event "A" "ROLLBACK_IN_PROGRESS" (Some "r1") type;
                          event "B" "UPDATE_FAILED" (Some "r2") type;
                          event "C" "ROLLBACK_COMPLETE" None type]]) [])
             stackID requestToken
           = (["r1"; "r2"], None)).
Proof.
  intros conn stackID requestToken pages H. split; [|split].
  - now apply getCloudFormationRollbackReasons_served.
  - intros e.
    rewrite orb_true_iff, isFailedEvent_iff, isRollbackEvent_iff. tauto.
  - intros type.
    now erewrite getCloudFormationRollbackReasons_served by reflexivity.
Qed.

Lemma rollback_reasons_in_event_order_witness :
  getCloudFormationRollbackReasons
    (fakeConn []
       (served [[event "A" "ROLLBACK_IN_PROGRESS" (Some "r1") "AWS::S3::Bucket";
                 event "B" "UPDATE_FAILED" (Some "r2") "AWS::SNS::Topic"];
                [event "C" "ROLLBACK_COMPLETE" None
                   "AWS::CloudFormation::Stack"]])
       [])
    "stack" "token"
  = (["r1"; "r2"], None).
Proof.
  exact (proj1 (rollback_reasons_in_event_order
                  (fakeConn [] _ []) "stack" "token" [[_; _]; [_]] eq_refl)).
Defined.

(** C4 as stated fails, on its own stream: when C carries a reason that is
    present but empty, C is reported too. *)
Lemma rollback_present_empty_reason :
  getCloudFormationRollbackReasons
    (fakeConn []
       (served [[event "A" "ROLLBACK_IN_PROGRESS" (Some "r1") "AWS::S3::Bucket";
                 event "B" "UPDATE_FAILED" (Some "r2") "AWS::S3::Bucket";
                 event "C" "ROLLBACK_COMPLETE" (Some "") "AWS::S3::Bucket"]])
       [])
    "stack" "token"
  = (["r1"; "r2"; ""], None)
  /\ spec_rollbackReasons
       [event "A" "ROLLBACK_IN_PROGRESS" (Some "r1") "AWS::S3::Bucket";
        event "B" "UPDATE_FAILED" (Some "r2") "AWS::S3::Bucket";
        event "C" "ROLLBACK_COMPLETE" (Some "") "AWS::S3::Bucket"]
     = ["r1"; "r2"].
Proof.
  split; reflexivity.
Qed.

(** C5, as amended.  On a listing that succeeds,
    [getCloudFormationDeletionReasons] returns, in the order of the event
    stream, exactly the reasons of the events whose reason is present (a
    non-nil pointer, possibly to the empty string) and that either have a
    resource status ending with [_FAILED] or are the delete-in-progress
    event of the stack itself (resource type ["AWS::CloudFormation::Stack"],
    status [DELETE_IN_PROGRESS]).  A delete-in-progress event of any other
    resource type is left out. *)
Theorem deletion_reasons_in_event_order :
  forall conn stackID requestToken (pages : list (list StackEvent)),
    DescribeStackEventsPages conn stackID requestToken = served pages ->
    getCloudFormationDeletionReasons conn stackID requestToken
    = (map reasonOf
         (filter (fun e => isFailedEvent e || isStackDeletionEvent e)
                 (concat pages)),
       None)
    /\ (forall e,
           isFailedEvent e || isStackDeletionEvent e = true
           <-> ResourceStatusReason e <> None
               /\ ((exists p,
                       StringValue (ResourceStatus e) = (p ++ "_FAILED")%string)
                   \/ (StringValue (ResourceStatus e)
                       = ResourceStatusDeleteInProgress
                       /\ StringValue (ResourceType e)
                          = "AWS::CloudFormation::Stack")))
    /\ (forall e,
           StringValue (ResourceStatus e) = ResourceStatusDeleteInProgress ->
           StringValue (ResourceType e) <> "AWS::CloudFormation::Stack" ->
           isFailedEvent e || isStackDeletionEvent e = false).
Proof.
  intros conn stackID requestToken pages H. split; [|split].
  - now apply getCloudFormationDeletionReasons_served.
  - intros e.
    rewrite orb_true_iff, isFailedEvent_iff, isStackDeletionEvent_iff. tauto.
  - intros e Hstatus Htype.
    unfold isFailedEvent, isStackDeletionEvent. rewrite Hstatus.
    apply String.eqb_neq in Htype. rewrite Htype. reflexivity.
Qed.

Lemma deletion_reasons_in_event_order_witness :
  getCloudFormationDeletionReasons
    (fakeConn []
       (served [[event "stack" "DELETE_IN_PROGRESS" (Some "User Initiated")
                   "AWS::CloudFormation::Stack";
                 event "queue" "DELETE_IN_PROGRESS" (Some "nested")
                   "AWS::SQS::Queue"];
                [event "bucket" "DELETE_FAILED" (Some "bucket not empty")
                   "AWS::S3::Bucket"]])
       [])
    "stack" "token"
  = (["User Initiated"; "bucket not empty"], None).
Proof.
  exact (proj1 (deletion_reasons_in_event_order
                  (fakeConn [] _ []) "stack" "token" [[_; _]; [_]] eq_refl)).
Defined.

(** C5 as stated fails: the delete-in-progress event of the stack itself
    with a reason that is present but empty is reported, while the statement
    asks for a non-empty reason. *)
Lemma deletion_present_empty_reason :
  getCloudFormationDeletionReasons
    (fakeConn []
       (served [[event "stack" "DELETE_IN_PROGRESS" (Some "")
                   "AWS::CloudFormation::Stack"]]) [])
    "stack" "token"
  = ([""], None)
  /\ spec_deletionReasons
       [event "stack" "DELETE_IN_PROGRESS" (Some "")
          "AWS::CloudFormation::Stack"] = [].
Proof.
  split; reflexivity.
Qed.

Lemma recorded_visits {A : Type} (l : list A) :
  forall visited,
    fold_left (fun visited e => visited ++ [e]) l visited = visited ++ l.
Proof.
  induction l as [|a l IH]; intros visited; cbn [fold_left].
  - now rewrite app_nil_r.
  - now rewrite IH, <- app_assoc.
Qed.

Lemma appended_pages {A : Type} (pages : list (list A)) :
  forall acc, fold_left (fun acc page => acc ++ page) pages acc
              = acc ++ concat pages.
Proof.
  induction pages as [|p pages IH]; intros acc; cbn [fold_left concat].
  - now rewrite app_nil_r.
  - now rewrite IH, <- app_assoc.
Qed.

(** C8.  A listing whose pages are [init ++ [last]], the service flagging
    [last] as the last page: every record of every page is handed to the
    callback exactly once, page after page in the order of the records, and
    nothing is fetched after the last page (whatever answers [extra] the
    service would have given next are never asked for).  This holds of the
    event listing, for any callback, and of the closure with which
    [StackSetOperationSucceeded] collects the result summaries.  With two
    records on the first page and one on the second and last, three records
    are processed. *)
Theorem pagination_visits_every_record_once :
  forall (init : list (list StackEvent)) (last : list StackEvent)
         (extra : list (PageFetch (list StackEvent))),
    (forall (St : Type) (fn : StackEvent -> St -> St) (st : St),
        ListStackEventsForOperation (served (init ++ [last]) ++ extra) fn st
        = (fold_left (fun st e => fn e st) (concat (init ++ [last])) st, None))
    /\ ListStackEventsForOperation (served (init ++ [last]) ++ extra)
         (fun e visited => visited ++ [e]) []
       = (concat (init ++ [last]), None)
    /\ (forall (sInit : list (list StackSetOperationResultSummary))
               (sLast : list StackSetOperationResultSummary)
               (sExtra : list (PageFetch (list StackSetOperationResultSummary))),
           Pages (served (sInit ++ [sLast]) ++ sExtra) appendSummaries []
           = (concat (sInit ++ [sLast]), None))
    /\ (forall e1 e2 e3 : StackEvent,
           ListStackEventsForOperation (served [[e1; e2]; [e3]] ++ extra)
             (fun _ calls => S calls) 0%nat
           = (3%nat, None)
           /\ ListStackEventsForOperation (served [[e1; e2]; [e3]] ++ extra)
                (fun e visited => visited ++ [e]) []
              = ([e1; e2; e3], None)).
Proof.
  intros init last extra. split; [|split; [|split]].
  - intros St fn st. apply ListStackEventsForOperation_stop.
  - rewrite ListStackEventsForOperation_stop. now rewrite recorded_visits.
  - intros sInit sLast sExtra.
    erewrite Pages_stop_after_last
      with (update := fun page summaries =>
                        match page with
                        | None => summaries
                        | Some page => summaries ++ page
                        end).
    + now rewrite appended_pages.
    + now intros [page|] lastPage st.
  - intros e1 e2 e3.
    split; exact (ListStackEventsForOperation_stop _ [[e1; e2]] [e3] extra _).
Qed.

(** ** The poll loop *)

Section PollLoop.

Variable computedBackoff : nat -> Z.

Lemma sleep_le (elapsed d : Z) : (elapsed <= sleep elapsed d)%Z.
Proof. unfold sleep. lia. Qed.

Lemma elapsedFrom_le (conf : StateChangeConf) (n : nat) :
  forall attempt elapsed,
    (elapsed <= elapsedFrom computedBackoff conf attempt elapsed n)%Z.
Proof.
  induction n as [|n IH]; intros attempt elapsed; cbn [elapsedFrom]; [lia|].
  etransitivity; [apply sleep_le | apply IH].
Qed.

(** Pending polls, then a poll with a target status, within the time: the
    loop returns the snapshot of that poll and no error. *)
Lemma poll_reaches_target (conf : StateChangeConf) (final : RefreshResult)
    (extra : list RefreshResult) (init : list RefreshResult) :
  forall attempt elapsed last,
    Forall (pendingPoll conf) init ->
    err final = None ->
    inStatuses (state final) (Target conf) = true ->
    (elapsedFrom computedBackoff conf attempt elapsed (List.length init)
     <= Timeout conf)%Z ->
    poll computedBackoff conf attempt elapsed last (init ++ final :: extra)
    = Some (result final, None).
Proof.
  induction init as [|r init IH]; intros attempt elapsed last Hpending Herr
    Htarget Htime.
  - cbn [app poll elapsedFrom List.length] in *.
    replace (Timeout conf <? elapsed)%Z with false by (symmetry; lia).
    now rewrite Herr, Htarget.
  - inversion Hpending as [|r' init' [Hr [Hnot Hpend]] Hinit]; subst.
    cbn [app poll].
    pose proof (elapsedFrom_le conf (List.length (r :: init)) attempt elapsed).
    replace (Timeout conf <? elapsed)%Z with false by (symmetry; lia).
    rewrite Hr, Hnot, Hpend.
    now apply IH.
Qed.

Lemma ending_cons (conf : StateChangeConf) (time time' : nat -> Z)
    (r : RefreshResult) (polled : list RefreshResult) (e : option error) :
  pendingPoll conf r ->
  (forall n, time (S n) = time' n) ->
  ending conf time' polled e ->
  ending conf time (r :: polled) e.
Proof.
  intros Hr Htime Hend.
  destruct Hend as [init r' Hinit Herr Htarget
                   | polled Hpolled Hlate
                   | init r' e Hinit Herr
                   | init r' Hinit Herr Htarget Hpending].
  - apply (ReachedTarget time (init := r :: init)); auto.
  - apply TimedOut; [auto|]. cbn [List.length]. now rewrite Htime.
  - apply (RefreshFailed time (init := r :: init)); auto.
  - apply (UnrecognizedStatus time (init := r :: init)); auto.
Qed.

(** However the loop ends, it returns the snapshot of the last poll that
    succeeded among the polls it made, and ends in one of the four ways. *)
Lemma poll_ends (conf : StateChangeConf) (answers : list RefreshResult) :
  forall attempt elapsed last out e,
    poll computedBackoff conf attempt elapsed last answers = Some (out, e) ->
    exists made rest,
      answers = made ++ rest
      /\ ending conf (elapsedFrom computedBackoff conf attempt elapsed) made e
      /\ out = fold_left observe made last.
Proof.
  induction answers as [|r answers IH]; intros attempt elapsed last out e;
    cbn [poll]; destruct (Timeout conf <? elapsed)%Z eqn:Hlate.
  - intros [= <- <-]. exists [], []. repeat split.
    apply TimedOut; [constructor | cbn; lia].
  - discriminate.
  - intros [= <- <-]. exists [], (r :: answers). repeat split.
    apply TimedOut; [constructor | cbn; lia].
  - destruct (err r) as [e0|] eqn:Herr.
    { intros [= <- <-]. exists [r], answers. repeat split.
      - now apply (RefreshFailed _ (init := [])).
      - cbn. unfold observe. now rewrite Herr. }
    destruct (inStatuses (state r) (Target conf)) eqn:Htarget.
    { intros [= <- <-]. exists [r], answers. repeat split.
      - now apply (ReachedTarget _ (init := [])).
      - cbn. unfold observe. now rewrite Herr. }
    destruct (inStatuses (state r) (Pending conf)) eqn:Hpending.
    + intros H. apply IH in H. destruct H as (made & rest & -> & Hend & ->).
      exists (r :: made), rest. repeat split.
      * eapply ending_cons; [now repeat split | | exact Hend]. reflexivity.
      * cbn [fold_left]. f_equal. unfold observe. now rewrite Herr.
    + intros [= <- <-]. exists [r], answers. repeat split.
      * now apply (UnrecognizedStatus _ (init := [])).
      * cbn. unfold observe. now rewrite Herr.
Qed.

Lemma WaitForState_ends (conf : StateChangeConf) (out : option Raw)
    (e : option error) :
  WaitForState computedBackoff conf = Some (out, e) ->
  exists made rest,
    Refresh conf = made ++ rest
    /\ ending conf (elapsedAtPoll computedBackoff conf) made e
    /\ out = lastObserved made.
Proof.
  apply poll_ends.
Qed.

Lemma WaitForState_reaches_target (conf : StateChangeConf)
    (init : list RefreshResult) (final : RefreshResult)
    (extra : list RefreshResult) :
  Refresh conf = init ++ final :: extra ->
  Forall (pendingPoll conf) init ->
  err final = None ->
  inStatuses (state final) (Target conf) = true ->
  (elapsedAtPoll computedBackoff conf (List.length init) <= Timeout conf)%Z ->
  WaitForState computedBackoff conf = Some (result final, None).
Proof.
  intros Hrefresh Hpending Herr Htarget Htime.
  unfold WaitForState. rewrite Hrefresh. now apply poll_reaches_target.
Qed.

End PollLoop.

(** ** The wait operations after the loop *)

Lemma Pages_error_same {P St1 St2 : Type}
    (fn1 : option P -> bool -> St1 -> St1 * bool)
    (fn2 : option P -> bool -> St2 -> St2 * bool)
    (update1 : option P -> St1 -> St1) (update2 : option P -> St2 -> St2) :
  (forall page lastPage st, fn1 page lastPage st = (update1 page st, negb lastPage)) ->
  (forall page lastPage st, fn2 page lastPage st = (update2 page st, negb lastPage)) ->
  forall answers st1 st2,
    snd (Pages answers fn1 st1) = snd (Pages answers fn2 st2).
Proof.
  intros H1 H2. induction answers as [|[page lastPage|e] answers IH];
    intros st1 st2; cbn [Pages]; try reflexivity.
  rewrite H1, H2. destruct (negb lastPage); cbn; [apply IH | reflexivity].
Qed.

Lemma ListStackEventsForOperation_error_same {St : Type}
    (fn : StackEvent -> St -> St) answers (st : St) :
  snd (ListStackEventsForOperation answers fn st)
  = snd (ListStackEventsForOperation answers (fun _ (u : unit) => u) tt).
Proof.
  unfold ListStackEventsForOperation.
  eapply Pages_error_same; intros; reflexivity.
Qed.

Lemma getCloudFormationFailures_lookupError conn stackID requestToken :
  snd (getCloudFormationFailures conn stackID requestToken)
  = lookupError conn stackID requestToken.
Proof. apply ListStackEventsForOperation_error_same. Qed.

Lemma getCloudFormationRollbackReasons_lookupError conn stackID requestToken :
  snd (getCloudFormationRollbackReasons conn stackID requestToken)
  = lookupError conn stackID requestToken.
Proof. apply ListStackEventsForOperation_error_same. Qed.

Lemma getCloudFormationDeletionReasons_lookupError conn stackID requestToken :
  snd (getCloudFormationDeletionReasons conn stackID requestToken)
  = lookupError conn stackID requestToken.
Proof. apply ListStackEventsForOperation_error_same. Qed.

Lemma lookupError_of_paging_error conn stackID requestToken before e rest :
  DescribeStackEventsPages conn stackID requestToken
  = map (fun p => PageOk (Some p) false) before ++ PageErr e :: rest ->
  lookupError conn stackID requestToken = Some e.
Proof.
  intros H. unfold lookupError.
  now rewrite H, ListStackEventsForOperation_error.
Qed.

(** Case analysis on the status tests and on what the classifier returned. *)
Ltac status_cases :=
  repeat match goal with
    | |- context [(?a =? ?b)%string] => destruct (a =? b)%string eqn:?
    end;
  cbn [orb];
  repeat match goal with
    | |- context [let (_, _) := ?p in _] => destruct p as [? [?|]] eqn:?
    end.

Ltac name_operation :=
  first
    [ exists "failed to create CloudFormation stack, rollback requested";
      reflexivity
    | exists "failed to create CloudFormation stack, delete requested";
      reflexivity
    | exists "failed to create CloudFormation stack"; reflexivity
    | exists "failed to update CloudFormation stack"; reflexivity
    | exists "failed to delete CloudFormation stack"; reflexivity ].

Section AfterTheLoop.

Variable computedBackoff : nat -> Z.
Variable withLastError : error -> error -> error.
Variable StackSetOperationError :
  list StackSetOperationResultSummary -> option error.

Variable conn : CloudFormation.
Variables stackID requestToken : string.
Variable timeout : Z.

(** A wait that ends with an error: the stack waiters return it with a nil
    stack. *)
Lemma StackCreated_wait_error out e :
  WaitForState computedBackoff (StackCreated_stateConf conn stackID timeout)
  = Some (out, Some e) ->
  StackCreated computedBackoff conn stackID requestToken timeout
  = Some (None, Some e).
Proof. intros H. unfold StackCreated. now rewrite H. Qed.

Lemma StackUpdated_wait_error out e :
  WaitForState computedBackoff (StackUpdated_stateConf conn stackID timeout)
  = Some (out, Some e) ->
  StackUpdated computedBackoff conn stackID requestToken timeout
  = Some (None, Some e).
Proof. intros H. unfold StackUpdated. now rewrite H. Qed.

Lemma StackDeleted_wait_error out e :
  WaitForState computedBackoff (StackDeleted_stateConf conn stackID timeout)
  = Some (out, Some e) ->
  StackDeleted computedBackoff conn stackID requestToken timeout
  = Some (None, Some e).
Proof. intros H. unfold StackDeleted. now rewrite H. Qed.

(** A wait that ends on a target status: the stack waiters return the
    stack, and an error exactly for the statuses they report as failures. *)
Lemma StackCreated_target stack :
  WaitForState computedBackoff (StackCreated_stateConf conn stackID timeout)
  = Some (Some (RawStack stack), None) ->
  exists e,
    StackCreated computedBackoff conn stackID requestToken timeout
    = Some (Some stack, e)
    /\ (e = None
        <-> inStatuses (StringValue (Stack_StackStatus stack))
              StackCreated_failureStatuses = false).
Proof.
  intros H. unfold StackCreated, inStatuses, StackCreated_failureStatuses.
  rewrite H. cbn [asStack existsb].
  status_cases; eexists; (split; [reflexivity|]); cbn; split; congruence.
Qed.

Lemma StackUpdated_target stack :
  WaitForState computedBackoff (StackUpdated_stateConf conn stackID timeout)
  = Some (Some (RawStack stack), None) ->
  exists e,
    StackUpdated computedBackoff conn stackID requestToken timeout
    = Some (Some stack, e)
    /\ (e = None
        <-> inStatuses (StringValue (Stack_StackStatus stack))
              StackUpdated_failureStatuses = false).
Proof.
  intros H. unfold StackUpdated, inStatuses, StackUpdated_failureStatuses.
  rewrite H. cbn [asStack existsb].
  status_cases; eexists; (split; [reflexivity|]); cbn; split; congruence.
Qed.

Lemma StackDeleted_target stack :
  WaitForState computedBackoff (StackDeleted_stateConf conn stackID timeout)
  = Some (Some (RawStack stack), None) ->
  exists e,
    StackDeleted computedBackoff conn stackID requestToken timeout
    = Some (Some stack, e)
    /\ (e = None
        <-> inStatuses (StringValue (Stack_StackStatus stack))
              StackDeleted_failureStatuses = false).
Proof.
  intros H. unfold StackDeleted, inStatuses, StackDeleted_failureStatuses.
  rewrite H. cbn [asStack existsb].
  status_cases; eexists; (split; [reflexivity|]); cbn; split; congruence.
Qed.

(** A wait that ends on a failure status, and the lookup of the reasons
    fails: the error names the status and wraps the lookup's error. *)
Lemma StackCreated_lookup_error stack lookupErr :
  WaitForState computedBackoff (StackCreated_stateConf conn stackID timeout)
  = Some (Some (RawStack stack), None) ->
  inStatuses (StringValue (Stack_StackStatus stack))
    StackCreated_failureStatuses = true ->
  lookupError conn stackID requestToken = Some lookupErr ->
  exists e,
    StackCreated computedBackoff conn stackID requestToken timeout
    = Some (Some stack, Some e)
    /\ readingFailureInformation e (StringValue (Stack_StackStatus stack))
         lookupErr.
Proof.
  intros H Hfailure Hlookup.
  pose proof (getCloudFormationFailures_lookupError conn stackID requestToken)
    as H1.
  pose proof (getCloudFormationRollbackReasons_lookupError conn stackID
                requestToken) as H2.
  pose proof (getCloudFormationDeletionReasons_lookupError conn stackID
                requestToken) as H3.
  rewrite Hlookup in H1, H2, H3. revert Hfailure H1 H2 H3.
  unfold StackCreated, inStatuses, StackCreated_failureStatuses.
  rewrite H. cbn [asStack existsb].
  status_cases; cbn; intros Hfailure H1 H2 H3; try congruence;
    repeat match goal with
      | E : Some _ = Some _ |- _ => injection E as ->
      end;
    eexists; (split; [reflexivity|]); name_operation.
Qed.

Lemma StackUpdated_lookup_error stack lookupErr :
  WaitForState computedBackoff (StackUpdated_stateConf conn stackID timeout)
  = Some (Some (RawStack stack), None) ->
  inStatuses (StringValue (Stack_StackStatus stack))
    StackUpdated_failureStatuses = true ->
  lookupError conn stackID requestToken = Some lookupErr ->
  exists e,
    StackUpdated computedBackoff conn stackID requestToken timeout
    = Some (Some stack, Some e)
    /\ readingFailureInformation e (StringValue (Stack_StackStatus stack))
         lookupErr.
Proof.
  intros H Hfailure Hlookup.
  pose proof (getCloudFormationRollbackReasons_lookupError conn stackID
                requestToken) as H2.
  rewrite Hlookup in H2. revert Hfailure H2.
  unfold StackUpdated, inStatuses, StackUpdated_failureStatuses.
  rewrite H. cbn [asStack existsb].
  status_cases; cbn; intros Hfailure H2; try congruence;
    repeat match goal with
      | E : Some _ = Some _ |- _ => injection E as ->
      end;
    eexists; (split; [reflexivity|]); name_operation.
Qed.

Lemma StackDeleted_lookup_error stack lookupErr :
  WaitForState computedBackoff (StackDeleted_stateConf conn stackID timeout)
  = Some (Some (RawStack stack), None) ->
  inStatuses (StringValue (Stack_StackStatus stack))
    StackDeleted_failureStatuses = true ->
  lookupError conn stackID requestToken = Some lookupErr ->
  exists e,
    StackDeleted computedBackoff conn stackID requestToken timeout
    = Some (Some stack, Some e)
    /\ readingFailureInformation e (StringValue (Stack_StackStatus stack))
         lookupErr.
Proof.
  intros H Hfailure Hlookup.
  pose proof (getCloudFormationFailures_lookupError conn stackID requestToken)
    as H1.
  rewrite Hlookup in H1. revert Hfailure H1.
  unfold StackDeleted, inStatuses, StackDeleted_failureStatuses.
  rewrite H. cbn [asStack existsb].
  status_cases; cbn; intros Hfailure H1; try congruence;
    repeat match goal with
      | E : Some _ = Some _ |- _ => injection E as ->
      end;
    eexists; (split; [reflexivity|]); name_operation.
Qed.

(** The error a stack waiter builds from a failed lookup carries the status
    as its only operand, and unwraps to the lookup's error. *)
Lemma readingFailureInformation_parts e lastStatus lookupErr :
  readingFailureInformation e lastStatus lookupErr ->
  operands e = [lastStatus] /\ Unwrap e = Some lookupErr.
Proof.
  intros [operation ->]. split; reflexivity.
Qed.

(** [ChangeSetCreated] after the loop: the output goes back to the caller
    with the wait error, to which the status reason of a failed change set
    has been handed. *)
Lemma ChangeSetCreated_output (changeSetName : string) output e :
  WaitForState computedBackoff
    (ChangeSetCreated_stateConf conn stackID changeSetName)
  = Some (Some (RawChangeSet output), e) ->
  ChangeSetCreated computedBackoff withLastError conn stackID changeSetName
  = Some (Some output,
          if StringValue (ChangeSet_Status output) =? ChangeSetStatusFailed
          then SetLastError withLastError e
                 (errors_New (StringValue (ChangeSet_StatusReason output)))
          else e).
Proof. intros H. unfold ChangeSetCreated. now rewrite H. Qed.

Lemma ChangeSetCreated_snapshot (changeSetName : string) out e :
  WaitForState computedBackoff
    (ChangeSetCreated_stateConf conn stackID changeSetName)
  = Some (out, e) ->
  exists e',
    ChangeSetCreated computedBackoff withLastError conn stackID changeSetName
    = Some (asChangeSet out, e')
    /\ (e' = None <-> e = None).
Proof.
  intros H. unfold ChangeSetCreated. rewrite H.
  destruct (asChangeSet out) as [output|]; [|now exists e].
  destruct (StringValue (ChangeSet_Status output) =? ChangeSetStatusFailed);
    [|now exists e].
  eexists; split; [reflexivity|].
  destruct e; cbn; split; congruence.
Qed.

(** [StackSetOperationSucceeded] after the loop, when the operation failed
    and listing its results fails too. *)
Lemma StackSetOperationSucceeded_list_error (stackSetName operationID : string)
    output waitErr listErr :
  WaitForState computedBackoff
    (StackSetOperationSucceeded_stateConf conn stackSetName operationID timeout)
  = Some (Some (RawOperation output), waitErr) ->
  StringValue (Operation_Status output) = StackSetOperationStatusFailed ->
  snd (Pages (ListStackSetOperationResultsPages conn stackSetName operationID)
         appendSummaries []) = Some listErr ->
  StackSetOperationSucceeded computedBackoff withLastError
    StackSetOperationError conn stackSetName operationID timeout
  = Some (Some output,
          SetLastError withLastError waitErr
            (fmt_Errorf
               "error listing CloudFormation Stack Set (%s) Operation (%s) results: %w"
               [ArgString stackSetName; ArgString operationID]
               (Some listErr))).
Proof.
  intros H Hstatus Hlist. unfold StackSetOperationSucceeded.
  rewrite H. cbn [asOperation]. rewrite Hstatus. cbn [String.eqb].
  destruct (Pages _ appendSummaries []) as [summaries [e|]]; cbn in Hlist;
    [|discriminate].
  injection Hlist as ->. reflexivity.
Qed.

End AfterTheLoop.

(** ** What a wait returns *)

Lemma disjointStatuses_pending (conf : StateChangeConf) (s : string) :
  disjointStatuses conf = true ->
  inStatuses s (Pending conf) = true ->
  inStatuses s (Target conf) = false.
Proof.
  unfold disjointStatuses, inStatuses at 1. intros Hdisjoint Hpending.
  apply existsb_exists in Hpending. destruct Hpending as (x & Hin & Heq).
  apply String.eqb_eq in Heq. subst x.
  rewrite forallb_forall in Hdisjoint. apply Hdisjoint in Hin.
  now apply negb_true_iff in Hin.
Qed.

Lemma answersPending_pendingPoll (conf : StateChangeConf)
    (init : list RefreshResult) :
  disjointStatuses conf = true ->
  Forall (answersPending conf) init ->
  Forall (pendingPoll conf) init.
Proof.
  intros Hdisjoint. apply Forall_impl. intros r [Herr Hpending].
  repeat split; auto using disjointStatuses_pending.
Qed.

(** C1, as amended.  Whenever a poll loop ends, in whichever way (target
    status reached, time exceeded, refresher error, or a status that is
    neither pending nor a target), it returns the snapshot of the last poll
    that succeeded.  [ChangeSetCreated] hands that snapshot back to its
    caller in every case, with an error that is nil exactly when the
    loop's is.  [StackCreated], [StackUpdated] and [StackDeleted] hand it
    back only when the loop ended without error; when the loop ended with
    an error they return a nil stack together with that error. *)
Theorem wait_snapshot_returned :
  forall (computedBackoff : nat -> Z) (withLastError : error -> error -> error)
         (conn : CloudFormation) (stackID changeSetName requestToken : string)
         (timeout : Z),
    (forall conf out e,
        WaitForState computedBackoff conf = Some (out, e) ->
        exists made rest,
          Refresh conf = made ++ rest
          /\ ending conf (elapsedAtPoll computedBackoff conf) made e
          /\ out = lastObserved made)
    /\ (forall out e,
           WaitForState computedBackoff
             (ChangeSetCreated_stateConf conn stackID changeSetName)
           = Some (out, e) ->
           exists e',
             ChangeSetCreated computedBackoff withLastError conn stackID
               changeSetName
             = Some (asChangeSet out, e')
             /\ (e' = None <-> e = None))
    /\ (forall out e,
           WaitForState computedBackoff
             (StackCreated_stateConf conn stackID timeout)
           = Some (out, e) ->
           match e with
           | Some _ =>
               StackCreated computedBackoff conn stackID requestToken timeout
               = Some (None, e)
           | None =>
               exists e',
                 StackCreated computedBackoff conn stackID requestToken timeout
                 = Some (asStack out, e')
           end)
    /\ (forall out e,
           WaitForState computedBackoff
             (StackUpdated_stateConf conn stackID timeout)
           = Some (out, e) ->
           match e with
           | Some _ =>
               StackUpdated computedBackoff conn stackID requestToken timeout
               = Some (None, e)
           | None =>
               exists e',
                 StackUpdated computedBackoff conn stackID requestToken timeout
                 = Some (asStack out, e')
           end)
    /\ (forall out e,
           WaitForState computedBackoff
             (StackDeleted_stateConf conn stackID timeout)
           = Some (out, e) ->
           match e with
           | Some _ =>
               StackDeleted computedBackoff conn stackID requestToken timeout
               = Some (None, e)
           | None =>
               exists e',
                 StackDeleted computedBackoff conn stackID requestToken timeout
                 = Some (asStack out, e')
           end).
Proof.
  intros computedBackoff withLastError conn stackID changeSetName requestToken
    timeout.
  split; [|split; [|split; [|split]]].
  - intros conf out e. apply WaitForState_ends.
  - intros out e. apply ChangeSetCreated_snapshot.
  - intros out [e|] H.
    + now apply StackCreated_wait_error with (out := out).
    + destruct out as [[stack| | |]|];
        try (exists None; unfold StackCreated; now rewrite H).
      destruct (@StackCreated_target computedBackoff conn stackID requestToken
                  timeout stack H) as (e' & -> & _).
      now exists e'.
  - intros out [e|] H.
    + now apply StackUpdated_wait_error with (out := out).
    + destruct out as [[stack| | |]|];
        try (exists None; unfold StackUpdated; now rewrite H).
      destruct (@StackUpdated_target computedBackoff conn stackID requestToken
                  timeout stack H) as (e' & -> & _).
      now exists e'.
  - intros out [e|] H.
    + now apply StackDeleted_wait_error with (out := out).
    + destruct out as [[stack| | |]|];
        try (exists None; unfold StackDeleted; now rewrite H).
      destruct (@StackDeleted_target computedBackoff conn stackID requestToken
                  timeout stack H) as (e' & -> & _).
      now exists e'.
Qed.

Lemma wait_snapshot_returned_witness :
  WaitForState noBackoff
    (StackCreated_stateConf
       (fakeConn [polled (RawStack (stackIn "CREATE_IN_PROGRESS"))
                    "CREATE_IN_PROGRESS";
                  polled (RawStack (stackIn "CREATE_COMPLETE"))
                    "CREATE_COMPLETE"] [] [])
       "stack" (30 * Minute))
  = Some (Some (RawStack (stackIn "CREATE_COMPLETE")), None)
  /\ exists e',
      StackCreated noBackoff
        (fakeConn [polled (RawStack (stackIn "CREATE_IN_PROGRESS"))
                     "CREATE_IN_PROGRESS";
                   polled (RawStack (stackIn "CREATE_COMPLETE"))
                     "CREATE_COMPLETE"] [] [])
        "stack" "token" (30 * Minute)
      = Some (Some (stackIn "CREATE_COMPLETE"), e').
Proof.
  split; [reflexivity|].
  destruct (wait_snapshot_returned noBackoff sampleWithLastError
              (fakeConn [polled (RawStack (stackIn "CREATE_IN_PROGRESS"))
                           "CREATE_IN_PROGRESS";
                         polled (RawStack (stackIn "CREATE_COMPLETE"))
                           "CREATE_COMPLETE"] [] [])
              "stack" "change-set" "token" (30 * Minute))
    as (_ & _ & H & _).
  exact (H (Some (RawStack (stackIn "CREATE_COMPLETE"))) None eq_refl).
Defined.

(** C1 as stated fails for the stack waiters.  A stack create whose first
    poll finds [CREATE_IN_PROGRESS] and whose time then runs out: the loop
    ends with that snapshot and a timeout error, and [StackCreated] returns
    the error with a nil stack.  The same when the second poll fails. *)
Lemma stack_wait_error_drops_snapshot :
  (WaitForState noBackoff
     (StackCreated_stateConf
        (fakeConn [polled (RawStack (stackIn "CREATE_IN_PROGRESS"))
                     "CREATE_IN_PROGRESS"] [] [])
        "stack" (10 * Second))
   = Some (Some (RawStack (stackIn "CREATE_IN_PROGRESS")),
           Some (TimeoutError (10 * Second)))
   /\ StackCreated noBackoff
        (fakeConn [polled (RawStack (stackIn "CREATE_IN_PROGRESS"))
                     "CREATE_IN_PROGRESS"] [] [])
        "stack" "token" (10 * Second)
      = Some (None, Some (TimeoutError (10 * Second))))
  /\ (WaitForState noBackoff
        (StackCreated_stateConf
           (fakeConn [polled (RawStack (stackIn "CREATE_IN_PROGRESS"))
                        "CREATE_IN_PROGRESS";
                      {| result := None; state := "";
                         err := Some (errors_New "Throttling") |}] [] [])
           "stack" (30 * Minute))
      = Some (Some (RawStack (stackIn "CREATE_IN_PROGRESS")),
              Some (errors_New "Throttling"))
      /\ StackCreated noBackoff
           (fakeConn [polled (RawStack (stackIn "CREATE_IN_PROGRESS"))
                        "CREATE_IN_PROGRESS";
                      {| result := None; state := "";
                         err := Some (errors_New "Throttling") |}] [] [])
           "stack" "token" (30 * Minute)
         = Some (None, Some (errors_New "Throttling"))).
Proof.
  repeat split.
Qed.

(** C2, as amended.  For every policy whose pending and target sets are
    disjoint, and every sequence of successful polls whose last status is a
    target and whose earlier statuses are all pending, the last poll being
    made before the timeout: the poll loop returns the snapshot of the last
    poll with no error; membership in the target set alone ends the loop.
    The wait operation then returns that snapshot; for [ChangeSetCreated]
    with no error, for [StackCreated], [StackUpdated] and [StackDeleted]
    with no error exactly when the stack's status is not one of those the
    operation reports as a failure (for [StackCreated]: [ROLLBACK_COMPLETE],
    [ROLLBACK_FAILED], [DELETE_COMPLETE], [DELETE_FAILED], [CREATE_FAILED]). *)
Theorem target_status_ends_the_wait :
  forall (computedBackoff : nat -> Z) (conf : StateChangeConf)
         (init : list RefreshResult) (final : RefreshResult)
         (extra : list RefreshResult),
    Refresh conf = init ++ final :: extra ->
    disjointStatuses conf = true ->
    Forall (answersPending conf) init ->
    err final = None ->
    inStatuses (state final) (Target conf) = true ->
    (elapsedAtPoll computedBackoff conf (List.length init) < Timeout conf)%Z ->
    WaitForState computedBackoff conf = Some (result final, None)
    /\ (forall withLastError conn stackID changeSetName output,
           conf = ChangeSetCreated_stateConf conn stackID changeSetName ->
           result final = Some (RawChangeSet output) ->
           ChangeSetCreated computedBackoff withLastError conn stackID
             changeSetName
           = Some (Some output, None))
    /\ (forall conn stackID requestToken timeout stack,
           result final = Some (RawStack stack) ->
           (conf = StackCreated_stateConf conn stackID timeout ->
            exists e,
              StackCreated computedBackoff conn stackID requestToken timeout
              = Some (Some stack, e)
              /\ (e = None
                  <-> inStatuses (StringValue (Stack_StackStatus stack))
                        StackCreated_failureStatuses = false))
           /\ (conf = StackUpdated_stateConf conn stackID timeout ->
               exists e,
                 StackUpdated computedBackoff conn stackID requestToken timeout
                 = Some (Some stack, e)
                 /\ (e = None
                     <-> inStatuses (StringValue (Stack_StackStatus stack))
                           StackUpdated_failureStatuses = false))
           /\ (conf = StackDeleted_stateConf conn stackID timeout ->
               exists e,
                 StackDeleted computedBackoff conn stackID requestToken timeout
                 = Some (Some stack, e)
                 /\ (e = None
                     <-> inStatuses (StringValue (Stack_StackStatus stack))
                           StackDeleted_failureStatuses = false))).
Proof.
  intros computedBackoff conf init final extra Hrefresh Hdisjoint Hpending Herr
    Htarget Htime.
  assert (Hwait : WaitForState computedBackoff conf = Some (result final, None)).
  { apply WaitForState_reaches_target with (init := init) (extra := extra);
      auto using answersPending_pendingPoll. lia. }
  split; [exact Hwait|split].
  - intros withLastError conn stackID changeSetName output -> Hresult.
    rewrite Hresult in Hwait.
    destruct (@ChangeSetCreated_snapshot computedBackoff withLastError conn
                stackID changeSetName _ _ Hwait) as (e' & -> & He').
    cbn [asChangeSet]. now rewrite (proj2 He' eq_refl).
  - intros conn stackID requestToken timeout stack Hresult.
    rewrite Hresult in Hwait.
    split; [|split]; intros ->.
    + now apply StackCreated_target.
    + now apply StackUpdated_target.
    + now apply StackDeleted_target.
Qed.

Lemma target_status_ends_the_wait_witness :
  WaitForState noBackoff
    (StackUpdated_stateConf
       (fakeConn [polled (RawStack (stackIn "UPDATE_IN_PROGRESS"))
                    "UPDATE_IN_PROGRESS";
                  polled (RawStack (stackIn "UPDATE_COMPLETE_CLEANUP_IN_PROGRESS"))
                    "UPDATE_COMPLETE_CLEANUP_IN_PROGRESS";
                  polled (RawStack (stackIn "UPDATE_COMPLETE"))
                    "UPDATE_COMPLETE"] [] [])
       "stack" (30 * Minute))
  = Some (Some (RawStack (stackIn "UPDATE_COMPLETE")), None).
Proof.
  refine (proj1 (@target_status_ends_the_wait noBackoff
                   (StackUpdated_stateConf (fakeConn _ [] []) "stack"
                      (30 * Minute))
                   [_; _] (polled _ "UPDATE_COMPLETE") [] eq_refl eq_refl _
                   eq_refl eq_refl eq_refl)).
  repeat constructor.
Defined.

(** C2 as stated fails for a wait operation whose target is a failure
    status.  A stack create that finds [CREATE_IN_PROGRESS] and then
    [CREATE_FAILED], well within the timeout: the statuses are pending and
    target, the loop ends with no error, and [StackCreated] returns the
    stack together with an error. *)
Lemma create_failed_target_returns_error :
  inStatuses "CREATE_IN_PROGRESS"
    (Pending (StackCreated_stateConf (fakeConn [] [] []) "stack" (30 * Minute)))
  = true
  /\ inStatuses "CREATE_FAILED"
       (Target (StackCreated_stateConf (fakeConn [] [] []) "stack" (30 * Minute)))
     = true
  /\ WaitForState noBackoff
       (StackCreated_stateConf
          (fakeConn [polled (RawStack (stackIn "CREATE_IN_PROGRESS"))
                       "CREATE_IN_PROGRESS";
                     polled (RawStack (stackIn "CREATE_FAILED"))
                       "CREATE_FAILED"]
             (served [[event "bucket" "CREATE_FAILED" (Some "denied")
                         "AWS::S3::Bucket"]]) [])
          "stack" (30 * Minute))
     = Some (Some (RawStack (stackIn "CREATE_FAILED")), None)
  /\ StackCreated noBackoff
       (fakeConn [polled (RawStack (stackIn "CREATE_IN_PROGRESS"))
                    "CREATE_IN_PROGRESS";
                  polled (RawStack (stackIn "CREATE_FAILED"))
                    "CREATE_FAILED"]
          (served [[event "bucket" "CREATE_FAILED" (Some "denied")
                      "AWS::S3::Bucket"]]) [])
       "stack" "token" (30 * Minute)
     = Some (Some (stackIn "CREATE_FAILED"),
             Some (fmt_Errorf "failed to create CloudFormation stack (%s): %q"
                     [ArgString "CREATE_FAILED"; ArgStrings ["denied"]] None)).
Proof.
  repeat split.
Qed.

(** Why C2 needs disjoint sets: with a status that is both pending and a
    target, the loop ends on the first poll, not on the last. *)
Lemma overlapping_statuses_end_early :
  WaitForState noBackoff
    {| Pending := ["A"]; Target := ["A"; "B"]; Timeout := 30 * Minute;
       MinTimeout := 0; Delay := 0;
       Refresh := [polled (RawStack (stackIn "A")) "A";
                   polled (RawStack (stackIn "B")) "B"] |}
  = Some (Some (RawStack (stackIn "A")), None).
Proof. reflexivity. Qed.

(** ** A wait that ends on a status outside the policy *)

Lemma lastObserved_snoc (init : list RefreshResult) (r : RefreshResult) :
  lastObserved (init ++ [r]) = observe (lastObserved init) r.
Proof.
  unfold lastObserved. now rewrite fold_left_app.
Qed.

Lemma lastObserved_pending (conf : StateChangeConf) (made : list RefreshResult) :
  Forall (pendingPoll conf) made ->
  Forall coherent made ->
  lastObserved made <> None ->
  inStatuses (rawStatus (lastObserved made)) (Pending conf) = true.
Proof.
  destruct made as [|r0 made]; [now intros _ _ []|].
  destruct (@exists_last _ (r0 :: made)) as (init & r & ->); [discriminate|].
  rewrite lastObserved_snoc. intros Hpending Hcoherent _.
  apply Forall_app in Hpending. destruct Hpending as [_ Hr].
  apply Forall_app in Hcoherent. destruct Hcoherent as [_ Hc].
  inversion Hr as [|? ? (Herr & _ & Hin) _]; subst.
  inversion Hc as [|? ? Hstate _]; subst.
  unfold observe. rewrite Herr. now rewrite <- Hstate.
Qed.

(** When the refresher is coherent and the snapshot a wait returns carries a
    status that is neither pending nor a target, the wait ended on that
    very status: its error is the unrecognized-status error naming it. *)
Lemma WaitForState_unlisted_status (computedBackoff : nat -> Z)
    (conf : StateChangeConf) (out : option Raw) (e : option error) :
  Forall coherent (Refresh conf) ->
  WaitForState computedBackoff conf = Some (out, e) ->
  out <> None ->
  inStatuses (rawStatus out) (Target conf) = false ->
  inStatuses (rawStatus out) (Pending conf) = false ->
  e = Some (UnrecognizedStatusError (rawStatus out)).
Proof.
  intros Hcoherent Hwait Hout Htarget Hpending.
  apply WaitForState_ends in Hwait.
  destruct Hwait as (made & rest & Hrefresh & Hend & ->).
  rewrite Hrefresh in Hcoherent. apply Forall_app in Hcoherent.
  destruct Hcoherent as [Hcoherent _].
  destruct Hend as [init r Hinit Herr Hin
                   | made Hmade Hlate
                   | init r e Hinit Herr
                   | init r Hinit Herr Hnot Hnot'].
  - rewrite lastObserved_snoc in Htarget. unfold observe in Htarget.
    apply Forall_app in Hcoherent. destruct Hcoherent as [_ Hc].
    inversion Hc as [|? ? Hstate _]; subst.
    rewrite Herr, <- (Hstate Herr) in Htarget. congruence.
  - rewrite (lastObserved_pending Hmade Hcoherent Hout) in Hpending.
    discriminate.
  - apply Forall_app in Hcoherent. destruct Hcoherent as [Hc _].
    rewrite lastObserved_snoc in *. unfold observe in *. rewrite Herr in *.
    rewrite (lastObserved_pending Hinit Hc Hout) in Hpending. discriminate.
  - apply Forall_app in Hcoherent. destruct Hcoherent as [_ Hc].
    inversion Hc as [|? ? Hstate _]; subst.
    rewrite lastObserved_snoc. unfold observe. rewrite Herr.
    now rewrite <- (Hstate Herr).
Qed.

(** ** Failures while reading the failure reasons *)

(** C6.  A wait that ends on a status the operation reports as a failure,
    while the lookup of the failure reasons itself fails.  When the event
    listing fails, [StackCreated], [StackUpdated] and [StackDeleted] return
    the stack with a non-nil error that names the failure status, says that
    the failure information could not be read, and wraps the lookup's error.
    When the operation has failed and the listing of its results fails,
    whatever the event listings answer, [StackSetOperationSucceeded] wraps
    the listing error in an error that names the stack set and the
    operation, and hands it to [SetLastError] on the wait error it returns.
    With a refresher that answers the status of the operation it fetched,
    that wait error is the non-nil one that names the status [FAILED]; and
    when [SetLastError] makes its second argument what such an error wraps,
    the error returned wraps the error that wraps the listing error. *)
Theorem lookup_error_is_reported :
  forall (computedBackoff : nat -> Z) (withLastError : error -> error -> error)
         (StackSetOperationError :
            list StackSetOperationResultSummary -> option error)
         (conn : CloudFormation) (timeout : Z),
    (forall (stackID requestToken : string) (stack : Stack)
            (lookupErr : error),
        lookupError conn stackID requestToken = Some lookupErr ->
        (WaitForState computedBackoff
           (StackCreated_stateConf conn stackID timeout)
         = Some (Some (RawStack stack), None) ->
         inStatuses (StringValue (Stack_StackStatus stack))
           StackCreated_failureStatuses = true ->
         exists e,
           StackCreated computedBackoff conn stackID requestToken timeout
           = Some (Some stack, Some e)
           /\ readingFailureInformation e
                (StringValue (Stack_StackStatus stack)) lookupErr)
        /\ (WaitForState computedBackoff
              (StackUpdated_stateConf conn stackID timeout)
            = Some (Some (RawStack stack), None) ->
            inStatuses (StringValue (Stack_StackStatus stack))
              StackUpdated_failureStatuses = true ->
            exists e,
              StackUpdated computedBackoff conn stackID requestToken timeout
              = Some (Some stack, Some e)
              /\ readingFailureInformation e
                   (StringValue (Stack_StackStatus stack)) lookupErr)
        /\ (WaitForState computedBackoff
              (StackDeleted_stateConf conn stackID timeout)
            = Some (Some (RawStack stack), None) ->
            inStatuses (StringValue (Stack_StackStatus stack))
              StackDeleted_failureStatuses = true ->
            exists e,
              StackDeleted computedBackoff conn stackID requestToken timeout
              = Some (Some stack, Some e)
              /\ readingFailureInformation e
                   (StringValue (Stack_StackStatus stack)) lookupErr))
    /\ (forall (stackSetName operationID : string)
               (output : StackSetOperation) (waitErr : option error)
               (listErr : error),
           WaitForState computedBackoff
             (StackSetOperationSucceeded_stateConf conn stackSetName
                operationID timeout)
           = Some (Some (RawOperation output), waitErr) ->
           StringValue (Operation_Status output)
           = StackSetOperationStatusFailed ->
           snd (Pages (ListStackSetOperationResultsPages conn stackSetName
                         operationID) appendSummaries [])
           = Some listErr ->
           StackSetOperationSucceeded computedBackoff withLastError
             StackSetOperationError conn stackSetName operationID timeout
           = Some (Some output,
                   SetLastError withLastError waitErr
                     (fmt_Errorf
                        "error listing CloudFormation Stack Set (%s) Operation (%s) results: %w"
                        [ArgString stackSetName; ArgString operationID]
                        (Some listErr)))
           /\ (Forall coherent
                 (Refresh (StackSetOperationSucceeded_stateConf conn
                             stackSetName operationID timeout)) ->
               waitErr
               = Some (UnrecognizedStatusError StackSetOperationStatusFailed)
               /\ StackSetOperationSucceeded computedBackoff withLastError
                    StackSetOperationError conn stackSetName operationID
                    timeout
                  = Some (Some output,
                          Some (withLastError
                                  (UnrecognizedStatusError
                                     StackSetOperationStatusFailed)
                                  (fmt_Errorf
                                     "error listing CloudFormation Stack Set (%s) Operation (%s) results: %w"
                                     [ArgString stackSetName;
                                      ArgString operationID]
                                     (Some listErr))))
               /\ ((forall status lastErr,
                       Unwrap (withLastError (UnrecognizedStatusError status)
                                 lastErr)
                       = Some lastErr) ->
                   exists e reported,
                     StackSetOperationSucceeded computedBackoff withLastError
                       StackSetOperationError conn stackSetName operationID
                       timeout
                     = Some (Some output, Some e)
                     /\ Unwrap e = Some reported
                     /\ operands reported = [stackSetName; operationID]
                     /\ Unwrap reported = Some listErr))).
Proof.
  intros computedBackoff withLastError StackSetOperationError conn timeout.
  split.
  - intros stackID requestToken stack lookupErr Hlookup.
    split; [|split].
    + intros H Hfailure. now apply StackCreated_lookup_error.
    + intros H Hfailure. now apply StackUpdated_lookup_error.
    + intros H Hfailure. now apply StackDeleted_lookup_error.
  - intros stackSetName operationID output waitErr listErr H Hstatus Hlist.
    pose proof (@StackSetOperationSucceeded_list_error computedBackoff
                  withLastError StackSetOperationError conn timeout
                  stackSetName operationID output waitErr listErr H Hstatus
                  Hlist) as Hreturn.
    split; [exact Hreturn|].
    intros Hcoherent.
    assert (HwaitErr : waitErr
                       = Some (UnrecognizedStatusError
                                 StackSetOperationStatusFailed)).
    { rewrite <- Hstatus.
      apply (@WaitForState_unlisted_status _ _ _ _ Hcoherent H);
        [discriminate| |]; cbn [rawStatus]; now rewrite Hstatus. }
    split; [exact HwaitErr|].
    split; [now rewrite Hreturn, HwaitErr|].
    intros Hrecords. do 2 eexists.
    split; [rewrite Hreturn, HwaitErr; reflexivity|].
    split; [apply Hrecords|]. split; reflexivity.
Qed.

Lemma lookup_error_is_reported_witness :
  (exists e,
      StackCreated noBackoff
        (fakeConn [polled (RawStack (stackIn "CREATE_IN_PROGRESS"))
                     "CREATE_IN_PROGRESS";
                   polled (RawStack (stackIn "ROLLBACK_COMPLETE"))
                     "ROLLBACK_COMPLETE"]
           [PageErr (errors_New "Throttling: Rate exceeded")] [])
        "stack" "token" (30 * Minute)
      = Some (Some (stackIn "ROLLBACK_COMPLETE"), Some e)
      /\ readingFailureInformation e "ROLLBACK_COMPLETE"
           (errors_New "Throttling: Rate exceeded"))
  /\ (exists e reported,
         StackSetOperationSucceeded noBackoff sampleWithLastError
           (fun _ => None)
           (fakeConn
              [polled (RawOperation {| Operation_OperationId := Some "op";
                                       Operation_Status := Some "RUNNING" |})
                 "RUNNING";
               polled (RawOperation {| Operation_OperationId := Some "op";
                                       Operation_Status := Some "FAILED" |})
                 "FAILED"]
              (served [[]])
              [PageErr (errors_New "Throttling: Rate exceeded")])
           "set" "op" (30 * Minute)
         = Some (Some {| Operation_OperationId := Some "op";
                         Operation_Status := Some "FAILED" |}, Some e)
         /\ Unwrap e = Some reported
         /\ operands reported = ["set"; "op"]
         /\ Unwrap reported = Some (errors_New "Throttling: Rate exceeded")).
Proof.
  split.
  - exact (proj1 (proj1 (@lookup_error_is_reported noBackoff
                           sampleWithLastError (fun _ => None)
                           (fakeConn
                              [polled (RawStack (stackIn "CREATE_IN_PROGRESS"))
                                 "CREATE_IN_PROGRESS";
                               polled (RawStack (stackIn "ROLLBACK_COMPLETE"))
                                 "ROLLBACK_COMPLETE"]
                              [PageErr (errors_New "Throttling: Rate exceeded")]
                              [])
                           (30 * Minute))
                    "stack" "token" (stackIn "ROLLBACK_COMPLETE")
                    (errors_New "Throttling: Rate exceeded") eq_refl)
             eq_refl eq_refl).
  - refine (proj2 (proj2 (proj2 (proj2 (@lookup_error_is_reported noBackoff
                           sampleWithLastError (fun _ => None)
                           (fakeConn
                              [polled
                                 (RawOperation
                                    {| Operation_OperationId := Some "op";
                                       Operation_Status := Some "RUNNING" |})
                                 "RUNNING";
                               polled
                                 (RawOperation
                                    {| Operation_OperationId := Some "op";
                                       Operation_Status := Some "FAILED" |})
                                 "FAILED"]
                              (served [[]])
                              [PageErr (errors_New "Throttling: Rate exceeded")])
                           (30 * Minute))
                    "set" "op"
                    {| Operation_OperationId := Some "op";
                       Operation_Status := Some "FAILED" |}
                    (Some (UnrecognizedStatusError "FAILED"))
                    (errors_New "Throttling: Rate exceeded") _ _ _) _)) _).
    + reflexivity.
    + reflexivity.
    + reflexivity.
    + repeat constructor.
    + reflexivity.
Defined.

(** C7.  Whenever the event listing of the operation ends with an error, a
    stack waiter that ended on a failure status uses that error only: the
    error it returns has the status as its one operand and wraps the
    listing's error, so none of the reasons collected so far is in it.  The
    classifiers do hand back what they collected: for a listing that fails
    on some page after the pages [before] were read, the reasons of
    [before], together with the error. *)
Theorem partial_reasons_are_discarded :
  forall (computedBackoff : nat -> Z) (conn : CloudFormation)
         (stackID requestToken : string) (timeout : Z) (stack : Stack)
         (e : error),
    lookupError conn stackID requestToken = Some e ->
    (snd (getCloudFormationFailures conn stackID requestToken) = Some e
     /\ snd (getCloudFormationRollbackReasons conn stackID requestToken)
        = Some e
     /\ snd (getCloudFormationDeletionReasons conn stackID requestToken)
        = Some e)
    /\ (forall before rest,
           DescribeStackEventsPages conn stackID requestToken
           = map (fun p => PageOk (Some p) false) before ++ PageErr e :: rest ->
           getCloudFormationFailures conn stackID requestToken
           = (map reasonOf (filter isFailedEvent (concat before)), Some e)
           /\ getCloudFormationRollbackReasons conn stackID requestToken
              = (map reasonOf
                   (filter (fun e => isFailedEvent e || isRollbackEvent e)
                           (concat before)), Some e)
           /\ getCloudFormationDeletionReasons conn stackID requestToken
              = (map reasonOf
                   (filter (fun e => isFailedEvent e || isStackDeletionEvent e)
                           (concat before)), Some e))
    /\ (WaitForState computedBackoff
          (StackCreated_stateConf conn stackID timeout)
        = Some (Some (RawStack stack), None) ->
        inStatuses (StringValue (Stack_StackStatus stack))
          StackCreated_failureStatuses = true ->
        exists err,
          StackCreated computedBackoff conn stackID requestToken timeout
          = Some (Some stack, Some err)
          /\ operands err = [StringValue (Stack_StackStatus stack)]
          /\ Unwrap err = Some e)
    /\ (WaitForState computedBackoff
          (StackUpdated_stateConf conn stackID timeout)
        = Some (Some (RawStack stack), None) ->
        inStatuses (StringValue (Stack_StackStatus stack))
          StackUpdated_failureStatuses = true ->
        exists err,
          StackUpdated computedBackoff conn stackID requestToken timeout
          = Some (Some stack, Some err)
          /\ operands err = [StringValue (Stack_StackStatus stack)]
          /\ Unwrap err = Some e)
    /\ (WaitForState computedBackoff
          (StackDeleted_stateConf conn stackID timeout)
        = Some (Some (RawStack stack), None) ->
        inStatuses (StringValue (Stack_StackStatus stack))
          StackDeleted_failureStatuses = true ->
        exists err,
          StackDeleted computedBackoff conn stackID requestToken timeout
          = Some (Some stack, Some err)
          /\ operands err = [StringValue (Stack_StackStatus stack)]
          /\ Unwrap err = Some e).
Proof.
  intros computedBackoff conn stackID requestToken timeout stack e Hlookup.
  split; [|split; [|split; [|split]]].
  - now rewrite getCloudFormationFailures_lookupError,
      getCloudFormationRollbackReasons_lookupError,
      getCloudFormationDeletionReasons_lookupError.
  - intros before rest Hpages. split; [|split].
    + now apply getCloudFormationFailures_error with (rest := rest).
    + now apply getCloudFormationRollbackReasons_error with (rest := rest).
    + now apply getCloudFormationDeletionReasons_error with (rest := rest).
  - intros H Hfailure.
    destruct (@StackCreated_lookup_error computedBackoff conn stackID
                requestToken timeout stack e H Hfailure Hlookup)
      as (err & Hreturn & Herr).
    exists err. split; [exact Hreturn|].
    now apply readingFailureInformation_parts.
  - intros H Hfailure.
    destruct (@StackUpdated_lookup_error computedBackoff conn stackID
                requestToken timeout stack e H Hfailure Hlookup)
      as (err & Hreturn & Herr).
    exists err. split; [exact Hreturn|].
    now apply readingFailureInformation_parts.
  - intros H Hfailure.
    destruct (@StackDeleted_lookup_error computedBackoff conn stackID
                requestToken timeout stack e H Hfailure Hlookup)
      as (err & Hreturn & Herr).
    exists err. split; [exact Hreturn|].
    now apply readingFailureInformation_parts.
Qed.

Lemma partial_reasons_are_discarded_witness :
  getCloudFormationFailures
    (fakeConn [polled (RawStack (stackIn "DELETE_IN_PROGRESS"))
                 "DELETE_IN_PROGRESS";
               polled (RawStack (stackIn "DELETE_FAILED")) "DELETE_FAILED"]
       [PageOk (Some [event "bucket" "DELETE_FAILED" (Some "bucket not empty")
                        "AWS::S3::Bucket"]) false;
        PageErr (errors_New "Throttling: Rate exceeded")] [])
    "stack" "token"
  = (["bucket not empty"], Some (errors_New "Throttling: Rate exceeded"))
  /\ exists err,
      StackDeleted noBackoff
        (fakeConn [polled (RawStack (stackIn "DELETE_IN_PROGRESS"))
                     "DELETE_IN_PROGRESS";
                   polled (RawStack (stackIn "DELETE_FAILED")) "DELETE_FAILED"]
           [PageOk (Some [event "bucket" "DELETE_FAILED"
                            (Some "bucket not empty") "AWS::S3::Bucket"]) false;
            PageErr (errors_New "Throttling: Rate exceeded")] [])
        "stack" "token" (30 * Minute)
      = Some (Some (stackIn "DELETE_FAILED"), Some err)
      /\ operands err = ["DELETE_FAILED"]
      /\ Unwrap err = Some (errors_New "Throttling: Rate exceeded").
Proof.
  destruct (@partial_reasons_are_discarded noBackoff
              (fakeConn [polled (RawStack (stackIn "DELETE_IN_PROGRESS"))
                           "DELETE_IN_PROGRESS";
                         polled (RawStack (stackIn "DELETE_FAILED"))
                           "DELETE_FAILED"]
                 [PageOk (Some [event "bucket" "DELETE_FAILED"
                                  (Some "bucket not empty") "AWS::S3::Bucket"])
                    false;
                  PageErr (errors_New "Throttling: Rate exceeded")] [])
              "stack" "token" (30 * Minute) (stackIn "DELETE_FAILED")
              (errors_New "Throttling: Rate exceeded") eq_refl)
    as (_ & Hpartial & _ & _ & Hdeleted).
  split; [|exact (Hdeleted eq_refl eq_refl)].
  exact (proj1 (Hpartial
                  [[event "bucket" "DELETE_FAILED" (Some "bucket not empty")
                      "AWS::S3::Bucket"]] [] eq_refl)).
Defined.

(** C9.  When the wait of [ChangeSetCreated] yields a change-set output, the
    output goes back to the caller whatever the wait error, and when the
    output's status is [FAILED] its status reason, as an error, has been
    handed to [SetLastError] on the wait error that is returned; with a
    refresher that answers the status of the change set it fetched, that
    wait error is the one for the status [FAILED].  The stack waiters, in
    contrast, return a nil stack with a wait error. *)
Theorem change_set_output_returned_with_wait_error :
  forall (computedBackoff : nat -> Z) (withLastError : error -> error -> error)
         (conn : CloudFormation) (stackID changeSetName : string)
         (output : DescribeChangeSetOutput) (err : option error),
    WaitForState computedBackoff
      (ChangeSetCreated_stateConf conn stackID changeSetName)
    = Some (Some (RawChangeSet output), err) ->
    ChangeSetCreated computedBackoff withLastError conn stackID changeSetName
    = Some (Some output,
            if StringValue (ChangeSet_Status output) =? ChangeSetStatusFailed
            then SetLastError withLastError err
                   (errors_New (StringValue (ChangeSet_StatusReason output)))
            else err)
    /\ (forall waitErr,
           err = Some waitErr ->
           StringValue (ChangeSet_Status output) = ChangeSetStatusFailed ->
           ChangeSetCreated computedBackoff withLastError conn stackID
             changeSetName
           = Some (Some output,
                   Some (withLastError waitErr
                           (errors_New
                              (StringValue (ChangeSet_StatusReason output))))))
    /\ (Forall coherent
          (Refresh (ChangeSetCreated_stateConf conn stackID changeSetName)) ->
        StringValue (ChangeSet_Status output) = ChangeSetStatusFailed ->
        ChangeSetCreated computedBackoff withLastError conn stackID
          changeSetName
        = Some (Some output,
                Some (withLastError
                        (UnrecognizedStatusError ChangeSetStatusFailed)
                        (errors_New
                           (StringValue (ChangeSet_StatusReason output))))))
    /\ (forall requestToken timeout out e,
           (WaitForState computedBackoff
              (StackCreated_stateConf conn stackID timeout)
            = Some (out, Some e) ->
            StackCreated computedBackoff conn stackID requestToken timeout
            = Some (None, Some e))
           /\ (WaitForState computedBackoff
                 (StackUpdated_stateConf conn stackID timeout)
               = Some (out, Some e) ->
               StackUpdated computedBackoff conn stackID requestToken timeout
               = Some (None, Some e))
           /\ (WaitForState computedBackoff
                 (StackDeleted_stateConf conn stackID timeout)
               = Some (out, Some e) ->
               StackDeleted computedBackoff conn stackID requestToken timeout
               = Some (None, Some e))).
Proof.
  intros computedBackoff withLastError conn stackID changeSetName output err H.
  split; [|split; [|split]].
  - now apply ChangeSetCreated_output.
  - intros waitErr -> Hstatus.
    apply ChangeSetCreated_output with (withLastError := withLastError) in H.
    rewrite H, Hstatus. reflexivity.
  - intros Hcoherent Hstatus.
    assert (Herr : err
                   = Some (UnrecognizedStatusError ChangeSetStatusFailed)).
    { rewrite <- Hstatus.
      apply (@WaitForState_unlisted_status _ _ _ _ Hcoherent H);
        [discriminate| |]; cbn [rawStatus]; now rewrite Hstatus. }
    apply ChangeSetCreated_output with (withLastError := withLastError) in H.
    rewrite H, Hstatus, Herr. reflexivity.
  - intros requestToken timeout out e. split; [|split].
    + apply StackCreated_wait_error.
    + apply StackUpdated_wait_error.
    + apply StackDeleted_wait_error.
Qed.

Lemma change_set_output_returned_with_wait_error_witness :
  ChangeSetCreated noBackoff sampleWithLastError
    (fakeConn [polled (RawChangeSet (changeSetIn "CREATE_PENDING" None))
                 "CREATE_PENDING";
               polled (RawChangeSet
                         (changeSetIn "FAILED" (Some "No updates are to be performed.")))
                 "FAILED"] [] [])
    "stack" "change-set"
  = Some (Some (changeSetIn "FAILED" (Some "No updates are to be performed.")),
          Some (sampleWithLastError (UnrecognizedStatusError "FAILED")
                  (errors_New "No updates are to be performed."))).
Proof.
  exact (proj1 (@change_set_output_returned_with_wait_error noBackoff
                  sampleWithLastError
                  (fakeConn [polled (RawChangeSet
                                       (changeSetIn "CREATE_PENDING" None))
                               "CREATE_PENDING";
                             polled (RawChangeSet
                                       (changeSetIn "FAILED"
                                          (Some "No updates are to be performed.")))
                               "FAILED"] [] [])
                  "stack" "change-set"
                  (changeSetIn "FAILED" (Some "No updates are to be performed."))
                  (Some (UnrecognizedStatusError "FAILED")) eq_refl)).
Defined.

(** ** The MSK connector read handler *)

Section ReadHandler.

Variable Attributes : Type.
Variable d_Set : Attributes -> string -> Value -> Attributes * option error.
Variable rangeOrder : list (string * Value) -> list (string * Value).

Lemma setFields_Id (kvs : list (string * Value)) :
  forall (d : ResourceData Attributes) diagnostics,
    Id (fst (setFields d_Set kvs d diagnostics)) = Id d.
Proof.
  induction kvs as [|[k v] kvs IH]; intros d diagnostics; cbn [setFields].
  - reflexivity.
  - destruct (d_Set (attributes d) k v) as [attrs e]. now rewrite IH.
Qed.

Lemma resourceAwsMskConnectorRead_error (d : ResourceData Attributes)
    (meta : AWSClient) c e :
  DescribeConnector (kafkaconnectconn meta) (Id d) = (c, Some e) ->
  resourceAwsMskConnectorRead d_Set rangeOrder d meta
  = ({| Id := ""; attributes := attributes d |},
     Returned [{| DiagSeverity := SeverityError; Summary := e |}]).
Proof.
  intros H. unfold resourceAwsMskConnectorRead. now rewrite H.
Qed.

Lemma resourceAwsMskConnectorRead_success (d : ResourceData Attributes)
    (meta : AWSClient) output arn :
  DescribeConnector (kafkaconnectconn meta) (Id d) = (Some output, None) ->
  ConnectorArn output = Some arn ->
  Id (fst (resourceAwsMskConnectorRead d_Set rangeOrder d meta)) = arn.
Proof.
  intros H Harn. unfold resourceAwsMskConnectorRead. rewrite H, Harn.
  destruct (fields output) as [kvs|]; [|reflexivity].
  pose proof (setFields_Id (rangeOrder kvs) (SetId d arn) []) as HId.
  destruct (setFields d_Set (rangeOrder kvs) (SetId d arn) []) as [d' diags].
  exact HId.
Qed.

End ReadHandler.

(** C10.  Whenever [DescribeConnector] returns a non-nil error, whatever the
    error, [resourceAwsMskConnectorRead] sets the ID of the resource to the
    empty string, leaves the attributes as they were, and returns the
    diagnostics of that error.  The ID is set from the response only when
    the call succeeds: it is then the connector ARN the response carries. *)
Theorem read_error_removes_connector_from_state :
  forall (Attributes : Type)
         (d_Set : Attributes -> string -> Value -> Attributes * option error)
         (rangeOrder : list (string * Value) -> list (string * Value))
         (d : ResourceData Attributes) (meta : AWSClient),
    (forall c e,
        DescribeConnector (kafkaconnectconn meta) (Id d) = (c, Some e) ->
        resourceAwsMskConnectorRead d_Set rangeOrder d meta
        = (SetId d "", Returned (FromErr (Some e)))
        /\ Id (fst (resourceAwsMskConnectorRead d_Set rangeOrder d meta)) = ""
        /\ attributes (fst (resourceAwsMskConnectorRead d_Set rangeOrder d meta))
           = attributes d)
    /\ (forall output arn,
           DescribeConnector (kafkaconnectconn meta) (Id d)
           = (Some output, None) ->
           ConnectorArn output = Some arn ->
           Id (fst (resourceAwsMskConnectorRead d_Set rangeOrder d meta)) = arn).
Proof.
  intros Attributes d_Set rangeOrder d meta. split.
  - intros c e H.
    rewrite (resourceAwsMskConnectorRead_error d_Set rangeOrder _ _ H).
    repeat split.
  - intros output arn. apply resourceAwsMskConnectorRead_success.
Qed.

Lemma read_error_removes_connector_from_state_witness :
  resourceAwsMskConnectorRead
    (fun attrs k v => ((k, v) :: attrs, None)) (fun kvs => kvs)
    {| Id := "arn:aws:kafkaconnect:eu-west-1:123456789012:connector/c/1";
       attributes := [("connector_name", StringPtr (Some "c"))] |}
    {| kafkaconnectconn :=
         {| DescribeConnector :=
              fun _ => (None, Some (errors_New "ThrottlingException")) |} |}
  = ({| Id := "";
        attributes := [("connector_name", StringPtr (Some "c"))] |},
     Returned [{| DiagSeverity := SeverityError;
                  Summary := errors_New "ThrottlingException" |}]).
Proof.
  exact (proj1 (proj1 (@read_error_removes_connector_from_state
                         (list (string * Value))
                         (fun attrs k v => ((k, v) :: attrs, None))
                         (fun kvs => kvs)
                         {| Id := "arn:aws:kafkaconnect:eu-west-1:123456789012:connector/c/1";
                            attributes :=
                              [("connector_name", StringPtr (Some "c"))] |}
                         {| kafkaconnectconn :=
                              {| DescribeConnector :=
                                   fun _ =>
                                     (None,
                                      Some (errors_New "ThrottlingException"))
                              |} |})
                  None (errors_New "ThrottlingException") eq_refl)).
Defined.

(** * Further properties of the waiters *)

(** ** The reasons a stack waiter reports *)

Ltac reasons_of_status Hstatus :=
  rewrite Hstatus; cbn [String.eqb Ascii.eqb Bool.eqb orb]; reflexivity.

(** When the create wait ends on a failure status and the event listing
    succeeds, [StackCreated] returns the stack with an error that carries
    the status and the reasons, in the order of the event stream: for the
    rollback statuses the reasons of the failed and of the rollback events,
    for the delete statuses those of the failed events and of the stack's
    own delete-in-progress event, for [CREATE_FAILED] those of the failed
    events only. *)
Theorem StackCreated_reports_reasons :
  forall (computedBackoff : nat -> Z) (conn : CloudFormation)
         (stackID requestToken : string) (timeout : Z) (stack : Stack)
         (pages : list (list StackEvent)),
    WaitForState computedBackoff (StackCreated_stateConf conn stackID timeout)
    = Some (Some (RawStack stack), None) ->
    DescribeStackEventsPages conn stackID requestToken = served pages ->
    (StringValue (Stack_StackStatus stack) = StackStatusRollbackComplete
     \/ StringValue (Stack_StackStatus stack) = StackStatusRollbackFailed ->
     StackCreated computedBackoff conn stackID requestToken timeout
     = Some (Some stack,
             Some (fmt_Errorf
                     "failed to create CloudFormation stack, rollback requested (%s): %q"
                     [ArgString (StringValue (Stack_StackStatus stack));
                      ArgStrings
                        (map reasonOf
                           (filter (fun e => isFailedEvent e || isRollbackEvent e)
                                   (concat pages)))] None)))
    /\ (StringValue (Stack_StackStatus stack) = StackStatusDeleteComplete
        \/ StringValue (Stack_StackStatus stack) = StackStatusDeleteFailed ->
        StackCreated computedBackoff conn stackID requestToken timeout
        = Some (Some stack,
                Some (fmt_Errorf
                        "failed to create CloudFormation stack, delete requested (%s): %q"
                        [ArgString (StringValue (Stack_StackStatus stack));
                         ArgStrings
                           (map reasonOf
                              (filter (fun e => isFailedEvent e
                                                || isStackDeletionEvent e)
                                      (concat pages)))] None)))
    /\ (StringValue (Stack_StackStatus stack) = StackStatusCreateFailed ->
        StackCreated computedBackoff conn stackID requestToken timeout
        = Some (Some stack,
                Some (fmt_Errorf
                        "failed to create CloudFormation stack (%s): %q"
                        [ArgString (StringValue (Stack_StackStatus stack));
                         ArgStrings
                           (map reasonOf (filter isFailedEvent (concat pages)))]
                        None))).
Proof.
  intros computedBackoff conn stackID requestToken timeout stack pages Hwait
    Hpages.
  unfold StackCreated. rewrite Hwait. cbn [asStack].
  rewrite (getCloudFormationFailures_served _ _ _ _ Hpages),
    (getCloudFormationRollbackReasons_served _ _ _ _ Hpages),
    (getCloudFormationDeletionReasons_served _ _ _ _ Hpages).
  split; [|split].
  - intros [Hstatus | Hstatus]; reasons_of_status Hstatus.
  - intros [Hstatus | Hstatus]; reasons_of_status Hstatus.
  - intros Hstatus; reasons_of_status Hstatus.
Qed.

Lemma StackCreated_reports_reasons_witness :
  StackCreated noBackoff
    (fakeConn [polled (RawStack (stackIn "DELETE_IN_PROGRESS"))
                 "DELETE_IN_PROGRESS";
               polled (RawStack (stackIn "DELETE_COMPLETE")) "DELETE_COMPLETE"]
       (served [[event "stack" "DELETE_IN_PROGRESS" (Some "on_failure DELETE")
                   "AWS::CloudFormation::Stack"];
                [event "bucket" "CREATE_FAILED" (Some "denied")
                   "AWS::S3::Bucket"]]) [])
    "stack" "token" (30 * Minute)
  = Some (Some (stackIn "DELETE_COMPLETE"),
          Some (fmt_Errorf
                  "failed to create CloudFormation stack, delete requested (%s): %q"
                  [ArgString "DELETE_COMPLETE";
                   ArgStrings ["on_failure DELETE"; "denied"]] None)).
Proof.
  refine (proj1 (proj2 (@StackCreated_reports_reasons noBackoff
                          (fakeConn
                             [polled (RawStack (stackIn "DELETE_IN_PROGRESS"))
                                "DELETE_IN_PROGRESS";
                              polled (RawStack (stackIn "DELETE_COMPLETE"))
                                "DELETE_COMPLETE"]
                             (served
                                [[event "stack" "DELETE_IN_PROGRESS"
                                    (Some "on_failure DELETE")
                                    "AWS::CloudFormation::Stack"];
                                 [event "bucket" "CREATE_FAILED" (Some "denied")
                                    "AWS::S3::Bucket"]]) [])
                          "stack" "token" (30 * Minute)
                          (stackIn "DELETE_COMPLETE")
                          [[event "stack" "DELETE_IN_PROGRESS"
                              (Some "on_failure DELETE")
                              "AWS::CloudFormation::Stack"];
                           [event "bucket" "CREATE_FAILED" (Some "denied")
                              "AWS::S3::Bucket"]] _ _))
            (or_introl _)); reflexivity.
Defined.

(** When the update wait ends on [UPDATE_ROLLBACK_COMPLETE] or
    [UPDATE_ROLLBACK_FAILED] and the event listing succeeds, [StackUpdated]
    returns the stack with an error that carries the status and, in the
    order of the event stream, the reasons of the failed and of the rollback
    events. *)
Theorem StackUpdated_reports_reasons :
  forall (computedBackoff : nat -> Z) (conn : CloudFormation)
         (stackID requestToken : string) (timeout : Z) (stack : Stack)
         (pages : list (list StackEvent)),
    WaitForState computedBackoff (StackUpdated_stateConf conn stackID timeout)
    = Some (Some (RawStack stack), None) ->
    DescribeStackEventsPages conn stackID requestToken = served pages ->
    StringValue (Stack_StackStatus stack) = StackStatusUpdateRollbackComplete
    \/ StringValue (Stack_StackStatus stack) = StackStatusUpdateRollbackFailed ->
    StackUpdated computedBackoff conn stackID requestToken timeout
    = Some (Some stack,
            Some (fmt_Errorf "failed to update CloudFormation stack (%s): %q"
                    [ArgString (StringValue (Stack_StackStatus stack));
                     ArgStrings
                       (map reasonOf
                          (filter (fun e => isFailedEvent e || isRollbackEvent e)
                                  (concat pages)))] None)).
Proof.
  intros computedBackoff conn stackID requestToken timeout stack pages Hwait
    Hpages Hstatus.
  unfold StackUpdated. rewrite Hwait. cbn [asStack].
  rewrite (getCloudFormationRollbackReasons_served _ _ _ _ Hpages).
  destruct Hstatus as [Hstatus | Hstatus]; reasons_of_status Hstatus.
Qed.

Lemma StackUpdated_reports_reasons_witness :
  StackUpdated noBackoff
    (fakeConn [polled (RawStack (stackIn "UPDATE_ROLLBACK_IN_PROGRESS"))
                 "UPDATE_ROLLBACK_IN_PROGRESS";
               polled (RawStack (stackIn "UPDATE_ROLLBACK_COMPLETE"))
                 "UPDATE_ROLLBACK_COMPLETE"]
       (served [[event "topic" "UPDATE_FAILED" (Some "invalid name")
                   "AWS::SNS::Topic";
                 event "topic" "UPDATE_COMPLETE" None "AWS::SNS::Topic"]]) [])
    "stack" "token" (30 * Minute)
  = Some (Some (stackIn "UPDATE_ROLLBACK_COMPLETE"),
          Some (fmt_Errorf "failed to update CloudFormation stack (%s): %q"
                  [ArgString "UPDATE_ROLLBACK_COMPLETE";
                   ArgStrings ["invalid name"]] None)).
Proof.
  refine (@StackUpdated_reports_reasons noBackoff
            (fakeConn
               [polled (RawStack (stackIn "UPDATE_ROLLBACK_IN_PROGRESS"))
                  "UPDATE_ROLLBACK_IN_PROGRESS";
                polled (RawStack (stackIn "UPDATE_ROLLBACK_COMPLETE"))
                  "UPDATE_ROLLBACK_COMPLETE"]
               (served [[event "topic" "UPDATE_FAILED" (Some "invalid name")
                           "AWS::SNS::Topic";
                         event "topic" "UPDATE_COMPLETE" None
                           "AWS::SNS::Topic"]]) [])
            "stack" "token" (30 * Minute) (stackIn "UPDATE_ROLLBACK_COMPLETE")
            [[event "topic" "UPDATE_FAILED" (Some "invalid name")
                "AWS::SNS::Topic";
              event "topic" "UPDATE_COMPLETE" None "AWS::SNS::Topic"]]
            _ _ (or_introl _)); reflexivity.
Defined.

(** When the delete wait ends on [DELETE_FAILED] and the event listing
    succeeds, [StackDeleted] returns the stack with an error that carries
    the status and the reasons of the failed events only: the stack's own
    delete-in-progress event, which [StackCreated] reports for the same
    status, is not among them. *)
Theorem StackDeleted_reports_failed_events_only :
  forall (computedBackoff : nat -> Z) (conn : CloudFormation)
         (stackID requestToken : string) (timeout : Z) (stack : Stack)
         (pages : list (list StackEvent)),
    WaitForState computedBackoff (StackDeleted_stateConf conn stackID timeout)
    = Some (Some (RawStack stack), None) ->
    DescribeStackEventsPages conn stackID requestToken = served pages ->
    StringValue (Stack_StackStatus stack) = StackStatusDeleteFailed ->
    StackDeleted computedBackoff conn stackID requestToken timeout
    = Some (Some stack,
            Some (fmt_Errorf "failed to delete CloudFormation stack (%s): %q"
                    [ArgString (StringValue (Stack_StackStatus stack));
                     ArgStrings
                       (map reasonOf (filter isFailedEvent (concat pages)))]
                    None))
    /\ forall e,
        In e (concat pages) ->
        StringValue (ResourceStatus e) = ResourceStatusDeleteInProgress ->
        ~ In e (filter isFailedEvent (concat pages)).
Proof.
  intros computedBackoff conn stackID requestToken timeout stack pages Hwait
    Hpages Hstatus.
  split.
  - unfold StackDeleted. rewrite Hwait. cbn [asStack].
    rewrite (getCloudFormationFailures_served _ _ _ _ Hpages).
    reasons_of_status Hstatus.
  - intros e _ Hprogress Hin. apply filter_In in Hin. destruct Hin as [_ Hfailed].
    unfold isFailedEvent in Hfailed. rewrite Hprogress in Hfailed.
    discriminate.
Qed.

Lemma StackDeleted_reports_failed_events_only_witness :
  StackDeleted noBackoff
    (fakeConn [polled (RawStack (stackIn "DELETE_IN_PROGRESS"))
                 "DELETE_IN_PROGRESS";
               polled (RawStack (stackIn "DELETE_FAILED")) "DELETE_FAILED"]
       (served [[event "stack" "DELETE_IN_PROGRESS" (Some "User Initiated")
                   "AWS::CloudFormation::Stack";
                 event "bucket" "DELETE_FAILED" (Some "bucket not empty")
                   "AWS::S3::Bucket"]]) [])
    "stack" "token" (30 * Minute)
  = Some (Some (stackIn "DELETE_FAILED"),
          Some (fmt_Errorf "failed to delete CloudFormation stack (%s): %q"
                  [ArgString "DELETE_FAILED";
                   ArgStrings ["bucket not empty"]] None)).
Proof.
  refine (proj1 (@StackDeleted_reports_failed_events_only noBackoff
                   (fakeConn
                      [polled (RawStack (stackIn "DELETE_IN_PROGRESS"))
                         "DELETE_IN_PROGRESS";
                       polled (RawStack (stackIn "DELETE_FAILED"))
                         "DELETE_FAILED"]
                      (served
                         [[event "stack" "DELETE_IN_PROGRESS"
                             (Some "User Initiated")
                             "AWS::CloudFormation::Stack";
                           event "bucket" "DELETE_FAILED"
                             (Some "bucket not empty") "AWS::S3::Bucket"]]) [])
                   "stack" "token" (30 * Minute) (stackIn "DELETE_FAILED")
                   [[event "stack" "DELETE_IN_PROGRESS" (Some "User Initiated")
                       "AWS::CloudFormation::Stack";
                     event "bucket" "DELETE_FAILED" (Some "bucket not empty")
                       "AWS::S3::Bucket"]] _ _ _)); reflexivity.
Defined.

(** ** The statuses a stack waiter returns without error *)

Ltac status_membership :=
  unfold inStatuses; cbn [existsb Target StackCreated_stateConf
                            StackUpdated_stateConf StackDeleted_stateConf
                            StackCreated_failureStatuses
                            StackUpdated_failureStatuses
                            StackDeleted_failureStatuses];
  unfold StackStatusCreateComplete, StackStatusCreateFailed,
    StackStatusDeleteComplete, StackStatusDeleteFailed,
    StackStatusRollbackComplete, StackStatusRollbackFailed,
    StackStatusUpdateComplete, StackStatusUpdateRollbackComplete,
    StackStatusUpdateRollbackFailed;
  repeat match goal with
    | |- context [(?a =? ?b)%string] =>
        destruct (String.eqb_spec a b); subst
    end;
  cbn [orb]; intuition congruence.

Lemma StackCreated_complete_status conn stackID timeout (s : string) :
  inStatuses s (Target (StackCreated_stateConf conn stackID timeout)) = true ->
  inStatuses s StackCreated_failureStatuses = false
  <-> s = StackStatusCreateComplete.
Proof. status_membership. Qed.

Lemma StackUpdated_complete_status conn stackID timeout (s : string) :
  inStatuses s (Target (StackUpdated_stateConf conn stackID timeout)) = true ->
  inStatuses s StackUpdated_failureStatuses = false
  <-> s = StackStatusCreateComplete \/ s = StackStatusUpdateComplete.
Proof. status_membership. Qed.

Lemma StackDeleted_complete_status conn stackID timeout (s : string) :
  inStatuses s (Target (StackDeleted_stateConf conn stackID timeout)) = true ->
  inStatuses s StackDeleted_failureStatuses = false
  <-> s = StackStatusDeleteComplete.
Proof. status_membership. Qed.

(** Of the target statuses of a stack waiter, only the complete ones come
    back without an error: when the wait ends without error on a stack
    whose status is one of the targets, [StackCreated] returns no error
    exactly for [CREATE_COMPLETE], [StackUpdated] exactly for
    [CREATE_COMPLETE] and [UPDATE_COMPLETE], and [StackDeleted] exactly for
    [DELETE_COMPLETE]. *)
Theorem only_complete_statuses_return_no_error :
  forall (computedBackoff : nat -> Z) (conn : CloudFormation)
         (stackID requestToken : string) (timeout : Z) (stack : Stack),
    (WaitForState computedBackoff (StackCreated_stateConf conn stackID timeout)
     = Some (Some (RawStack stack), None) ->
     inStatuses (StringValue (Stack_StackStatus stack))
       (Target (StackCreated_stateConf conn stackID timeout)) = true ->
     exists e,
       StackCreated computedBackoff conn stackID requestToken timeout
       = Some (Some stack, e)
       /\ (e = None
           <-> StringValue (Stack_StackStatus stack)
               = StackStatusCreateComplete))
    /\ (WaitForState computedBackoff
          (StackUpdated_stateConf conn stackID timeout)
        = Some (Some (RawStack stack), None) ->
        inStatuses (StringValue (Stack_StackStatus stack))
          (Target (StackUpdated_stateConf conn stackID timeout)) = true ->
        exists e,
          StackUpdated computedBackoff conn stackID requestToken timeout
          = Some (Some stack, e)
          /\ (e = None
              <-> StringValue (Stack_StackStatus stack)
                  = StackStatusCreateComplete
                  \/ StringValue (Stack_StackStatus stack)
                     = StackStatusUpdateComplete))
    /\ (WaitForState computedBackoff
          (StackDeleted_stateConf conn stackID timeout)
        = Some (Some (RawStack stack), None) ->
        inStatuses (StringValue (Stack_StackStatus stack))
          (Target (StackDeleted_stateConf conn stackID timeout)) = true ->
        exists e,
          StackDeleted computedBackoff conn stackID requestToken timeout
          = Some (Some stack, e)
          /\ (e = None
              <-> StringValue (Stack_StackStatus stack)
                  = StackStatusDeleteComplete)).
Proof.
  intros computedBackoff conn stackID requestToken timeout stack.
  split; [|split]; intros Hwait Htarget.
  - destruct (@StackCreated_target computedBackoff conn stackID requestToken
                timeout stack Hwait) as (e & Hreturn & He).
    exists e. split; [exact Hreturn|].
    now rewrite He, (StackCreated_complete_status _ _ _ _ Htarget).
  - destruct (@StackUpdated_target computedBackoff conn stackID requestToken
                timeout stack Hwait) as (e & Hreturn & He).
    exists e. split; [exact Hreturn|].
    now rewrite He, (StackUpdated_complete_status _ _ _ _ Htarget).
  - destruct (@StackDeleted_target computedBackoff conn stackID requestToken
                timeout stack Hwait) as (e & Hreturn & He).
    exists e. split; [exact Hreturn|].
    now rewrite He, (StackDeleted_complete_status _ _ _ _ Htarget).
Qed.

Lemma only_complete_statuses_return_no_error_witness :
  exists e,
    StackUpdated noBackoff
      (fakeConn [polled (RawStack (stackIn "UPDATE_IN_PROGRESS"))
                   "UPDATE_IN_PROGRESS";
                 polled (RawStack (stackIn "UPDATE_COMPLETE"))
                   "UPDATE_COMPLETE"] [] [])
      "stack" "token" (30 * Minute)
    = Some (Some (stackIn "UPDATE_COMPLETE"), e)
    /\ (e = None
        <-> StringValue (Stack_StackStatus (stackIn "UPDATE_COMPLETE"))
            = StackStatusCreateComplete
            \/ StringValue (Stack_StackStatus (stackIn "UPDATE_COMPLETE"))
               = StackStatusUpdateComplete).
Proof.
  refine (proj1 (proj2 (@only_complete_statuses_return_no_error noBackoff
                          (fakeConn
                             [polled (RawStack (stackIn "UPDATE_IN_PROGRESS"))
                                "UPDATE_IN_PROGRESS";
                              polled (RawStack (stackIn "UPDATE_COMPLETE"))
                                "UPDATE_COMPLETE"] [] [])
                          "stack" "token" (30 * Minute)
                          (stackIn "UPDATE_COMPLETE"))) _ _); reflexivity.
Defined.

(** ** A wait that ends without error *)

(** With a refresher that answers the status of the object it fetched, a
    wait that ends without error returns an object whose status is one of
    the targets. *)
Lemma WaitForState_success_status (computedBackoff : nat -> Z)
    (conf : StateChangeConf) (out : option Raw) :
  Forall coherent (Refresh conf) ->
  WaitForState computedBackoff conf = Some (out, None) ->
  inStatuses (rawStatus out) (Target conf) = true.
Proof.
  intros Hcoherent Hwait. apply WaitForState_ends in Hwait.
  destruct Hwait as (made & rest & Hrefresh & Hend & ->).
  rewrite Hrefresh in Hcoherent. apply Forall_app in Hcoherent.
  destruct Hcoherent as [Hcoherent _].
  inversion Hend as [init r Hinit Herr Htarget Hmade | | |]; subst.
  apply Forall_app in Hcoherent. destruct Hcoherent as [_ Hc].
  inversion Hc as [|? ? Hstate _]; subst.
  rewrite lastObserved_snoc. unfold observe. rewrite Herr.
  now rewrite <- (Hstate Herr).
Qed.

(** With a refresher that answers the status of the object it fetched,
    [ChangeSetCreated], [StackSetOperationSucceeded] and
    [TypeRegistrationProgressStatusComplete] return an object without error
    only when its status is the target one: [CREATE_COMPLETE], [SUCCEEDED]
    and [COMPLETE]. *)
Theorem no_error_means_target_status :
  forall (computedBackoff : nat -> Z) (withLastError : error -> error -> error)
         (StackSetOperationError :
            list StackSetOperationResultSummary -> option error)
         (conn : CloudFormation),
    (forall stackID changeSetName output,
        Forall coherent
          (Refresh (ChangeSetCreated_stateConf conn stackID changeSetName)) ->
        ChangeSetCreated computedBackoff withLastError conn stackID
          changeSetName
        = Some (Some output, None) ->
        StringValue (ChangeSet_Status output) = ChangeSetStatusCreateComplete)
    /\ (forall stackSetName operationID timeout output,
           Forall coherent
             (Refresh (StackSetOperationSucceeded_stateConf conn stackSetName
                         operationID timeout)) ->
           StackSetOperationSucceeded computedBackoff withLastError
             StackSetOperationError conn stackSetName operationID timeout
           = Some (Some output, None) ->
           StringValue (Operation_Status output)
           = StackSetOperationStatusSucceeded)
    /\ (forall registrationToken output,
           Forall coherent
             (Refresh (TypeRegistrationProgressStatusComplete_stateConf conn
                         registrationToken)) ->
           TypeRegistrationProgressStatusComplete computedBackoff conn
             registrationToken
           = Some (Some output, None) ->
           StringValue (Registration_ProgressStatus output)
           = RegistrationStatusComplete).
Proof.
  intros computedBackoff withLastError StackSetOperationError conn.
  split; [|split].
  - intros stackID changeSetName output Hcoherent.
    unfold ChangeSetCreated.
    destruct (WaitForState computedBackoff _) as [[out e]|] eqn:Hwait;
      [|discriminate].
    destruct out as [[| o | |]|]; cbn [asChangeSet]; try discriminate.
    intros Hreturn.
    assert (e = None /\ o = output) as [-> ->].
    { destruct (StringValue (ChangeSet_Status o) =? ChangeSetStatusFailed);
        destruct e; cbn in Hreturn; split; congruence. }
    apply WaitForState_success_status in Hwait; [|exact Hcoherent].
    cbn in Hwait. rewrite orb_false_r in Hwait.
    now apply String.eqb_eq in Hwait.
  - intros stackSetName operationID timeout output Hcoherent.
    unfold StackSetOperationSucceeded.
    destruct (WaitForState computedBackoff _) as [[out e]|] eqn:Hwait;
      [|discriminate].
    destruct out as [[| | o |]|]; cbn [asOperation]; try discriminate.
    intros Hreturn.
    assert (e = None /\ o = output) as [-> ->].
    { destruct (StringValue (Operation_Status o)
                =? StackSetOperationStatusFailed);
        [destruct (Pages _ appendSummaries []) as [summaries [listErr|]]|];
        destruct e; cbn in Hreturn; split; congruence. }
    apply WaitForState_success_status in Hwait; [|exact Hcoherent].
    cbn in Hwait. rewrite orb_false_r in Hwait.
    now apply String.eqb_eq in Hwait.
  - intros registrationToken output Hcoherent.
    unfold TypeRegistrationProgressStatusComplete.
    destruct (WaitForState computedBackoff _) as [[out e]|] eqn:Hwait;
      [|discriminate].
    destruct out as [[| | | o]|]; cbn [asRegistration]; try discriminate.
    intros [= -> ->].
    apply WaitForState_success_status in Hwait; [|exact Hcoherent].
    cbn in Hwait. rewrite orb_false_r in Hwait.
    now apply String.eqb_eq in Hwait.
Qed.

Lemma no_error_means_target_status_witness :
  StringValue
    (Registration_ProgressStatus
       {| Registration_ProgressStatus := Some "COMPLETE";
          Registration_TypeArn := Some "arn:aws:cloudformation:type/t" |})
  = RegistrationStatusComplete.
Proof.
  refine (proj2 (proj2 (@no_error_means_target_status noBackoff
                          sampleWithLastError (fun _ => None)
                          (fakeConn
                             [polled
                                (RawRegistration
                                   {| Registration_ProgressStatus :=
                                        Some "IN_PROGRESS";
                                      Registration_TypeArn := None |})
                                "IN_PROGRESS";
                              polled
                                (RawRegistration
                                   {| Registration_ProgressStatus :=
                                        Some "COMPLETE";
                                      Registration_TypeArn :=
                                        Some "arn:aws:cloudformation:type/t" |})
                                "COMPLETE"] [] [])))
            "token" _ _ _).
  - repeat constructor.
  - reflexivity.
Defined.

(** ** The stack set operation *)

(** When the operation has failed and the listing of its results succeeds,
    [StackSetOperationSucceeded] hands to [SetLastError], on the wait error
    it returns, an error that names the operation and wraps the error
    [StackSetOperationError] makes of the summaries of all pages, in page
    order. *)
Theorem StackSetOperationSucceeded_reports_results :
  forall (computedBackoff : nat -> Z) (withLastError : error -> error -> error)
         (StackSetOperationError :
            list StackSetOperationResultSummary -> option error)
         (conn : CloudFormation) (stackSetName operationID : string)
         (timeout : Z) (output : StackSetOperation) (waitErr : option error)
         (pages : list (list StackSetOperationResultSummary)),
    WaitForState computedBackoff
      (StackSetOperationSucceeded_stateConf conn stackSetName operationID
         timeout)
    = Some (Some (RawOperation output), waitErr) ->
    StringValue (Operation_Status output) = StackSetOperationStatusFailed ->
    ListStackSetOperationResultsPages conn stackSetName operationID
    = served pages ->
    StackSetOperationSucceeded computedBackoff withLastError
      StackSetOperationError conn stackSetName operationID timeout
    = Some (Some output,
            SetLastError withLastError waitErr
              (fmt_Errorf "Operation (%s) Results: %w" [ArgString operationID]
                 (StackSetOperationError (concat pages)))).
Proof.
  intros computedBackoff withLastError StackSetOperationError conn stackSetName
    operationID timeout output waitErr pages Hwait Hstatus Hpages.
  unfold StackSetOperationSucceeded. rewrite Hwait. cbn [asOperation].
  rewrite Hstatus, Hpages.
  erewrite Pages_served
    with (update := fun page summaries =>
                      match page with
                      | None => summaries
                      | Some page => summaries ++ page
                      end);
    [|now intros [page|] lastPage st].
  now rewrite appended_pages.
Qed.

Lemma StackSetOperationSucceeded_reports_results_witness :
  StackSetOperationSucceeded noBackoff sampleWithLastError (fun _ => None)
    (fakeConn
       [polled (RawOperation {| Operation_OperationId := Some "op";
                                Operation_Status := Some "RUNNING" |})
          "RUNNING";
        polled (RawOperation {| Operation_OperationId := Some "op";
                                Operation_Status := Some "FAILED" |})
          "FAILED"]
       []
       (served [[{| Summary_Account := Some "111111111111";
                    Summary_Region := Some "eu-west-1";
                    Summary_Status := Some "FAILED";
                    Summary_StatusReason := Some "denied" |}]]))
    "set" "op" (30 * Minute)
  = Some (Some {| Operation_OperationId := Some "op";
                  Operation_Status := Some "FAILED" |},
          Some (sampleWithLastError (UnrecognizedStatusError "FAILED")
                  (fmt_Errorf "Operation (%s) Results: %w" [ArgString "op"]
                     None))).
Proof.
  refine (@StackSetOperationSucceeded_reports_results noBackoff
            sampleWithLastError (fun _ => None)
            (fakeConn
               [polled (RawOperation {| Operation_OperationId := Some "op";
                                        Operation_Status := Some "RUNNING" |})
                  "RUNNING";
                polled (RawOperation {| Operation_OperationId := Some "op";
                                        Operation_Status := Some "FAILED" |})
                  "FAILED"]
               []
               (served [[{| Summary_Account := Some "111111111111";
                            Summary_Region := Some "eu-west-1";
                            Summary_Status := Some "FAILED";
                            Summary_StatusReason := Some "denied" |}]]))
            "set" "op" (30 * Minute)
            {| Operation_OperationId := Some "op";
               Operation_Status := Some "FAILED" |}
            (Some (UnrecognizedStatusError "FAILED"))
            [[{| Summary_Account := Some "111111111111";
                 Summary_Region := Some "eu-west-1";
                 Summary_Status := Some "FAILED";
                 Summary_StatusReason := Some "denied" |}]] _ _ _);
    reflexivity.
Defined.

(** For an operation whose status is not [FAILED],
    [StackSetOperationSucceeded] returns the operation with the wait error
    as it is: the results are not listed, and nothing is handed to
    [SetLastError]. *)
Theorem StackSetOperationSucceeded_lists_failed_only :
  forall (computedBackoff : nat -> Z) (withLastError : error -> error -> error)
         (StackSetOperationError :
            list StackSetOperationResultSummary -> option error)
         (conn : CloudFormation) (stackSetName operationID : string)
         (timeout : Z) (output : StackSetOperation) (waitErr : option error),
    WaitForState computedBackoff
      (StackSetOperationSucceeded_stateConf conn stackSetName operationID
         timeout)
    = Some (Some (RawOperation output), waitErr) ->
    StringValue (Operation_Status output) <> StackSetOperationStatusFailed ->
    StackSetOperationSucceeded computedBackoff withLastError
      StackSetOperationError conn stackSetName operationID timeout
    = Some (Some output, waitErr).
Proof.
  intros computedBackoff withLastError StackSetOperationError conn stackSetName
    operationID timeout output waitErr Hwait Hstatus.
  unfold StackSetOperationSucceeded. rewrite Hwait. cbn [asOperation].
  apply String.eqb_neq in Hstatus. now rewrite Hstatus.
Qed.

Lemma StackSetOperationSucceeded_lists_failed_only_witness :
  StackSetOperationSucceeded noBackoff sampleWithLastError (fun _ => None)
    (fakeConn
       [polled (RawOperation {| Operation_OperationId := Some "op";
                                Operation_Status := Some "STOPPED" |})
          "STOPPED"]
       [] [PageErr (errors_New "Throttling")])
    "set" "op" (30 * Minute)
  = Some (Some {| Operation_OperationId := Some "op";
                  Operation_Status := Some "STOPPED" |},
          Some (UnrecognizedStatusError "STOPPED")).
Proof.
  refine (@StackSetOperationSucceeded_lists_failed_only noBackoff
            sampleWithLastError (fun _ => None)
            (fakeConn
               [polled (RawOperation {| Operation_OperationId := Some "op";
                                        Operation_Status := Some "STOPPED" |})
                  "STOPPED"]
               [] [PageErr (errors_New "Throttling")])
            "set" "op" (30 * Minute)
            {| Operation_OperationId := Some "op";
               Operation_Status := Some "STOPPED" |}
            (Some (UnrecognizedStatusError "STOPPED")) _ _).
  - reflexivity.
  - discriminate.
Defined.

(** ** One reason per event *)

Lemma filter_length_le {A : Type} (p : A -> bool) (l : list A) :
  (List.length (filter p l) <= List.length l)%nat.
Proof.
  induction l as [|a l IH]; cbn [filter List.length]; [lia|].
  destruct (p a); cbn [List.length]; lia.
Qed.

(** A classifier reports at most one reason per event, also for an event
    that meets both of its tests (a [ROLLBACK_FAILED] one is a failed and a
    rollback event): on a listing that succeeds, each of the three returns
    no more reasons than there are events, and the rollback and the deletion
    classifier return at least the reasons of [getCloudFormationFailures]. *)
Theorem one_reason_per_event :
  forall (conn : CloudFormation) (stackID requestToken : string)
         (pages : list (list StackEvent)),
    DescribeStackEventsPages conn stackID requestToken = served pages ->
    let failures :=
      List.length (fst (getCloudFormationFailures conn stackID requestToken)) in
    let rollback :=
      List.length
        (fst (getCloudFormationRollbackReasons conn stackID requestToken)) in
    let deletion :=
      List.length
        (fst (getCloudFormationDeletionReasons conn stackID requestToken)) in
    (failures <= rollback <= List.length (concat pages))%nat
    /\ (failures <= deletion <= List.length (concat pages))%nat.
Proof.
  intros conn stackID requestToken pages Hpages. cbv zeta.
  rewrite (getCloudFormationFailures_served _ _ _ _ Hpages),
    (getCloudFormationRollbackReasons_served _ _ _ _ Hpages),
    (getCloudFormationDeletionReasons_served _ _ _ _ Hpages).
  cbn [fst]. rewrite !length_map.
  assert (Hmono : forall (p q : StackEvent -> bool) l,
             (List.length (filter p l)
              <= List.length (filter (fun e => p e || q e) l))%nat).
  { intros p q l. induction l as [|a l IH]; cbn [filter]; [lia|].
    destruct (p a); cbn [orb List.length]; [lia|].
    destruct (q a); cbn [List.length]; lia. }
  repeat split; auto using filter_length_le.
Qed.

Lemma one_reason_per_event_witness :
  (1 <= 2 <= 3)%nat /\ (1 <= 1 <= 3)%nat.
Proof.
  exact (@one_reason_per_event
           (fakeConn []
              (served [[event "A" "ROLLBACK_IN_PROGRESS" (Some "r1")
                          "AWS::S3::Bucket";
                        event "B" "ROLLBACK_FAILED" (Some "r2")
                          "AWS::S3::Bucket";
                        event "C" "ROLLBACK_COMPLETE" None "AWS::S3::Bucket"]])
              [])
           "stack" "token" [[_; _; _]] eq_refl).
Defined.

(** * Properties of the MSK connector handlers *)

(** ** Handlers *)

Lemma bind_returned {St A B : Type} (m : Handler St A) (k : A -> Handler St B)
    (st st' : St) (b : B) :
  bind m k st = (st', Returned b) ->
  exists a st1, m st = (st1, Returned a) /\ k a st1 = (st', Returned b).
Proof.
  unfold bind. destruct (m st) as [st1 [a|]]; [|discriminate].
  intros H. now exists a, st1.
Qed.

Lemma must_returned {St A : Type} (v : option A) (st st' : St) (a : A) :
  must v st = (st', Returned a) -> v = Some a /\ st' = st.
Proof.
  unfold must. destruct v; intros [= <- <-]; auto.
Qed.

(** ** Loading the custom plugins *)

Lemma matchPluginArns_selected (summary : CustomPluginSummary)
    (arn : string) (latest : CustomPluginRevisionSummary)
    (pluginArns : list string) :
  Summary_CustomPluginArn summary = Some arn ->
  Summary_LatestRevision summary = Some latest ->
  forall plugins,
    matchPluginArns (Some summary) pluginArns plugins
    = Some (plugins ++ selectedBy pluginArns (Some summary)).
Proof.
  intros Harn Hlatest. unfold selectedBy. rewrite Harn, Hlatest.
  induction pluginArns as [|p pluginArns IH]; intros plugins;
    cbn [matchPluginArns filter map].
  - now rewrite app_nil_r.
  - rewrite Harn, Hlatest. destruct (p =? arn); rewrite IH; [|reflexivity].
    cbn [map]. rewrite <- app_assoc. unfold pluginOf. now rewrite Harn.
Qed.

Lemma matchCustomPlugins_selected (pluginArns : list string)
    (customPlugins : list (option CustomPluginSummary)) :
  Forall wellFormedEntry customPlugins ->
  forall plugins,
    matchCustomPlugins customPlugins pluginArns plugins
    = Some (plugins ++ flat_map (selectedBy pluginArns) customPlugins).
Proof.
  induction 1 as [|cp customPlugins (arn & summary & latest & -> & Harn & Hlatest)
                    _ IH];
    intros plugins; cbn [matchCustomPlugins flat_map].
  - now rewrite app_nil_r.
  - rewrite (matchPluginArns_selected _ _ Harn Hlatest), IH.
    now rewrite <- app_assoc.
Qed.

Lemma selectedBy_arn (pluginArns : list string)
    (customPlugin : option CustomPluginSummary) (p : Plugin) :
  In p (selectedBy pluginArns customPlugin) ->
  exists arn,
    pluginArn p = Some arn /\ In arn pluginArns /\ listedWith arn customPlugin.
Proof.
  unfold selectedBy. destruct customPlugin as [summary|]; [|intros []].
  destruct (Summary_CustomPluginArn summary) as [arn|] eqn:Harn; [|intros []].
  destruct (Summary_LatestRevision summary) as [latest|] eqn:Hlatest;
    [|intros []].
  intros Hin. apply in_map_iff in Hin. destruct Hin as (q & <- & Hq).
  apply filter_In in Hq. destruct Hq as [Hq Heq].
  apply String.eqb_eq in Heq. subst q.
  exists arn. repeat split; auto. now exists summary, latest.
Qed.

Lemma selectedBy_listed (pluginArns : list string)
    (customPlugin : option CustomPluginSummary) (arn : string) :
  In arn pluginArns ->
  listedWith arn customPlugin ->
  exists p, In p (selectedBy pluginArns customPlugin) /\ pluginArn p = Some arn.
Proof.
  intros Hin (summary & latest & -> & Harn & Hlatest).
  exists (pluginOf summary latest). unfold selectedBy. rewrite Harn, Hlatest.
  split; [|exact Harn].
  apply in_map_iff. exists arn. split; [reflexivity|].
  apply filter_In. split; [exact Hin | apply String.eqb_refl].
Qed.

(** When the listing succeeds and each of its entries has an ARN and a
    latest revision, [loadCustomPlugins] makes the one call, with
    [MaxResults] 20, and returns no error and the plugins selected entry by
    entry, in the order of the listing.  The ARNs of the plugins returned
    are exactly the requested ARNs that the listing has: a requested ARN
    that is not in the listing is left out without an error. *)
Theorem loadCustomPlugins_selects_listed_arns :
  forall (W Attributes : Type) (conn : KafkaConnectService W)
         (pluginArns : list string) (w w' : W) (d : ResourceData Attributes)
         (output : ListCustomPluginsOutput),
    listCustomPlugins conn w {| List_MaxResults := Some 20%Z |}
    = (w', (Some output, None)) ->
    Forall wellFormedEntry (CustomPlugins output) ->
    loadCustomPlugins conn pluginArns (w, d)
    = ((w', d),
       Returned (flat_map (selectedBy pluginArns) (CustomPlugins output), None))
    /\ forall arn,
        (exists p,
            In p (flat_map (selectedBy pluginArns) (CustomPlugins output))
            /\ pluginArn p = Some arn)
        <-> In arn pluginArns
            /\ exists customPlugin,
                In customPlugin (CustomPlugins output)
                /\ listedWith arn customPlugin.
Proof.
  intros W Attributes conn pluginArns w w' d output Hlist Hwell. split.
  - unfold loadCustomPlugins, bind, call, must, ret. rewrite Hlist.
    now rewrite (matchCustomPlugins_selected pluginArns Hwell).
  - intros arn. split.
    + intros (p & Hin & Harn). apply in_flat_map in Hin.
      destruct Hin as (customPlugin & Hcp & Hp).
      apply selectedBy_arn in Hp. destruct Hp as (arn' & Harn' & Hreq & Hl).
      assert (arn' = arn) by congruence. subst arn'. eauto.
    + intros (Hreq & customPlugin & Hcp & Hl).
      destruct (selectedBy_listed pluginArns Hreq Hl) as (p & Hp & Harn).
      exists p. split; [|exact Harn]. apply in_flat_map. eauto.
Qed.

Lemma loadCustomPlugins_selects_listed_arns_witness :
  loadCustomPlugins
    (loggingService (None, None) (None, None) None None
       (Some {| CustomPlugins :=
                  [Some {| Summary_CustomPluginArn := Some "arn:plugin/a";
                           Summary_LatestRevision :=
                             Some {| Summary_Revision := Some 3%Z |} |};
                   Some {| Summary_CustomPluginArn := Some "arn:plugin/b";
                           Summary_LatestRevision :=
                             Some {| Summary_Revision := Some 1%Z |} |}] |},
        None))
    ["arn:plugin/b"; "arn:plugin/missing"]
    ([], {| Id := ""; attributes := @nil (string * Dyn) |})
  = (([CallList], {| Id := ""; attributes := [] |}),
     Returned
       ([{| Plugin_CustomPlugin :=
              Some {| CustomPlugin_CustomPluginArn := Some "arn:plugin/b";
                      CustomPlugin_Revision := Some 1%Z |} |}],
        None)).
Proof.
  refine (proj1 (@loadCustomPlugins_selects_listed_arns (list Call)
                   (list (string * Dyn))
                   (loggingService (None, None) (None, None) None None
                      (Some {| CustomPlugins :=
                                 [Some {| Summary_CustomPluginArn :=
                                            Some "arn:plugin/a";
                                          Summary_LatestRevision :=
                                            Some {| Summary_Revision :=
                                                      Some 3%Z |} |};
                                  Some {| Summary_CustomPluginArn :=
                                            Some "arn:plugin/b";
                                          Summary_LatestRevision :=
                                            Some {| Summary_Revision :=
                                                      Some 1%Z |} |}] |},
                       None))
                   ["arn:plugin/b"; "arn:plugin/missing"] [] [CallList]
                   {| Id := ""; attributes := [] |} _ eq_refl _)).
  repeat constructor; eexists; eexists; eexists; repeat split.
Defined.

Lemma matchCustomPlugins_no_request
    (customPlugins : list (option CustomPluginSummary)) :
  forall plugins, matchCustomPlugins customPlugins [] plugins = Some plugins.
Proof.
  induction customPlugins as [|cp customPlugins IH]; intros plugins;
    cbn [matchCustomPlugins matchPluginArns]; auto.
Qed.

Lemma matchCustomPlugins_nil_entry (pluginArn : string)
    (pluginArns : list string)
    (customPlugins : list (option CustomPluginSummary)) :
  In None customPlugins ->
  forall plugins,
    matchCustomPlugins customPlugins (pluginArn :: pluginArns) plugins = None.
Proof.
  induction customPlugins as [|cp customPlugins IH]; intros Hin plugins;
    [destruct Hin|].
  cbn [matchCustomPlugins].
  destruct Hin as [-> | Hin]; [reflexivity|].
  destruct (matchPluginArns cp (pluginArn :: pluginArns) plugins);
    [now apply IH | reflexivity].
Qed.

(** The edges of [loadCustomPlugins].  When the listing fails, it returns
    that error and no plugins.  When no ARN is requested, it returns no
    plugins and no error whatever the listing holds.  When an ARN is
    requested and the listing has a nil entry, it panics. *)
Theorem loadCustomPlugins_edges :
  forall (W Attributes : Type) (conn : KafkaConnectService W)
         (pluginArns : list string) (w w' : W) (d : ResourceData Attributes)
         (output : option ListCustomPluginsOutput) (err : option error),
    listCustomPlugins conn w {| List_MaxResults := Some 20%Z |}
    = (w', (output, err)) ->
    (forall e, err = Some e ->
               loadCustomPlugins conn pluginArns (w, d)
               = ((w', d), Returned ([], Some e)))
    /\ (forall listing,
           err = None -> output = Some listing ->
           loadCustomPlugins conn [] (w, d) = ((w', d), Returned ([], None)))
    /\ (forall listing,
           err = None -> output = Some listing ->
           pluginArns <> [] -> In None (CustomPlugins listing) ->
           loadCustomPlugins conn pluginArns (w, d) = ((w', d), Panicked)).
Proof.
  intros W Attributes conn pluginArns w w' d output err Hlist.
  split; [|split].
  - intros e ->. unfold loadCustomPlugins, bind, call, ret. now rewrite Hlist.
  - intros listing -> ->.
    unfold loadCustomPlugins, bind, call, must, ret. rewrite Hlist.
    now rewrite matchCustomPlugins_no_request.
  - intros listing -> -> Hrequest Hnil.
    destruct pluginArns as [|p pluginArns]; [contradiction|].
    unfold loadCustomPlugins, bind, call, must, ret. rewrite Hlist.
    now rewrite (matchCustomPlugins_nil_entry p pluginArns _ Hnil).
Qed.

Lemma loadCustomPlugins_edges_witness :
  loadCustomPlugins
    (loggingService (None, None) (None, None) None None
       (None, Some (errors_New "AccessDenied")))
    ["arn:plugin/a"]
    ([], {| Id := ""; attributes := @nil (string * Dyn) |})
  = (([CallList], {| Id := ""; attributes := [] |}),
     Returned ([], Some (errors_New "AccessDenied"))).
Proof.
  exact (proj1 (@loadCustomPlugins_edges (list Call) (list (string * Dyn))
                  (loggingService (None, None) (None, None) None None
                     (None, Some (errors_New "AccessDenied")))
                  ["arn:plugin/a"] [] [CallList]
                  {| Id := ""; attributes := [] |} None
                  (Some (errors_New "AccessDenied")) eq_refl)
           (errors_New "AccessDenied") eq_refl).
Defined.

(** ** The keys the handlers read and write *)

(** [resourceAwsMskConnectorRead] writes exactly the keys the schema
    declares, each once; [connector_configuration] and [worker_count], which
    [newCreateConnectorRequest] and [resourceAwsMskConnectorUpdate] read,
    are not among them (the schema has [workers_count]). *)
Theorem read_writes_the_declared_keys :
  forall (iam tls : string) (c : DescribeConnectorOutput)
         (kvs : list (string * Value)),
    fields c = Some kvs ->
    map fst kvs = declaredKeys (resourceAwsMskConnector_Schema iam tls)
    /\ NoDup (map fst kvs)
    /\ ~ In "connector_configuration"
         (declaredKeys (resourceAwsMskConnector_Schema iam tls))
    /\ ~ In "worker_count"
         (declaredKeys (resourceAwsMskConnector_Schema iam tls)).
Proof.
  intros iam tls c kvs Hfields.
  assert (Hkeys : map fst kvs
                  = declaredKeys (resourceAwsMskConnector_Schema iam tls)).
  { unfold fields in Hfields.
    repeat match type of Hfields with
      | match ?x with _ => _ end = _ => destruct x; try discriminate
      end.
    injection Hfields as <-. reflexivity. }
  rewrite Hkeys. cbn [declaredKeys resourceAwsMskConnector_Schema map fst].
  assert (Hin : forall (k : string) (l : list string),
             existsb (String.eqb k) l = false -> ~ In k l).
  { intros k l Hfalse Hin.
    assert (existsb (String.eqb k) l = true); [|congruence].
    apply existsb_exists. exists k. split; [exact Hin | apply String.eqb_refl]. }
  split; [reflexivity|split; [|split; apply Hin; reflexivity]].
  repeat (apply NoDup_cons; [apply Hin; reflexivity|]). apply NoDup_nil.
Qed.

Lemma read_writes_the_declared_keys_witness :
  exists kvs,
    fields describedConnector = Some kvs
    /\ map fst kvs = declaredKeys (resourceAwsMskConnector_Schema "IAM" "TLS").
Proof.
  eexists. split; [reflexivity|].
  exact (proj1 (@read_writes_the_declared_keys "IAM" "TLS" describedConnector
                  _ eq_refl)).
Defined.

Lemma undeclared_keys (iam tls : string) :
  ~ In "connector_configuration"
      (declaredKeys (resourceAwsMskConnector_Schema iam tls))
  /\ ~ In "worker_count"
        (declaredKeys (resourceAwsMskConnector_Schema iam tls)).
Proof.
  cbn [declaredKeys resourceAwsMskConnector_Schema map fst In].
  split; intros H; repeat (destruct H as [H|H]; [discriminate|]); exact H.
Qed.

(** When [d.Get] gives nil for a key the schema does not declare,
    [newCreateConnectorRequest] panics before any call of the service, for it
    asserts the type of [connector_configuration], which the schema does not
    declare; and so does [resourceAwsMskConnectCreate], which leaves the
    resource data and the service as they were. *)
Theorem create_asserts_an_undeclared_key :
  forall (W Attributes : Type)
         (d_Set : Attributes -> string -> Value -> Attributes * option error)
         (d_Get : Attributes -> string -> Dyn)
         (rangeOrder : list (string * Value) -> list (string * Value))
         (ErrorText : error -> string) (iam tls : string)
         (conn : KafkaConnectService W) (st : W * ResourceData Attributes),
    (forall attrs key,
        ~ In key (declaredKeys (resourceAwsMskConnector_Schema iam tls)) ->
        d_Get attrs key = DynNil) ->
    newCreateConnectorRequest d_Get conn st = (st, Panicked)
    /\ resourceAwsMskConnectCreate d_Set d_Get rangeOrder ErrorText conn st
       = (st, Panicked).
Proof.
  intros W Attributes d_Set d_Get rangeOrder ErrorText iam tls conn [w d] Hnil.
  assert (Hrequest : newCreateConnectorRequest d_Get conn (w, d)
                     = ((w, d), Panicked)).
  { unfold newCreateConnectorRequest. cbn [bind get must].
    destruct (asString (d_Get (attributes d) "connector_name"));
      [|reflexivity].
    cbn [bind get must].
    destruct (asString (d_Get (attributes d) "connector_description"));
      [|reflexivity].
    cbn [bind get must].
    now rewrite (Hnil _ _ (proj1 (undeclared_keys iam tls))). }
  split; [exact Hrequest|].
  unfold resourceAwsMskConnectCreate, bind at 1. now rewrite Hrequest.
Qed.

Lemma create_asserts_an_undeclared_key_witness :
  resourceAwsMskConnectCreate sampleSet
    (sampleGetDeclared
       (declaredKeys (resourceAwsMskConnector_Schema "IAM" "TLS")))
    (fun kvs => kvs) sampleErrorText
    (loggingService (None, None) (None, None) None None (None, None))
    ([], {| Id := "";
            attributes := [("connector_name", DynString "c");
                           ("connector_description", DynString "a connector");
                           ("mcu_count", DynInt64 2%Z);
                           ("workers_count", DynInt64 4%Z)] |})
  = (([], {| Id := "";
             attributes := [("connector_name", DynString "c");
                            ("connector_description", DynString "a connector");
                            ("mcu_count", DynInt64 2%Z);
                            ("workers_count", DynInt64 4%Z)] |}),
     Panicked).
Proof.
  refine (proj2 (@create_asserts_an_undeclared_key (list Call)
                   (list (string * Dyn)) sampleSet
                   (sampleGetDeclared
                      (declaredKeys
                         (resourceAwsMskConnector_Schema "IAM" "TLS")))
                   (fun kvs => kvs) sampleErrorText "IAM" "TLS"
                   (loggingService (None, None) (None, None) None None
                      (None, None))
                   ([], {| Id := "";
                           attributes :=
                             [("connector_name", DynString "c");
                              ("connector_description",
                               DynString "a connector");
                              ("mcu_count", DynInt64 2%Z);
                              ("workers_count", DynInt64 4%Z)] |}) _)).
  intros attrs key Hkey. unfold sampleGetDeclared.
  destruct (existsb (String.eqb key)
              (declaredKeys (resourceAwsMskConnector_Schema "IAM" "TLS")))
    eqn:E; [|reflexivity].
  apply existsb_exists in E. destruct E as (k & Hin & Heq).
  apply String.eqb_eq in Heq. subst k. contradiction.
Defined.

(** ** The request of a create *)

Lemma loadCustomPlugins_keeps_data (W Attributes : Type)
    (conn : KafkaConnectService W) (pluginArns : list string) (w : W)
    (d : ResourceData Attributes) :
  exists w', fst (loadCustomPlugins conn pluginArns (w, d)) = (w', d).
Proof.
  unfold loadCustomPlugins, bind, call, must, ret.
  destruct (listCustomPlugins conn w _) as [w' [output [e|]]]; [now exists w'|].
  destruct output as [output|]; [|now exists w'].
  destruct (matchCustomPlugins _ _ _); now exists w'.
Qed.

(** One step of [newCreateConnectorRequest]: a [d.Get] with its type
    assertion. *)
Ltac assertion_step :=
  cbn [bind get must ret];
  match goal with
  | |- context [match asString ?v with Some _ => _ | None => _ end] =>
      destruct v eqn:?; cbn [asString]; try discriminate
  | |- context [match asInt64 ?v with Some _ => _ | None => _ end] =>
      destruct v eqn:?; cbn [asInt64]; try discriminate
  | |- context [match asStringPtr ?v with Some _ => _ | None => _ end] =>
      destruct v eqn:?; cbn [asStringPtr]; try discriminate
  | |- context [match asStringSlice ?v with Some _ => _ | None => _ end] =>
      destruct v eqn:?; cbn [asStringSlice]; try discriminate
  | |- context [match asStringPtrSlice ?v with Some _ => _ | None => _ end] =>
      destruct v eqn:?; cbn [asStringPtrSlice]; try discriminate
  | |- context [match asStringPtrMap ?v with Some _ => _ | None => _ end] =>
      destruct v eqn:?; cbn [asStringPtrMap]; try discriminate
  end.

(** In every request [newCreateConnectorRequest] returns, the CloudWatch
    log delivery is present and enabled, with the log group [d.Get] gave,
    be it a nil pointer; the Firehose delivery is present exactly when the
    stream is a non-nil pointer, the S3 delivery exactly when the bucket and
    the prefix both are; and there is no worker configuration. *)
Theorem request_log_delivery :
  forall (W Attributes : Type) (d_Get : Attributes -> string -> Dyn)
         (conn : KafkaConnectService W) (w : W) (d : ResourceData Attributes)
         (st' : W * ResourceData Attributes) (input : CreateConnectorInput),
    newCreateConnectorRequest d_Get conn (w, d)
    = (st', Returned (Some input, None)) ->
    exists (worker : WorkerLogDelivery_) (cwLogGroup : option string),
      Create_LogDelivery input
      = Some {| Request_WorkerLogDelivery := Some worker |}
      /\ d_Get (attributes d) "cw_log_group" = DynStringPtr cwLogGroup
      /\ Request_CloudWatchLogs worker
         = Some {| CloudWatchLogs_Enabled := Some true;
                   CloudWatchLogs_LogGroup := cwLogGroup |}
      /\ (Request_Firehose worker <> None
          <-> exists stream,
              d_Get (attributes d) "firehose_log_delivery_stream"
              = DynStringPtr (Some stream))
      /\ (Request_S3 worker <> None
          <-> exists bucket prefix,
              d_Get (attributes d) "s3_log_bucket"
              = DynStringPtr (Some bucket)
              /\ d_Get (attributes d) "s3_log_prefix"
                 = DynStringPtr (Some prefix))
      /\ Create_WorkerConfiguration input = None.
Proof.
  intros W Attributes d_Get conn w d st' input.
  unfold newCreateConnectorRequest.
  do 13 assertion_step.
  unfold bind at 1.
  match goal with
  | |- context [loadCustomPlugins conn ?arns (w, d)] =>
      destruct (loadCustomPlugins_keeps_data conn arns w d) as [w1 Hkeep];
      destruct (loadCustomPlugins conn arns (w, d)) as [st1 [[plugins [e|]]|]]
  end;
    cbn [fst] in Hkeep; subst st1; try discriminate.
  do 4 assertion_step.
  intros [= <- <-].
  eexists. eexists. cbn.
  split; [reflexivity|]. split; [reflexivity|]. split; [reflexivity|].
  split; [|split; [|reflexivity]]; cbn [Request_Firehose Request_S3].
  - match goal with
    | |- (match ?p with Some _ => _ | None => _ end <> None) <-> _ =>
        destruct p
    end; split; try congruence; eauto.
    intros [stream Hstream]. discriminate.
  - repeat match goal with
      | |- context [match ?p with Some _ => _ | None => _ end] => destruct p
      end; split; try congruence; eauto;
      intros (bucket & prefix & Hbucket & Hprefix); discriminate.
Qed.

Lemma request_log_delivery_witness :
  exists st' input,
    newCreateConnectorRequest sampleGet
      (loggingService (None, None) (None, None) None None
         (Some {| CustomPlugins := [] |}, None))
      ([], {| Id := ""; attributes := requestAttributes |})
    = (st', Returned (Some input, None))
    /\ exists (worker : WorkerLogDelivery_) (cwLogGroup : option string),
        Create_LogDelivery input
        = Some {| Request_WorkerLogDelivery := Some worker |}
        /\ sampleGet requestAttributes "cw_log_group" = DynStringPtr cwLogGroup
        /\ Request_CloudWatchLogs worker
           = Some {| CloudWatchLogs_Enabled := Some true;
                     CloudWatchLogs_LogGroup := cwLogGroup |}
        /\ (Request_Firehose worker <> None
            <-> exists stream,
                sampleGet requestAttributes "firehose_log_delivery_stream"
                = DynStringPtr (Some stream))
        /\ (Request_S3 worker <> None
            <-> exists bucket prefix,
                sampleGet requestAttributes "s3_log_bucket"
                = DynStringPtr (Some bucket)
                /\ sampleGet requestAttributes "s3_log_prefix"
                   = DynStringPtr (Some prefix))
        /\ Create_WorkerConfiguration input = None.
Proof.
  eexists. eexists. split; [vm_compute; reflexivity|].
  exact (@request_log_delivery (list Call) (list (string * Dyn)) sampleGet
           (loggingService (None, None) (None, None) None None
              (Some {| CustomPlugins := [] |}, None))
           [] {| Id := ""; attributes := requestAttributes |} _ _ eq_refl).
Defined.

(** ** Update and delete *)

(** When [d.Get] gives nil for a key the schema does not declare,
    [resourceAwsMskConnectorUpdate] never calls [UpdateConnector]: after its
    call of [DescribeConnector] it either returns the diagnostics of that
    call's error, or panics on the type assertion of [worker_count] (or of
    [mcu_count]); the resource data stay as they were. *)
Theorem update_asserts_an_undeclared_key :
  forall (W Attributes : Type)
         (d_Set : Attributes -> string -> Value -> Attributes * option error)
         (d_Get : Attributes -> string -> Dyn)
         (rangeOrder : list (string * Value) -> list (string * Value))
         (iam tls : string) (conn : KafkaConnectService W) (w w1 : W)
         (d : ResourceData Attributes)
         (currentPlugin : option DescribeConnectorOutput) (err : option error),
    (forall attrs key,
        ~ In key (declaredKeys (resourceAwsMskConnector_Schema iam tls)) ->
        d_Get attrs key = DynNil) ->
    describeConnector conn w (Id d) = (w1, (currentPlugin, err)) ->
    resourceAwsMskConnectorUpdate d_Set d_Get rangeOrder conn (w, d)
    = ((w1, d),
       match err with
       | Some e => Returned (FromErr (Some e))
       | None => Panicked
       end).
Proof.
  intros W Attributes d_Set d_Get rangeOrder iam tls conn w w1 d currentPlugin
    err Hnil Hdescribe.
  unfold resourceAwsMskConnectorUpdate, bind, getId, call, get, must, ret.
  cbv zeta. rewrite Hdescribe.
  destruct err as [e|]; [reflexivity|].
  destruct (asInt64 (d_Get (attributes d) "mcu_count")); [|reflexivity].
  now rewrite (Hnil _ _ (proj2 (undeclared_keys iam tls))).
Qed.

Lemma update_asserts_an_undeclared_key_witness :
  resourceAwsMskConnectorUpdate sampleSet
    (sampleGetDeclared
       (declaredKeys (resourceAwsMskConnector_Schema "IAM" "TLS")))
    (fun kvs => kvs)
    (loggingService (Some describedConnector, None) (None, None) None None
       (None, None))
    ([], {| Id := "arn:aws:kafkaconnect:connector/c";
            attributes := requestAttributes |})
  = (([CallDescribe "arn:aws:kafkaconnect:connector/c"],
      {| Id := "arn:aws:kafkaconnect:connector/c";
         attributes := requestAttributes |}),
     Panicked).
Proof.
  refine (@update_asserts_an_undeclared_key (list Call) (list (string * Dyn))
            sampleSet
            (sampleGetDeclared
               (declaredKeys (resourceAwsMskConnector_Schema "IAM" "TLS")))
            (fun kvs => kvs) "IAM" "TLS"
            (loggingService (Some describedConnector, None) (None, None) None
               None (None, None))
            [] [CallDescribe "arn:aws:kafkaconnect:connector/c"]
            {| Id := "arn:aws:kafkaconnect:connector/c";
               attributes := requestAttributes |}
            (Some describedConnector) None _ eq_refl).
  intros attrs key Hkey. unfold sampleGetDeclared.
  destruct (existsb (String.eqb key)
              (declaredKeys (resourceAwsMskConnector_Schema "IAM" "TLS")))
    eqn:E; [|reflexivity].
  apply existsb_exists in E. destruct E as (k & Hin & Heq).
  apply String.eqb_eq in Heq. subst k. contradiction.
Defined.

(** [resourceAwsMskConnectorDelete] never changes the resource data.  When
    its [DescribeConnector] fails it returns the diagnostics of that error
    and does not call [DeleteConnector].  When it succeeds, it calls
    [DeleteConnector] with the ID of the resource and the current version
    just described, and returns the diagnostics of that call's error, none
    when there is no error.  On a nil response without error it panics. *)
Theorem delete_describes_first :
  forall (W Attributes : Type) (conn : KafkaConnectService W) (w w1 : W)
         (d : ResourceData Attributes)
         (connector : option DescribeConnectorOutput) (err : option error),
    describeConnector conn w (Id d) = (w1, (connector, err)) ->
    (forall e, err = Some e ->
               resourceAwsMskConnectorDelete conn (w, d)
               = ((w1, d), Returned (FromErr (Some e))))
    /\ (forall c w2 deleteErr,
           err = None -> connector = Some c ->
           deleteConnector conn w1
             {| Delete_ConnectorArn := Some (Id d);
                Delete_CurrentVersion := CurrentVersion c |}
           = (w2, deleteErr) ->
           resourceAwsMskConnectorDelete conn (w, d)
           = ((w2, d), Returned (FromErr deleteErr)))
    /\ (err = None -> connector = None ->
        resourceAwsMskConnectorDelete conn (w, d) = ((w1, d), Panicked)).
Proof.
  intros W Attributes conn w w1 d connector err Hdescribe.
  split; [|split].
  - intros e ->.
    unfold resourceAwsMskConnectorDelete, bind, getId, call, must, ret.
    cbv zeta. now rewrite Hdescribe.
  - intros c w2 deleteErr -> -> Hdelete.
    unfold resourceAwsMskConnectorDelete, bind, getId, call, must, ret.
    cbv zeta. rewrite Hdescribe, Hdelete. now destruct deleteErr.
  - intros -> ->.
    unfold resourceAwsMskConnectorDelete, bind, getId, call, must, ret.
    cbv zeta. now rewrite Hdescribe.
Qed.

Lemma delete_describes_first_witness :
  resourceAwsMskConnectorDelete
    (loggingService (None, Some (errors_New "NotFoundException"))
       (None, None) None None (None, None))
    ([], {| Id := "arn:aws:kafkaconnect:connector/c";
            attributes := requestAttributes |})
  = (([CallDescribe "arn:aws:kafkaconnect:connector/c"],
      {| Id := "arn:aws:kafkaconnect:connector/c";
         attributes := requestAttributes |}),
     Returned [{| DiagSeverity := SeverityError;
                  Summary := errors_New "NotFoundException" |}]).
Proof.
  exact (proj1 (@delete_describes_first (list Call) (list (string * Dyn))
                  (loggingService (None, Some (errors_New "NotFoundException"))
                     (None, None) None None (None, None))
                  [] [CallDescribe "arn:aws:kafkaconnect:connector/c"]
                  {| Id := "arn:aws:kafkaconnect:connector/c";
                     attributes := requestAttributes |}
                  None (Some (errors_New "NotFoundException")) eq_refl)
           (errors_New "NotFoundException") eq_refl).
Defined.

(** When [DescribeConnector] and the two type assertions succeed,
    [resourceAwsMskConnectorUpdate] calls [UpdateConnector] with the ID of
    the resource, the current version just described and the two counts of
    the resource data.  When that call fails it returns the diagnostics of
    the error and leaves the resource data, with their ID, as they were;
    when it succeeds it goes on as [resourceAwsMskConnectorRead]. *)
Theorem update_sends_capacity_then_reads :
  forall (W Attributes : Type)
         (d_Set : Attributes -> string -> Value -> Attributes * option error)
         (d_Get : Attributes -> string -> Dyn)
         (rangeOrder : list (string * Value) -> list (string * Value))
         (conn : KafkaConnectService W) (w w1 w2 : W)
         (d : ResourceData Attributes) (current : DescribeConnectorOutput)
         (mcuCount workerCount : Z) (updateErr : option error),
    describeConnector conn w (Id d) = (w1, (Some current, None)) ->
    d_Get (attributes d) "mcu_count" = DynInt64 mcuCount ->
    d_Get (attributes d) "worker_count" = DynInt64 workerCount ->
    updateConnector conn w1
      {| Update_ConnectorArn := Some (Id d);
         Update_CurrentVersion := CurrentVersion current;
         Update_Capacity :=
           Some {| Request_ProvisionedCapacity :=
                     Some {| Request_McuCount := Some mcuCount;
                             Request_WorkerCount := Some workerCount |} |} |}
    = (w2, updateErr) ->
    resourceAwsMskConnectorUpdate d_Set d_Get rangeOrder conn (w, d)
    = match updateErr with
      | Some e => ((w2, d), Returned (FromErr (Some e)))
      | None => readConnector d_Set rangeOrder conn (w2, d)
      end.
Proof.
  intros W Attributes d_Set d_Get rangeOrder conn w w1 w2 d current mcuCount
    workerCount updateErr Hdescribe Hmcu Hworker Hupdate.
  unfold resourceAwsMskConnectorUpdate, bind, getId, call, get, must, ret.
  cbv zeta. rewrite Hdescribe, Hmcu, Hworker. cbn [asInt64].
  rewrite Hupdate. now destruct updateErr.
Qed.

Lemma update_sends_capacity_then_reads_witness :
  resourceAwsMskConnectorUpdate sampleSet sampleGet (fun kvs => kvs)
    (loggingService (Some describedConnector, None) (None, None)
       (Some (errors_New "ConflictException")) None (None, None))
    ([], {| Id := "arn:aws:kafkaconnect:connector/c";
            attributes := requestAttributes |})
  = (([CallDescribe "arn:aws:kafkaconnect:connector/c";
       CallUpdate
         {| Update_ConnectorArn := Some "arn:aws:kafkaconnect:connector/c";
            Update_CurrentVersion := Some "K1";
            Update_Capacity :=
              Some {| Request_ProvisionedCapacity :=
                        Some {| Request_McuCount := Some 2%Z;
                                Request_WorkerCount := Some 4%Z |} |} |}],
      {| Id := "arn:aws:kafkaconnect:connector/c";
         attributes := requestAttributes |}),
     Returned [{| DiagSeverity := SeverityError;
                  Summary := errors_New "ConflictException" |}]).
Proof.
  exact (@update_sends_capacity_then_reads (list Call) (list (string * Dyn))
           sampleSet sampleGet (fun kvs => kvs)
           (loggingService (Some describedConnector, None) (None, None)
              (Some (errors_New "ConflictException")) None (None, None))
           [] [CallDescribe "arn:aws:kafkaconnect:connector/c"] _
           {| Id := "arn:aws:kafkaconnect:connector/c";
              attributes := requestAttributes |}
           describedConnector 2%Z 4%Z
           (Some (errors_New "ConflictException"))
           eq_refl eq_refl eq_refl eq_refl).
Defined.

(** ** Reading a connector *)

Lemma fields_defined (c : DescribeConnectorOutput) :
  (exists kvs, fields c = Some kvs) <-> allObjectsPresent c.
Proof.
  unfold fields, allObjectsPresent. split.
  - intros [kvs H].
    repeat match type of H with
      | match ?x with _ => _ end = _ => destruct x eqn:?; try discriminate
      end.
    repeat eexists; eassumption.
  - intros (capacity & provisioned & authentication & encryption & cluster
            & apache & vpc & delivery & worker & cloudWatch & firehose & s3
            & H1 & H2 & H3 & H4 & H5 & H6 & H7 & H8 & H9 & H10 & H11 & H12).
    rewrite H1, H3, H4, H5, H8, H2, H6, H9, H7, H10, H11, H12.
    eexists. reflexivity.
Qed.

(** When [DescribeConnector] returns no error,
    [resourceAwsMskConnectorRead] returns, rather than panics on a nil
    pointer, exactly when the response is not nil, carries the connector
    ARN, and has every nested object the handler goes through (capacity
    and provisioned capacity, authentication, encryption, cluster with its
    VPC, log delivery with its three destinations). *)
Theorem read_returns_on_complete_responses :
  forall (Attributes : Type)
         (d_Set : Attributes -> string -> Value -> Attributes * option error)
         (rangeOrder : list (string * Value) -> list (string * Value))
         (d : ResourceData Attributes) (meta : AWSClient)
         (c : option DescribeConnectorOutput),
    DescribeConnector (kafkaconnectconn meta) (Id d) = (c, None) ->
    (exists diagnostics,
        snd (resourceAwsMskConnectorRead d_Set rangeOrder d meta)
        = Returned diagnostics)
    <-> exists output arn,
        c = Some output
        /\ ConnectorArn output = Some arn
        /\ allObjectsPresent output.
Proof.
  intros Attributes d_Set rangeOrder d meta c Hdescribe.
  unfold resourceAwsMskConnectorRead. rewrite Hdescribe. split.
  - intros [diagnostics H].
    destruct c as [output|]; [|discriminate].
    destruct (ConnectorArn output) as [arn|] eqn:Harn; [|discriminate].
    destruct (fields output) as [kvs|] eqn:Hfields; [|discriminate].
    exists output, arn. split; [reflexivity|]. split; [exact Harn|].
    apply fields_defined. eauto.
  - intros (output & arn & -> & Harn & Hpresent).
    apply fields_defined in Hpresent. destruct Hpresent as [kvs Hfields].
    rewrite Harn, Hfields.
    destruct (setFields d_Set (rangeOrder kvs) (SetId d arn) [])
      as [d' diagnostics].
    now exists diagnostics.
Qed.

Lemma read_returns_on_complete_responses_witness :
  (exists diagnostics,
      snd (resourceAwsMskConnectorRead sampleSet (fun kvs => kvs)
             {| Id := "arn:aws:kafkaconnect:connector/c";
                attributes := requestAttributes |}
             {| kafkaconnectconn :=
                  {| DescribeConnector :=
                       fun _ => (Some describedConnector, None) |} |})
      = Returned diagnostics)
  <-> exists output arn,
      Some describedConnector = Some output
      /\ ConnectorArn output = Some arn
      /\ allObjectsPresent output.
Proof.
  exact (@read_returns_on_complete_responses (list (string * Dyn)) sampleSet
           (fun kvs => kvs)
           {| Id := "arn:aws:kafkaconnect:connector/c";
              attributes := requestAttributes |}
           {| kafkaconnectconn :=
                {| DescribeConnector :=
                     fun _ => (Some describedConnector, None) |} |}
           (Some describedConnector) eq_refl).
Defined.

Lemma setAll_from (Attributes : Type)
    (d_Set : Attributes -> string -> Value -> Attributes * option error)
    (kvs : list (string * Value)) :
  forall (attrs : Attributes) (returned : list (option error)),
    fold_left (fun acc kv =>
                 let '(attrs', e) := d_Set (fst acc) (fst kv) (snd kv) in
                 (attrs', snd acc ++ [e]))
              kvs (attrs, returned)
    = (fst (setAll d_Set kvs attrs), returned ++ snd (setAll d_Set kvs attrs)).
Proof.
  unfold setAll.
  induction kvs as [|[k v] kvs IH]; intros attrs returned; cbn [fold_left].
  - now rewrite app_nil_r.
  - cbn [fst snd]. destruct (d_Set attrs k v) as [attrs' e].
    rewrite (IH attrs' (returned ++ [e])), (IH attrs' ([] ++ [e])).
    cbn [fst snd app]. now rewrite <- app_assoc.
Qed.

Lemma setAll_cons (Attributes : Type)
    (d_Set : Attributes -> string -> Value -> Attributes * option error)
    (k : string) (v : Value) (kvs : list (string * Value))
    (attrs : Attributes) :
  setAll d_Set ((k, v) :: kvs) attrs
  = (fst (setAll d_Set kvs (fst (d_Set attrs k v))),
     snd (d_Set attrs k v) :: snd (setAll d_Set kvs (fst (d_Set attrs k v)))).
Proof.
  unfold setAll at 1. cbn [fold_left fst snd].
  destruct (d_Set attrs k v) as [attrs' e]. cbn [app fst snd].
  now rewrite setAll_from.
Qed.

Lemma setAll_length (Attributes : Type)
    (d_Set : Attributes -> string -> Value -> Attributes * option error)
    (kvs : list (string * Value)) :
  forall attrs : Attributes,
    List.length (snd (setAll d_Set kvs attrs)) = List.length kvs.
Proof.
  induction kvs as [|[k v] kvs IH]; intros attrs; [reflexivity|].
  rewrite setAll_cons. cbn [snd List.length]. now rewrite IH.
Qed.

Lemma setFields_setAll (Attributes : Type)
    (d_Set : Attributes -> string -> Value -> Attributes * option error)
    (kvs : list (string * Value)) :
  forall (d : ResourceData Attributes) (diagnostics : Diagnostics),
    setFields d_Set kvs d diagnostics
    = ({| Id := Id d;
          attributes := fst (setAll d_Set kvs (attributes d)) |},
       diagnostics ++ flat_map FromErr (snd (setAll d_Set kvs (attributes d)))).
Proof.
  induction kvs as [|[k v] kvs IH]; intros d diagnostics; cbn [setFields].
  - cbn. rewrite app_nil_r. now destruct d.
  - rewrite setAll_cons. destruct (d_Set (attributes d) k v) as [attrs e].
    rewrite IH. cbn [Id attributes fst snd flat_map].
    now rewrite app_assoc.
Qed.

Lemma fields_keys (iam tls : string) (c : DescribeConnectorOutput)
    (kvs : list (string * Value)) :
  fields c = Some kvs ->
  map fst kvs = declaredKeys (resourceAwsMskConnector_Schema iam tls).
Proof.
  unfold fields. intros Hfields.
  repeat match type of Hfields with
    | match ?x with _ => _ end = _ => destruct x; try discriminate
    end.
  injection Hfields as <-. reflexivity.
Qed.

Lemma flat_map_FromErr_length (returned : list (option error)) :
  (List.length (flat_map FromErr returned) <= List.length returned)%nat.
Proof.
  induction returned as [|[e|] returned IH]; cbn [flat_map FromErr app
                                                   List.length]; lia.
Qed.

(** On a complete response, [resourceAwsMskConnectorRead] sets the ID to the
    connector ARN and calls [d.Set] once for each entry of the fields, in
    the order of the range, each call on the attributes the call before
    left, whatever the calls return: the attributes it leaves are those
    after the last call, and the diagnostics it returns are the errors the
    calls returned, one for each call that failed, in the order of the
    calls, each of error severity.  As a range visits each entry of a map
    once, the keys of the calls are the keys the schema declares, each once,
    and there is a diagnostic for every field whose call failed. *)
Theorem read_collects_the_set_errors :
  forall (Attributes : Type)
         (d_Set : Attributes -> string -> Value -> Attributes * option error)
         (rangeOrder : list (string * Value) -> list (string * Value))
         (iam tls : string)
         (d : ResourceData Attributes) (meta : AWSClient)
         (output : DescribeConnectorOutput) (arn : string)
         (kvs : list (string * Value)),
    DescribeConnector (kafkaconnectconn meta) (Id d) = (Some output, None) ->
    ConnectorArn output = Some arn ->
    fields output = Some kvs ->
    Permutation (rangeOrder kvs) kvs ->
    let calls := setAll d_Set (rangeOrder kvs) (attributes d) in
    resourceAwsMskConnectorRead d_Set rangeOrder d meta
    = ({| Id := arn; attributes := fst calls |},
       Returned (flat_map FromErr (snd calls)))
    /\ List.length (snd calls) = List.length kvs
    /\ Permutation (map fst (rangeOrder kvs))
         (declaredKeys (resourceAwsMskConnector_Schema iam tls))
    /\ (forall e,
           In {| DiagSeverity := SeverityError; Summary := e |}
              (flat_map FromErr (snd calls))
           <-> In (Some e) (snd calls))
    /\ Forall (fun g => DiagSeverity g = SeverityError)
         (flat_map FromErr (snd calls))
    /\ (List.length (flat_map FromErr (snd calls)) <= List.length kvs)%nat.
Proof.
  intros Attributes d_Set rangeOrder iam tls d meta output arn kvs Hdescribe
    Harn Hfields Hrange calls.
  assert (Hlength : List.length (snd calls) = List.length kvs).
  { unfold calls. rewrite setAll_length. now apply Permutation_length. }
  split; [|split; [exact Hlength|split; [|split; [|split]]]].
  - unfold resourceAwsMskConnectorRead.
    rewrite Hdescribe, Harn, Hfields, setFields_setAll. reflexivity.
  - rewrite <- (fields_keys iam tls _ Hfields). now apply Permutation_map.
  - intros e. rewrite in_flat_map. split.
    + intros ([e'|] & Hcall & Hin); cbn [FromErr In] in Hin;
        [|contradiction].
      destruct Hin as [[= ->]|[]]. exact Hcall.
    + intros Hcall. exists (Some e). split; [exact Hcall|now left].
  - apply Forall_forall. intros g Hin. apply in_flat_map in Hin.
    destruct Hin as ([e|] & _ & Hin); cbn [FromErr In] in Hin;
      [|contradiction].
    destruct Hin as [<-|[]]. reflexivity.
  - rewrite <- Hlength. apply flat_map_FromErr_length.
Qed.

Lemma read_collects_the_set_errors_witness :
  resourceAwsMskConnectorRead recordingSet (fun kvs => rev kvs)
    {| Id := "arn:aws:kafkaconnect:connector/old"; attributes := [] |}
    {| kafkaconnectconn :=
         {| DescribeConnector := fun _ => (Some describedConnector, None) |} |}
  = ({| Id := "arn:aws:kafkaconnect:connector/c";
        attributes :=
          [("plugins_arns", StringPtr (Some "arn:aws:iam::role/r"));
           ("execution_role_arn", StringPtr (Some "arn:aws:iam::role/r"));
           ("s3_log_prefix", StringPtr None);
           ("s3_log_bucket", StringPtr None);
           ("firehose_log_delivery_stream", StringPtr None);
           ("cw_log_group", StringPtr (Some "logs"));
           ("kafka_connect_version", StringPtr (Some "2.7.1"));
           ("subnets", StringPtrSlice [Some "subnet-1"]);
           ("security_groups", StringPtrSlice [Some "sg-1"]);
           ("bootstrap_servers", StringPtr (Some "b-1:9098"));
           ("encryption_type", StringPtr (Some "TLS"));
           ("auth_type", StringPtr (Some "IAM"));
           ("workers_count", Int64Ptr (Some 4%Z));
           ("mcu_count", Int64Ptr (Some 2%Z));
           ("connector_description", StringPtr (Some "a connector"));
           ("connector_name", StringPtr (Some "c"))] |},
     Returned [{| DiagSeverity := SeverityError;
                  Summary := errors_New "plugins_arns: expected a set" |}]).
Proof.
  refine (proj1 (@read_collects_the_set_errors (list (string * Value))
                   recordingSet (fun kvs => rev kvs) "IAM" "TLS"
                   {| Id := "arn:aws:kafkaconnect:connector/old";
                      attributes := [] |}
                   {| kafkaconnectconn :=
                        {| DescribeConnector :=
                             fun _ => (Some describedConnector, None) |} |}
                   describedConnector "arn:aws:kafkaconnect:connector/c"
                   _ eq_refl eq_refl eq_refl _)).
  apply Permutation_sym, Permutation_rev.
Defined.

(** ** Creating a connector *)

Lemma keepsData_bind (W Attributes A B : Type)
    (m : Handler (W * ResourceData Attributes) A)
    (k : A -> Handler (W * ResourceData Attributes) B) :
  keepsData m -> (forall a, keepsData (k a)) -> keepsData (bind m k).
Proof.
  intros Hm Hk w d. unfold bind.
  destruct (Hm w d) as [w1 H1].
  destruct (m (w, d)) as [st1 [a|]]; cbn [fst] in H1; subst st1.
  - apply Hk.
  - now exists w1.
Qed.

Lemma keepsData_get (W Attributes : Type)
    (d_Get : Attributes -> string -> Dyn) (key : string) :
  keepsData (get (W := W) d_Get key).
Proof. intros w d. now exists w. Qed.

Lemma keepsData_must (W Attributes A : Type) (v : option A) :
  keepsData (must (St := W * ResourceData Attributes) v).
Proof. intros w d. now exists w. Qed.

Lemma keepsData_ret (W Attributes A : Type) (a : A) :
  keepsData (ret (St := W * ResourceData Attributes) a).
Proof. intros w d. now exists w. Qed.

Lemma keepsData_loadCustomPlugins (W Attributes : Type)
    (conn : KafkaConnectService W) (pluginArns : list string) :
  keepsData (loadCustomPlugins (Attributes := Attributes) conn pluginArns).
Proof. intros w d. apply loadCustomPlugins_keeps_data. Qed.

Lemma newCreateConnectorRequest_keeps_data (W Attributes : Type)
    (d_Get : Attributes -> string -> Dyn) (conn : KafkaConnectService W) :
  keepsData (newCreateConnectorRequest d_Get conn).
Proof.
  unfold newCreateConnectorRequest.
  repeat first
    [ apply keepsData_get
    | apply keepsData_must
    | apply keepsData_ret
    | apply keepsData_loadCustomPlugins
    | apply keepsData_bind; [|intros ?]
    | match goal with
      | |- keepsData (let '(_, _) := ?r in _) => destruct r
      | |- keepsData (match ?e with Some _ => _ | None => _ end) => destruct e
      end ].
Qed.

(** [newCreateConnectorRequest] only reads: it leaves the resource data as
    they were, and of the service it uses [ListCustomPlugins] alone, so that
    two services that list the same plugins get the same request. *)
Theorem request_only_lists_plugins :
  forall (W Attributes : Type) (d_Get : Attributes -> string -> Dyn)
         (conn conn' : KafkaConnectService W) (w : W)
         (d : ResourceData Attributes),
    listCustomPlugins conn = listCustomPlugins conn' ->
    newCreateConnectorRequest d_Get conn (w, d)
    = newCreateConnectorRequest d_Get conn' (w, d)
    /\ exists w', fst (newCreateConnectorRequest d_Get conn (w, d)) = (w', d).
Proof.
  intros W Attributes d_Get conn conn' w d Hlist.
  split; [|apply newCreateConnectorRequest_keeps_data].
  destruct conn, conn'. cbn [listCustomPlugins] in Hlist. subst.
  reflexivity.
Qed.

Lemma request_only_lists_plugins_witness :
  newCreateConnectorRequest sampleGet
    (loggingService (None, None) (None, None) None None
       (Some {| CustomPlugins := [] |}, None))
    ([], {| Id := ""; attributes := requestAttributes |})
  = newCreateConnectorRequest sampleGet
      (loggingService (Some describedConnector, None) (None, None)
         (Some (errors_New "ConflictException")) None
         (Some {| CustomPlugins := [] |}, None))
      ([], {| Id := ""; attributes := requestAttributes |}).
Proof.
  exact (proj1 (@request_only_lists_plugins (list Call) (list (string * Dyn))
                  sampleGet
                  (loggingService (None, None) (None, None) None None
                     (Some {| CustomPlugins := [] |}, None))
                  (loggingService (Some describedConnector, None) (None, None)
                     (Some (errors_New "ConflictException")) None
                     (Some {| CustomPlugins := [] |}, None))
                  [] {| Id := ""; attributes := requestAttributes |}
                  eq_refl)).
Defined.

(** After a request was built, [resourceAwsMskConnectCreate] calls
    [CreateConnector] once.  When that call fails it returns one diagnostic,
    whose error is formatted from the text of the call's error, and the
    resource data are as they were; no [DescribeConnector] call is made.
    When the call succeeds with a nil response it panics.  When the call
    succeeds but the [DescribeConnector] call that follows fails, it returns
    the diagnostics of that error and the ID of the resource is empty: the
    connector that was created is not kept in the state. *)
Theorem create_then_read :
  forall (W Attributes : Type)
         (d_Set : Attributes -> string -> Value -> Attributes * option error)
         (d_Get : Attributes -> string -> Dyn)
         (rangeOrder : list (string * Value) -> list (string * Value))
         (ErrorText : error -> string)
         (conn : KafkaConnectService W) (w w1 w2 : W)
         (d d1 : ResourceData Attributes)
         (input : option CreateConnectorInput)
         (output : option CreateConnectorOutput) (createErr : option error),
    newCreateConnectorRequest d_Get conn (w, d)
    = ((w1, d1), Returned (input, None)) ->
    createConnector conn w1 input = (w2, (output, createErr)) ->
    d1 = d
    /\ (forall e,
           createErr = Some e ->
           resourceAwsMskConnectCreate d_Set d_Get rangeOrder ErrorText conn
             (w, d)
           = ((w2, d),
              Returned [{| DiagSeverity := SeverityError;
                           Summary :=
                             fmt_Errorf "error creating MSK Connector: %s"
                               [ArgString (ErrorText e)] None |}]))
    /\ (createErr = None -> output = None ->
        resourceAwsMskConnectCreate d_Set d_Get rangeOrder ErrorText conn
          (w, d)
        = ((w2, d), Panicked))
    /\ (forall created w3 c e,
           createErr = None -> output = Some created ->
           describeConnector conn w2
             (StringValue (Created_ConnectorArn created))
           = (w3, (c, Some e)) ->
           resourceAwsMskConnectCreate d_Set d_Get rangeOrder ErrorText conn
             (w, d)
           = ((w3, SetId d ""), Returned (FromErr (Some e)))).
Proof.
  intros W Attributes d_Set d_Get rangeOrder ErrorText conn w w1 w2 d d1 input
    output createErr Hrequest Hcreate.
  assert (Hd : d1 = d).
  { destruct (newCreateConnectorRequest_keeps_data d_Get conn w d)
      as [w' Hkeep].
    rewrite Hrequest in Hkeep. cbn [fst] in Hkeep. congruence. }
  subst d1. split; [reflexivity|].
  assert (Hstep :
            resourceAwsMskConnectCreate d_Set d_Get rangeOrder ErrorText conn
              (w, d)
            = match createErr with
              | Some e =>
                  ((w2, d),
                   Returned (FromErr
                               (Some (fmt_Errorf
                                        "error creating MSK Connector: %s"
                                        [ArgString (ErrorText e)] None))))
              | None =>
                  match output with
                  | None => ((w2, d), Panicked)
                  | Some created =>
                      readConnector d_Set rangeOrder conn
                        (w2,
                         SetId d (StringValue (Created_ConnectorArn created)))
                  end
              end).
  { unfold resourceAwsMskConnectCreate, bind at 1. rewrite Hrequest.
    unfold bind, call, must, setId, ret. rewrite Hcreate.
    destruct createErr; [reflexivity|]. now destruct output. }
  rewrite Hstep. split; [|split].
  - now intros e ->.
  - now intros -> ->.
  - intros created w3 c e -> -> Hdescribe.
    unfold readConnector. cbn [Id SetId]. rewrite Hdescribe.
    now erewrite resourceAwsMskConnectorRead_error by reflexivity.
Qed.

Lemma create_then_read_witness :
  resourceAwsMskConnectCreate sampleSet sampleGet (fun kvs => kvs)
    sampleErrorText
    (loggingService (None, Some (errors_New "NotFoundException"))
       (Some {| Created_ConnectorArn := Some "arn:aws:kafkaconnect:connector/c";
                Created_ConnectorName := Some "c" |}, None)
       None None (Some {| CustomPlugins := [] |}, None))
    ([], {| Id := ""; attributes := requestAttributes |})
  = (([CallList; CallCreate; CallDescribe "arn:aws:kafkaconnect:connector/c"],
      {| Id := ""; attributes := requestAttributes |}),
     Returned [{| DiagSeverity := SeverityError;
                  Summary := errors_New "NotFoundException" |}]).
Proof.
  refine (proj2 (proj2 (proj2
            (@create_then_read (list Call) (list (string * Dyn)) sampleSet
               sampleGet (fun kvs => kvs) sampleErrorText
               (loggingService (None, Some (errors_New "NotFoundException"))
                  (Some {| Created_ConnectorArn :=
                             Some "arn:aws:kafkaconnect:connector/c";
                           Created_ConnectorName := Some "c" |}, None)
                  None None (Some {| CustomPlugins := [] |}, None))
               [] [CallList] [CallList; CallCreate]
               {| Id := ""; attributes := requestAttributes |}
               {| Id := ""; attributes := requestAttributes |}
               _
               (Some {| Created_ConnectorArn :=
                          Some "arn:aws:kafkaconnect:connector/c";
                        Created_ConnectorName := Some "c" |})
               None _ _)))
            {| Created_ConnectorArn := Some "arn:aws:kafkaconnect:connector/c";
               Created_ConnectorName := Some "c" |}
            [CallList; CallCreate;
             CallDescribe "arn:aws:kafkaconnect:connector/c"]
            None (errors_New "NotFoundException") eq_refl eq_refl eq_refl);
    vm_compute; reflexivity.
Defined.

(** ** The other revision of the handlers *)

(** The read handler of [part_000] always returns, after its one call of
    [DescribeConnector].  It empties the ID exactly when [isAWSErr]
    recognises the error as the missing configuration, and otherwise leaves
    the ID as it was: it never sets the ID from the response.  It returns no
    diagnostic exactly when the error was recognised, or the call gave a
    response without error; every diagnostic it returns is of error
    severity; and it writes the attributes only on a response without
    error. *)
Theorem part000_read_outcome :
  forall (W Attributes : Type)
         (d_Set : Attributes -> string -> Value -> Attributes * option error)
         (ErrorText : error -> string)
         (isAWSErr : option error -> string -> string -> bool)
         (code : string) (conn : KafkaConnectService W) (w w1 : W)
         (d : ResourceData Attributes)
         (output : option DescribeConnectorOutput) (err : option error),
    describeConnector conn w (Id d) = (w1, (output, err)) ->
    exists d' diagnostics,
      Part000.resourceAwsMskConnectorRead d_Set ErrorText isAWSErr code conn
        (w, d)
      = ((w1, d'), Returned diagnostics)
      /\ Id d' = (if isAWSErr err code "Configuration ARN does not exist"
                  then "" else Id d)
      /\ (diagnostics = []
          <-> isAWSErr err code "Configuration ARN does not exist" = true
              \/ (err = None /\ output <> None))
      /\ Forall (fun g => DiagSeverity g = SeverityError) diagnostics
      /\ (isAWSErr err code "Configuration ARN does not exist" = true
          \/ err <> None \/ output = None ->
          attributes d' = attributes d).
Proof.
  intros W Attributes d_Set ErrorText isAWSErr code conn w w1 d output err
    Hdescribe.
  unfold Part000.resourceAwsMskConnectorRead, Part000.set, bind, getId, call,
    setId, ret.
  rewrite Hdescribe.
  destruct (isAWSErr err code "Configuration ARN does not exist") eqn:Hfound.
  - do 2 eexists. split; [reflexivity|]. cbn [Id SetId attributes].
    split; [reflexivity|]. split; [|split].
    + split; auto.
    + constructor.
    + reflexivity.
  - destruct err as [e|]; [|destruct output as [c|]].
    + do 2 eexists. split; [reflexivity|]. cbn [Id attributes FromErr].
      split; [reflexivity|]. split; [|split].
      * split; [discriminate|]. intros [H|[H _]]; discriminate.
      * constructor; [reflexivity|constructor].
      * reflexivity.
    + destruct (d_Set (attributes d) "arn" (StringPtr (ConnectorArn c)))
        as [attrs e] eqn:Hset.
      do 2 eexists. split; [reflexivity|]. cbn [Id attributes].
      split; [reflexivity|]. split; [|split].
      * split; [|reflexivity]. intros _. right. split; [reflexivity|].
        discriminate.
      * constructor.
      * intros [H|[H|H]]; [discriminate|now elim H|discriminate].
    + do 2 eexists. split; [reflexivity|]. cbn [Id attributes FromErr].
      split; [reflexivity|]. split; [|split].
      * split; [discriminate|]. intros [H|[_ H]]; [discriminate|now elim H].
      * constructor; [reflexivity|constructor].
      * reflexivity.
Qed.

Lemma part000_read_outcome_witness :
  exists d' diagnostics,
    Part000.resourceAwsMskConnectorRead sampleSet sampleErrorText
      sampleIsAWSErr "BadRequestException"
      (loggingService (None, Some (errors_New "ThrottlingException"))
         (None, None) None None (None, None))
      ([], {| Id := "arn:aws:kafkaconnect:connector/c";
              attributes := requestAttributes |})
    = (([CallDescribe "arn:aws:kafkaconnect:connector/c"], d'),
       Returned diagnostics)
    /\ Id d' = "arn:aws:kafkaconnect:connector/c".
Proof.
  destruct (@part000_read_outcome (list Call) (list (string * Dyn)) sampleSet
              sampleErrorText sampleIsAWSErr "BadRequestException"
              (loggingService (None, Some (errors_New "ThrottlingException"))
                 (None, None) None None (None, None))
              [] [CallDescribe "arn:aws:kafkaconnect:connector/c"]
              {| Id := "arn:aws:kafkaconnect:connector/c";
                 attributes := requestAttributes |}
              None (Some (errors_New "ThrottlingException")) eq_refl)
    as (d' & diagnostics & Hread & HId & _).
  exists d', diagnostics. split; [exact Hread | exact HId].
Defined.

(** The two revisions of the read handler leave different IDs.  On an error
    of [DescribeConnector] that [isAWSErr] does not recognise, the handler
    of [resource_aws_msk_connector.go] empties the ID and the handler of
    [part_000] keeps it; on a response that carries the connector ARN, the
    former sets the ID to that ARN and the latter keeps the ID it had. *)
Theorem revisions_leave_different_ids :
  forall (W Attributes : Type)
         (d_Set : Attributes -> string -> Value -> Attributes * option error)
         (rangeOrder : list (string * Value) -> list (string * Value))
         (ErrorText : error -> string)
         (isAWSErr : option error -> string -> string -> bool)
         (code : string) (conn : KafkaConnectService W) (w w1 : W)
         (d : ResourceData Attributes)
         (output : option DescribeConnectorOutput) (err : option error),
    describeConnector conn w (Id d) = (w1, (output, err)) ->
    isAWSErr err code "Configuration ARN does not exist" = false ->
    Id (snd (fst (Part000.resourceAwsMskConnectorRead d_Set ErrorText isAWSErr
                    code conn (w, d))))
    = Id d
    /\ (err <> None ->
        Id (snd (fst (readConnector d_Set rangeOrder conn (w, d)))) = "")
    /\ (forall c arn,
           err = None -> output = Some c -> ConnectorArn c = Some arn ->
           Id (snd (fst (readConnector d_Set rangeOrder conn (w, d)))) = arn).
Proof.
  intros W Attributes d_Set rangeOrder ErrorText isAWSErr code conn w w1 d
    output err Hdescribe Hother.
  split; [|split].
  - unfold Part000.resourceAwsMskConnectorRead, Part000.set, bind, getId,
      call, setId, ret.
    rewrite Hdescribe, Hother.
    destruct err as [e|]; [reflexivity|].
    destruct output as [c|]; [|reflexivity].
    now destruct (d_Set (attributes d) "arn" (StringPtr (ConnectorArn c))).
  - intros Herr. destruct err as [e|]; [|now elim Herr].
    unfold readConnector. rewrite Hdescribe.
    now erewrite resourceAwsMskConnectorRead_error by reflexivity.
  - intros c arn -> -> Harn. unfold readConnector. rewrite Hdescribe.
    pose proof (@resourceAwsMskConnectorRead_success Attributes d_Set
                  rangeOrder d
                  {| kafkaconnectconn :=
                       {| DescribeConnector := fun _ => (Some c, None) |} |}
                  c arn eq_refl Harn) as HId.
    destruct (resourceAwsMskConnectorRead d_Set rangeOrder d _) as [d' o].
    exact HId.
Qed.

Lemma revisions_leave_different_ids_witness :
  Id (snd (fst (Part000.resourceAwsMskConnectorRead sampleSet sampleErrorText
                  sampleIsAWSErr "BadRequestException"
                  (loggingService
                     (None, Some (errors_New "ThrottlingException"))
                     (None, None) None None (None, None))
                  ([], {| Id := "arn:aws:kafkaconnect:connector/c";
                          attributes := requestAttributes |}))))
  = "arn:aws:kafkaconnect:connector/c"
  /\ Id (snd (fst (readConnector sampleSet (fun kvs => kvs)
                     (loggingService
                        (None, Some (errors_New "ThrottlingException"))
                        (None, None) None None (None, None))
                     ([], {| Id := "arn:aws:kafkaconnect:connector/c";
                             attributes := requestAttributes |}))))
     = "".
Proof.
  destruct (@revisions_leave_different_ids (list Call) (list (string * Dyn))
              sampleSet (fun kvs => kvs) sampleErrorText sampleIsAWSErr
              "BadRequestException"
              (loggingService (None, Some (errors_New "ThrottlingException"))
                 (None, None) None None (None, None))
              [] [CallDescribe "arn:aws:kafkaconnect:connector/c"]
              {| Id := "arn:aws:kafkaconnect:connector/c";
                 attributes := requestAttributes |}
              None (Some (errors_New "ThrottlingException")) eq_refl eq_refl)
    as (Hkept & Hemptied & _).
  split; [exact Hkept|]. apply Hemptied. discriminate.
Defined.

(** The create handler of [part_000] sends a request with no member set,
    whatever the resource data.  When [CreateConnector] answers with a
    connector and the [DescribeConnector] call that follows fails with an
    error that [isAWSErr] does not recognise, the handler returns one
    diagnostic and the ID of the resource is the ARN of the connector that
    was created; when [CreateConnector] fails, the resource data are as they
    were, and when it answers nil without error the handler panics. *)
Theorem part000_create_keeps_created_id :
  forall (W Attributes : Type)
         (d_Set : Attributes -> string -> Value -> Attributes * option error)
         (ErrorText : error -> string)
         (isAWSErr : option error -> string -> string -> bool)
         (code : string) (conn : KafkaConnectService W) (w w1 : W)
         (d : ResourceData Attributes)
         (output : option CreateConnectorOutput) (createErr : option error),
    createConnector conn w
      (Some {| Create_Capacity := None;
               Create_ConnectorConfiguration := [];
               Create_ConnectorDescription := None;
               Create_ConnectorName := None;
               Create_KafkaCluster := None;
               Create_KafkaClusterClientAuthentication := None;
               Create_KafkaClusterEncryptionInTransit := None;
               Create_KafkaConnectVersion := None;
               Create_LogDelivery := None;
               Create_Plugins := [];
               Create_ServiceExecutionRoleArn := None;
               Create_WorkerConfiguration := None |})
    = (w1, (output, createErr)) ->
    (forall e,
        createErr = Some e ->
        Part000.resourceAwsMskConnectCreate d_Set ErrorText isAWSErr code conn
          (w, d)
        = ((w1, d),
           Returned [{| DiagSeverity := SeverityError;
                        Summary :=
                          fmt_Errorf "error creating MSK Connector: %s"
                            [ArgString (ErrorText e)] None |}]))
    /\ (createErr = None -> output = None ->
        Part000.resourceAwsMskConnectCreate d_Set ErrorText isAWSErr code conn
          (w, d)
        = ((w1, d), Panicked))
    /\ (forall created w2 described e,
           createErr = None -> output = Some created ->
           describeConnector conn w1
             (StringValue (Created_ConnectorArn created))
           = (w2, (described, Some e)) ->
           isAWSErr (Some e) code "Configuration ARN does not exist" = false ->
           Part000.resourceAwsMskConnectCreate d_Set ErrorText isAWSErr code
             conn (w, d)
           = ((w2, SetId d (StringValue (Created_ConnectorArn created))),
              Returned
                [{| DiagSeverity := SeverityError;
                    Summary :=
                      fmt_Errorf "error describing MSK Connector (%s): %s"
                        [ArgString (StringValue (Created_ConnectorArn created));
                         ArgString (ErrorText e)] None |}])).
Proof.
  intros W Attributes d_Set ErrorText isAWSErr code conn w w1 d output
    createErr Hcreate.
  split; [|split].
  - intros e ->.
    unfold Part000.resourceAwsMskConnectCreate, bind, call, ret.
    cbv zeta. now rewrite Hcreate.
  - intros -> ->.
    unfold Part000.resourceAwsMskConnectCreate, bind, call, must, ret.
    cbv zeta. now rewrite Hcreate.
  - intros created w2 described e -> -> Hdescribe Hother.
    unfold Part000.resourceAwsMskConnectCreate,
      Part000.resourceAwsMskConnectorRead, bind, call, must, setId, getId, ret.
    cbv zeta. rewrite Hcreate. cbn [Id SetId].
    now rewrite Hdescribe, Hother.
Qed.

Lemma part000_create_keeps_created_id_witness :
  Part000.resourceAwsMskConnectCreate sampleSet sampleErrorText sampleIsAWSErr
    "BadRequestException"
    (loggingService (None, Some (errors_New "ThrottlingException"))
       (Some {| Created_ConnectorArn := Some "arn:aws:kafkaconnect:connector/c";
                Created_ConnectorName := Some "c" |}, None)
       None None (None, None))
    ([], {| Id := ""; attributes := requestAttributes |})
  = (([CallCreate; CallDescribe "arn:aws:kafkaconnect:connector/c"],
      {| Id := "arn:aws:kafkaconnect:connector/c";
         attributes := requestAttributes |}),
     Returned
       [{| DiagSeverity := SeverityError;
           Summary :=
             fmt_Errorf "error describing MSK Connector (%s): %s"
               [ArgString "arn:aws:kafkaconnect:connector/c";
                ArgString "ThrottlingException"] None |}]).
Proof.
  exact (proj2 (proj2
           (@part000_create_keeps_created_id (list Call) (list (string * Dyn))
              sampleSet sampleErrorText sampleIsAWSErr "BadRequestException"
              (loggingService (None, Some (errors_New "ThrottlingException"))
                 (Some {| Created_ConnectorArn :=
                            Some "arn:aws:kafkaconnect:connector/c";
                          Created_ConnectorName := Some "c" |}, None)
                 None None (None, None))
              [] [CallCreate]
              {| Id := ""; attributes := requestAttributes |}
              (Some {| Created_ConnectorArn :=
                         Some "arn:aws:kafkaconnect:connector/c";
                       Created_ConnectorName := Some "c" |})
              None eq_refl))
           {| Created_ConnectorArn := Some "arn:aws:kafkaconnect:connector/c";
              Created_ConnectorName := Some "c" |}
           [CallCreate; CallDescribe "arn:aws:kafkaconnect:connector/c"]
           None (errors_New "ThrottlingException")
           eq_refl eq_refl eq_refl eq_refl).
Defined.

(** The delete handler of [part_000] uses [DeleteConnector] alone, with the
    ID of the resource as ARN and no current version: two services that
    delete alike give the same result.  It always returns, with the
    diagnostics of the call's error, and leaves the resource data as they
    were; the handler of [resource_aws_msk_connector.go], which describes
    the connector first, deletes nothing when that call fails. *)
Theorem part000_delete_only_deletes :
  forall (W Attributes : Type) (conn conn' : KafkaConnectService W) (w : W)
         (d : ResourceData Attributes),
    deleteConnector conn = deleteConnector conn' ->
    Part000.resourceAwsMskConnectorDelete conn (w, d)
    = Part000.resourceAwsMskConnectorDelete conn' (w, d)
    /\ Part000.resourceAwsMskConnectorDelete conn (w, d)
       = ((fst (deleteConnector conn w
                  {| Delete_ConnectorArn := Some (Id d);
                     Delete_CurrentVersion := None |}), d),
          Returned (FromErr
                      (snd (deleteConnector conn w
                              {| Delete_ConnectorArn := Some (Id d);
                                 Delete_CurrentVersion := None |}))))
    /\ (forall w1 c e,
           describeConnector conn w (Id d) = (w1, (c, Some e)) ->
           resourceAwsMskConnectorDelete conn (w, d)
           = ((w1, d), Returned (FromErr (Some e)))).
Proof.
  intros W Attributes conn conn' w d Hdelete.
  split; [|split].
  - unfold Part000.resourceAwsMskConnectorDelete, bind, getId, call, ret.
    cbv zeta. now rewrite Hdelete.
  - unfold Part000.resourceAwsMskConnectorDelete, bind, getId, call, ret.
    cbv zeta.
    destruct (deleteConnector conn w _) as [w1 [e|]]; reflexivity.
  - intros w1 c e Hdescribe.
    unfold resourceAwsMskConnectorDelete, bind, getId, call, must, ret.
    cbv zeta. now rewrite Hdescribe.
Qed.

Lemma part000_delete_only_deletes_witness :
  Part000.resourceAwsMskConnectorDelete
    (loggingService (None, Some (errors_New "ThrottlingException"))
       (None, None) None None (None, None))
    ([], {| Id := "arn:aws:kafkaconnect:connector/c";
            attributes := requestAttributes |})
  = Part000.resourceAwsMskConnectorDelete
      (loggingService (Some describedConnector, None) (None, None) None None
         (None, None))
      ([], {| Id := "arn:aws:kafkaconnect:connector/c";
              attributes := requestAttributes |}).
Proof.
  exact (proj1 (@part000_delete_only_deletes (list Call)
                  (list (string * Dyn))
                  (loggingService
                     (None, Some (errors_New "ThrottlingException"))
                     (None, None) None None (None, None))
                  (loggingService (Some describedConnector, None) (None, None)
                     None None (None, None))
                  [] {| Id := "arn:aws:kafkaconnect:connector/c";
                        attributes := requestAttributes |}
                  eq_refl)).
Defined.
